(** * DegreeDash: the relational data model and its query surface

    A shallow embedding of the repositories of the DegreeDash backend
    ([backend/models/CourseModel.js], [backend/models/User.js] and
    [backend/routes/professor.js]) over an explicit model of the SQLite store
    they share, followed by the properties the specification states about
    them.

    Conventions of the embedding.
    - A table is the list of its rows in rowid order; a row is a record with
      one field per column.  A nullable column is an [option].
    - Text is a [string] of bytes: the UTF-8 encoding, well formed, in which
      SQLite keeps it and the driver hands it over.  Integers are [Z].
    - The driver hands a row over as an object keyed by column name.  For
      a statement that selects each name once this is the record of the
      row; for [SELECT u.*, a.*], where two columns share a name, it is a
      [Js.object] built column by column.
    - A repository method is a computation in the monad [M]: it threads the
      store and may throw.  No method opens a transaction, so the writes made
      before a throw stay in the store.
    - [CURRENT_TIMESTAMP] is read from a clock that is an input of the call
      (seconds, as [Z]).
    - A JavaScript number is an IEEE-754 binary64 value, taken from
      [SpecFloat] with [prec = 53] and [emax = 1024].
    - The [CREATE TABLE] statements are not among the sources.  Keys,
      uniqueness constraints and defaults are taken from the data model of
      the specification, in the definitions marked "Modelled from the
      spec"; where the specification is silent (the foreign key of
      [alumni_network]) the model takes a parameter. *)

From Stdlib Require Import ZArith List Bool String Ascii Lia.
From Stdlib Require Import Floats.SpecFloat.
From Stdlib Require Import Sorting.Permutation Sorting.Sorted.
Import ListNotations.

Local Open Scope string_scope.
Local Open Scope Z_scope.

(* ================================================================== *)
(** * Errors and the repository monad *)

(** What a [throw] carries: [new Error(msg)] raised by the JavaScript code,
    or the error object the SQLite driver rejects a statement with. *)
Inductive error : Type :=
| JsError (msg : string)
| SqliteError (msg : string).

Inductive result (A : Type) : Type :=
| Ok (a : A)
| Err (e : error).
Arguments Ok {A} a.
Arguments Err {A} e.

Module Js.

(** ** Truthiness of the values the code tests with [!x] and [x || d] *)

(** A text field of a request payload: [None] is [undefined]/[null]. *)
Definition truthy_str (x : option string) : bool :=
  match x with
  | Some (String _ _) => true
  | _ => false
  end.

(** [x || d] on such a field, with a string default. *)
Definition or_str (x : option string) (d : string) : string :=
  match x with
  | Some (String a r) => String a r
  | _ => d
  end.

(** [x || null]. *)
Definition or_null (x : option string) : option string :=
  match x with
  | Some (String a r) => Some (String a r)
  | _ => None
  end.

(** The text of a field that passed a truthiness test. *)
Definition text (x : option string) : string :=
  match x with
  | Some v => v
  | None => ""
  end.

(** ** Numbers *)

Definition num : Type := spec_float.

Definition prec : Z := 53.
Definition emax : Z := 1024.

(** The number an integer column value becomes (nearest, ties to even). *)
Definition of_Z (z : Z) : num := binary_normalize prec emax z 0 false.

Definition add (x y : num) : num := SFadd prec emax x y.
Definition div (x y : num) : num := SFdiv prec emax x y.

(** [ToBoolean] on a number: [+0], [-0] and [NaN] are falsy. *)
Definition truthy (x : num) : bool :=
  match x with
  | S754_zero _ => false
  | S754_nan => false
  | _ => true
  end.

(** The value of [parseFloat(x.toFixed(1))].  [Tenths n] is the number the
    decimal string of [n / 10] parses to ([Tenths 40] is 4.0); a number
    that [toFixed] prints
    through [ToString] (not finite, or at least [1e21]) parses back to
    itself.  A negative [x] that rounds to zero prints as ["-0.0"], which
    parses to [-0]; it is [Tenths 0] here, the two zeros being equal under
    [===]. *)
Inductive fixed1 : Type :=
| Tenths (n : Z)
| Unrounded (x : num).

(** [Number.prototype.toFixed] with one fraction digit, on the magnitude
    [m * 2^e]: the integer [n] with [n / 10] closest to it, the larger one
    on a tie. *)
Definition round_tenths (m : positive) (e : Z) : Z :=
  if 0 <=? e then 10 * Z.pos m * 2 ^ e
  else (20 * Z.pos m + 2 ^ (- e)) / (2 * 2 ^ (- e)).

Definition below_1e21 (m : positive) (e : Z) : bool :=
  if 0 <=? e then Z.pos m * 2 ^ e <? 10 ^ 21
  else Z.pos m <? 10 ^ 21 * 2 ^ (- e).

Definition toFixed1 (x : num) : fixed1 :=
  match x with
  | S754_zero _ => Tenths 0
  | S754_finite s m e =>
      if below_1e21 m e
      then Tenths (if s then - round_tenths m e else round_tenths m e)
      else Unrounded x
  | _ => Unrounded x
  end.

(** [x || 0] on the result of an SQL [SUM], which is [NULL] over no row. *)
Definition or_zero (x : option nat) : nat :=
  match x with
  | Some n => n
  | None => 0%nat
  end.

(** A numeric filter value is used when it is truthy: present and not 0. *)
Definition truthy_int (x : option Z) : bool :=
  match x with
  | Some n => negb (n =? 0)
  | None => false
  end.

(** ** [String.prototype.trim] *)

(** A text from its UTF-8 bytes. *)
Definition bytes (l : list N) : string :=
  fold_right (fun n t => String (ascii_of_N n) t) EmptyString l.

(** The code points [trim] strips, each as its UTF-8 bytes: the WhiteSpace
    and LineTerminator productions of ECMAScript, that is U+0009 to U+000D,
    U+0020, U+00A0, U+1680, U+2000 to U+200A, U+2028, U+2029, U+202F,
    U+205F, U+3000 and U+FEFF. *)
Definition white_space : list string :=
  map bytes
    [[9]; [10]; [11]; [12]; [13]; [32]; [194; 160]; [225; 154; 128];
     [226; 128; 128]; [226; 128; 129]; [226; 128; 130]; [226; 128; 131];
     [226; 128; 132]; [226; 128; 133]; [226; 128; 134]; [226; 128; 135];
     [226; 128; 136]; [226; 128; 137]; [226; 128; 138]; [226; 128; 168];
     [226; 128; 169]; [226; 128; 175]; [226; 129; 159]; [227; 128; 128];
     [239; 187; 191]]%N.

Fixpoint starts_with (w t : string) : bool :=
  match w, t with
  | EmptyString, _ => true
  | String a w', String b t' => Ascii.eqb a b && starts_with w' t'
  | String _ _, EmptyString => false
  end.

(** The number of bytes of the member of [ws] that [t] starts with, 0 when
    it starts with none. *)
Definition starts_with_any (ws : list string) (t : string) : nat :=
  match find (fun w => starts_with w t) ws with
  | Some w => String.length w
  | None => 0%nat
  end.

(** Drops the members of [ws] that [t] starts with, one after the other;
    [pending] counts the bytes still to drop of the member under way. *)
Fixpoint drop_leading (ws : list string) (pending : nat) (t : string)
    : string :=
  match t with
  | EmptyString => EmptyString
  | String c t' =>
      match pending with
      | S k => drop_leading ws k t'
      | O =>
          match starts_with_any ws t with
          | S k => drop_leading ws k t'
          | O => t
          end
      end
  end.

Definition reverse (t : string) : string :=
  string_of_list_ascii (rev (list_ascii_of_string t)).

Definition trim_start (t : string) : string :=
  drop_leading white_space 0 t.

(** UTF-8 can be read backwards: a text ends with a code point exactly
    when its bytes end with the bytes of that code point. *)
Definition trim_end (t : string) : string :=
  reverse (drop_leading (map reverse white_space) 0 (reverse t)).

Definition trim (t : string) : string := trim_end (trim_start t).

(** ** Objects *)

(** A value of a row object the driver builds; a timestamp is kept as the
    clock reading it stands for. *)
Inductive value : Type :=
| VNull
| VInt (z : Z)
| VText (t : string)
| VTime (t : Z).

Definition opt_int (x : option Z) : value :=
  match x with Some z => VInt z | None => VNull end.

Definition opt_text (x : option string) : value :=
  match x with Some t => VText t | None => VNull end.

Definition opt_time (x : option Z) : value :=
  match x with Some t => VTime t | None => VNull end.

(** An object as its properties in insertion order. *)
Definition object : Type := list (string * value).

(** [o[k] = v]: an existing property keeps its place and takes the value. *)
Fixpoint assign (k : string) (v : value) (o : object) : object :=
  match o with
  | [] => [(k, v)]
  | (k', v') :: o' =>
      if String.eqb k' k then (k', v) :: o' else (k', v') :: assign k v o'
  end.

(** [o[k]], [None] for a property the object does not have. *)
Fixpoint prop (o : object) (k : string) : option value :=
  match o with
  | [] => None
  | (k', v) :: o' => if String.eqb k' k then Some v else prop o' k
  end.

(** The row object of the SQLite driver: it assigns the columns of the
    result one by one under their names, so of two columns with one name
    the later one is the one the object holds. *)
Definition of_columns (cols : list (string * value)) : object :=
  fold_left (fun o kv => assign (fst kv) (snd kv) o) cols [].

End Js.

(** ** The monad of repository methods *)

Section Monad.
Context {S : Type}.

Definition M (A : Type) : Type := S -> S * result A.

Definition ret {A} (a : A) : M A := fun s => (s, Ok a).

Definition throw {A} (e : error) : M A := fun s => (s, Err e).

Definition bind {A B} (c : M A) (k : A -> M B) : M B :=
  fun s =>
    match c s with
    | (s', Ok a) => k a s'
    | (s', Err e) => (s', Err e)
    end.

Definition get : M S := fun s => (s, Ok s).
End Monad.

Notation "x <- c ;; k" := (bind c (fun x => k))
  (at level 61, c at next level, right associativity).
Notation "c ;;; k" := (bind c (fun _ => k))
  (at level 61, right associativity).

(* ================================================================== *)
(** * SQL text: comparison, [LIKE] and [ORDER BY] *)

Module Sql.

(** [sqlite3Tolower]: the 26 upper-case ASCII letters are folded, every
    other character is itself. *)
Definition lower (c : ascii) : ascii :=
  let n := N_of_ascii c in
  if ((65 <=? n) && (n <=? 90))%N then ascii_of_N (n + 32) else c.

Definition eq_nocase (c d : ascii) : bool := Ascii.eqb (lower c) (lower d).

Definition percent : ascii := "%"%char.
Definition underscore : ascii := "_"%char.

(** The bytes of UTF-8: a character is one byte below 192, or a lead byte
    from 192 on with the continuation bytes (128 to 191) behind it. *)
Definition continuation (c : ascii) : bool :=
  let n := N_of_ascii c in ((128 <=? n) && (n <? 192))%N.

Definition lead (c : ascii) : bool := (192 <=? N_of_ascii c)%N.

Fixpoint skip_continuation (x : string) : string :=
  match x with
  | EmptyString => EmptyString
  | String d x' => if continuation d then skip_continuation x' else x
  end.

(** [sqlite3Utf8Read]: what is left of a text whose first character starts
    with [d] and goes on in [x]. *)
Definition after_character (d : ascii) (x : string) : string :=
  if lead d then skip_continuation x else x.

(** [x LIKE p] without [ESCAPE], as SQLite's [patternCompare] decides it:
    [%] matches any run of characters, [_] any one character, and any other
    character matches itself up to ASCII case.  The comparison goes byte by
    byte.  In well-formed text no character starts with a continuation
    byte, so [_] takes a whole character and none from the middle of one,
    and what follows a [%] is only ever found where a character starts. *)
Fixpoint like_match (p : string) : string -> bool :=
  match p with
  | EmptyString => fun x => match x with EmptyString => true | _ => false end
  | String c p' =>
      if Ascii.eqb c percent then
        fix star (x : string) : bool :=
          like_match p' x
          || match x with
             | EmptyString => false
             | String _ x' => star x'
             end
      else if Ascii.eqb c underscore then
        fun x => match x with
                 | EmptyString => false
                 | String d x' =>
                     negb (continuation d)
                     && like_match p' (after_character d x')
                 end
      else
        fun x => match x with
                 | EmptyString => false
                 | String d x' => eq_nocase c d && like_match p' x'
                 end
  end.

(** [col LIKE ?] on a nullable column: [NULL LIKE p] is [NULL], which a
    [WHERE] clause reads as false. *)
Definition like (col : option string) (p : string) : bool :=
  match col with
  | Some x => like_match p x
  | None => false
  end.

(** The template literal [`%${keyword}%`]. *)
Definition contains_pattern (keyword : string) : string :=
  String percent (keyword ++ String percent EmptyString).

(** [ORDER BY] as a stable insertion sort under a "comes no later than"
    test on rows. *)
Section OrderBy.
Context {A : Type} (le : A -> A -> bool).

Fixpoint insert_row (x : A) (l : list A) : list A :=
  match l with
  | [] => [x]
  | y :: l' => if le x y then x :: l else y :: insert_row x l'
  end.

Definition order_by (l : list A) : list A :=
  fold_right insert_row [] l.
End OrderBy.

(** [INTEGER PRIMARY KEY] given to an inserted row: one more than the
    largest rowid of the table, 1 in an empty table. *)
Definition next_rowid (ids : list Z) : Z := 1 + fold_right Z.max 0 ids.

(** A left join of one row with the rows of [right] that satisfy [on]. *)
Definition left_join {A B : Type} (on : A -> B -> bool) (right : list B)
    (a : A) : list (A * option B) :=
  match filter (on a) right with
  | [] => [(a, None)]
  | bs => map (fun b => (a, Some b)) bs
  end.

(** An inner join of one row with the rows of [right] that satisfy [on]. *)
Definition inner_join {A B : Type} (on : A -> B -> bool) (right : list B)
    (a : A) : list (A * B) :=
  map (fun b => (a, b)) (filter (on a) right).

(** [SUM(CASE WHEN p THEN 1 ELSE 0 END)]: [NULL] when there is no row. *)
Definition sum_case {A : Type} (p : A -> bool) (l : list A) : option nat :=
  match l with
  | [] => None
  | _ => Some (List.length (filter p l))
  end.

(** [col = ?] on a nullable column: never true on [NULL]. *)
Definition eq_text (col : option string) (v : string) : bool :=
  match col with
  | Some x => String.eqb x v
  | None => false
  end.

Definition eq_int (col : option Z) (v : Z) : bool :=
  match col with
  | Some x => x =? v
  | None => false
  end.

(** [ORDER BY col DESC] on a nullable integer column, as the first of two
    sort keys: [Lt] puts the left row first, [Eq] leaves it to the next
    key.  [NULL] is the smallest value, so it comes last. *)
Definition desc_nulls_last (x y : option Z) : comparison :=
  match x, y with
  | Some a, Some b => b ?= a
  | Some _, None => Lt
  | None, Some _ => Gt
  | None, None => Eq
  end.

End Sql.

(* ================================================================== *)
(** * The store *)

Record course_row : Type := {
  course_id : Z;
  course_code : string;
  course_name : string;
  course_department : string;
  course_description : option string;
  course_created_at : Z
}.

Record professor_row : Type := {
  professor_id : Z;
  professor_name : string;
  professor_department : string
}.

(** [rating] and [difficulty] are integer columns; no layer checks their
    range. *)
Record review_row : Type := {
  review_id : Z;
  review_user_id : Z;
  review_course_id : Z;
  review_professor_id : option Z;
  review_rating : Z;
  review_difficulty : Z;
  review_comment : option string;
  review_would_recommend : bool;
  review_semester_taken : option string;
  review_year_taken : option Z;
  review_created_at : Z
}.

Record user_row : Type := {
  user_id : Z;
  user_microsoft_id : string;
  user_email : string;
  user_name : string;
  user_avatar_url : option string;
  user_type : string;
  user_graduation_year : option Z;
  user_major : option string;
  user_enrollment_year : option Z;
  user_last_login : Z;
  user_created_at : Z;
  user_updated_at : option Z
}.

Record alumni_row : Type := {
  alumni_id : Z;
  alumni_user_id : Z;
  alumni_current_employer : option string;
  alumni_job_title : option string;
  alumni_industry : option string;
  alumni_location : option string;
  alumni_linkedin_url : option string;
  alumni_mentorship_available : bool;
  alumni_updated_at : option Z
}.

(** The database file, and [last_id], the [lastID] of the connection the
    route handlers share ([database/db]): the rowid of its latest
    successful [INSERT], 0 before the first. *)
Record store : Type := {
  courses : list course_row;
  professors : list professor_row;
  reviews : list review_row;
  users : list user_row;
  alumni_network : list alumni_row;
  last_id : Z
}.

Definition empty_store : store :=
  {| courses := []; professors := []; reviews := []; users := [];
     alumni_network := []; last_id := 0 |}.

Definition set_courses (cs : list course_row) (s : store) : store :=
  {| courses := cs; professors := professors s; reviews := reviews s;
     users := users s; alumni_network := alumni_network s;
     last_id := last_id s |}.

Definition set_users (us : list user_row) (s : store) : store :=
  {| courses := courses s; professors := professors s; reviews := reviews s;
     users := us; alumni_network := alumni_network s;
     last_id := last_id s |}.

Definition set_alumni_network (al : list alumni_row) (s : store) : store :=
  {| courses := courses s; professors := professors s; reviews := reviews s;
     users := users s; alumni_network := al; last_id := last_id s |}.

Definition insert_professor (p : professor_row) (s : store) : store :=
  {| courses := courses s; professors := professors s ++ [p];
     reviews := reviews s; users := users s;
     alumni_network := alumni_network s; last_id := professor_id p |}.

(* ================================================================== *)
(** * [backend/models/CourseModel.js] *)

Module Course.

(** The payload of [create]: [None] is a key that is missing or [null]. *)
Record fields : Type := {
  f_course_code : option string;
  f_course_name : option string;
  f_department : option string;
  f_description : option string
}.

Record with_reviews : Type := {
  course : course_row;
  reviews_of : list (review_row * option string);
  review_count : nat;
  average_rating : option Js.fixed1
}.

Definition missing_required_fields : string :=
  "Missing required fields: course_code, course_name, and department are required".

Definition cannot_delete : string :=
  "Cannot delete course with existing reviews".

(** Modelled from the spec: the [courses] table, whose [CREATE TABLE]
    statement is not part of the sources.  The spec gives it an
    auto-assigned integer key, a unique [course_code] and a [created_at]
    set at creation; the driver reports a duplicate code as a constraint
    failure. *)
Definition insert_course (now : Z) (code name dept : string)
    (descr : option string) : M (S := store) Z :=
  fun s =>
    if existsb (fun c => String.eqb (course_code c) code) (courses s)
    then (s, Err (SqliteError
           "SQLITE_CONSTRAINT: UNIQUE constraint failed: courses.course_code"))
    else
      let id := Sql.next_rowid (map course_id (courses s)) in
      let row := {| course_id := id; course_code := code;
                    course_name := name; course_department := dept;
                    course_description := descr;
                    course_created_at := now |} in
      (set_courses (courses s ++ [row]) s, Ok id).

(** [SELECT * FROM courses WHERE course_code = ?] *)
Definition findByCode (courseCode : string) : M (option course_row) :=
  s <- get ;;
  ret (find (fun c => String.eqb (course_code c) courseCode) (courses s)).

(** [SELECT * FROM courses WHERE id = ?] *)
Definition findById (id : Z) : M (option course_row) :=
  s <- get ;;
  ret (find (fun c => course_id c =? id) (courses s)).

Definition create (now : Z) (courseData : fields) : M (option course_row) :=
  if negb (Js.truthy_str (f_course_code courseData))
     || negb (Js.truthy_str (f_course_name courseData))
     || negb (Js.truthy_str (f_department courseData))
  then throw (JsError missing_required_fields)
  else
    id <- insert_course now
            (Js.text (f_course_code courseData))
            (Js.text (f_course_name courseData))
            (Js.text (f_department courseData))
            (Js.or_null (f_description courseData)) ;;
    findById id.

(** [SELECT COUNT( * ) as count FROM reviews WHERE course_id = ?] *)
Definition review_check (id : Z) (s : store) : nat :=
  List.length (filter (fun r => review_course_id r =? id) (reviews s)).

(** [DELETE FROM courses WHERE id = ?], giving the number of rows removed.
    Reviews are the only referencing rows the store holds, and [delete]
    has ruled them out when it gets here. *)
Definition delete_course (id : Z) : M (S := store) nat :=
  fun s =>
    let kept := filter (fun c => negb (course_id c =? id)) (courses s) in
    (set_courses kept s,
     Ok (List.length (courses s) - List.length kept)%nat).

Definition delete (id : Z) : M bool :=
  s <- get ;;
  if (0 <? review_check id s)%nat
  then throw (JsError cannot_delete)
  else
    changes <- delete_course id ;;
    ret (0 <? changes)%nat.

(** The [WHERE] clause of [search]. *)
Definition search_where (searchTerm : string) (c : course_row) : bool :=
  Sql.like (Some (course_code c)) searchTerm
  || Sql.like (Some (course_name c)) searchTerm
  || Sql.like (course_description c) searchTerm.

Definition by_course_code (c d : course_row) : bool :=
  String.leb (course_code c) (course_code d).

Definition search (keyword : string) : M (list course_row) :=
  s <- get ;;
  let searchTerm := Sql.contains_pattern keyword in
  ret (Sql.order_by by_course_code
         (filter (search_where searchTerm) (courses s))).

(** [LEFT JOIN professors p ON r.professor_id = p.id] *)
Definition review_professor (r : review_row) (p : professor_row) : bool :=
  match review_professor_id r with
  | Some pid => pid =? professor_id p
  | None => false
  end.

Definition newest_first (x y : review_row * option professor_row) : bool :=
  review_created_at (fst y) <=? review_created_at (fst x).

(** The reviews query of [getCourseWithReviews]: each review with the name
    of its professor, newest first. *)
Definition reviews_with_professor (courseId : Z) (s : store)
    : list (review_row * option string) :=
  map (fun rp => (fst rp, option_map professor_name (snd rp)))
    (Sql.order_by newest_first
       (filter (fun rp => review_course_id (fst rp) =? courseId)
          (flat_map (Sql.left_join review_professor (professors s))
             (reviews s)))).

(** [reviews.reduce((acc, review) => acc + review.rating, 0)] *)
Definition sum_ratings (rs : list (review_row * option string)) : Js.num :=
  fold_left
    (fun acc review => Js.add acc (Js.of_Z (review_rating (fst review))))
    rs (Js.of_Z 0).

Definition avg_rating (rs : list (review_row * option string))
    : option Js.num :=
  if (0 <? List.length rs)%nat
  then Some (Js.div (sum_ratings rs) (Js.of_Z (Z.of_nat (List.length rs))))
  else None.

(** [avgRating ? parseFloat(avgRating.toFixed(1)) : null] *)
Definition rounded_rating (avgRating : option Js.num) : option Js.fixed1 :=
  match avgRating with
  | Some x => if Js.truthy x then Some (Js.toFixed1 x) else None
  | None => None
  end.

Definition getCourseWithReviews (courseId : Z) : M (option with_reviews) :=
  found <- findById courseId ;;
  match found with
  | None => ret None
  | Some c =>
      s <- get ;;
      let rs := reviews_with_professor courseId s in
      let avgRating := avg_rating rs in
      ret (Some {| course := c;
                   reviews_of := rs;
                   review_count := List.length rs;
                   average_rating := rounded_rating avgRating |})
  end.

(** The [filters] argument of [findAll]; the route also passes [semester]
    and [year], which [findAll] does not read. *)
Record filters : Type := {
  fl_department : option string;
  fl_search : option string
}.

Record stats : Type := {
  total_courses : nat;
  total_departments : nat;
  courses_with_reviews : nat
}.

Definition department_filter (fl : filters) (c : course_row) : bool :=
  if Js.truthy_str (fl_department fl)
     && negb (String.eqb (Js.text (fl_department fl)) "all")
  then String.eqb (course_department c) (Js.text (fl_department fl))
  else true.

Definition search_filter (fl : filters) (c : course_row) : bool :=
  if Js.truthy_str (fl_search fl)
     && negb (String.eqb (Js.trim (Js.text (fl_search fl))) "")
  then search_where (Sql.contains_pattern (Js.trim (Js.text (fl_search fl)))) c
  else true.

Definition findAll (fl : filters) : M (list course_row) :=
  s <- get ;;
  ret (Sql.order_by by_course_code
         (filter (fun c => department_filter fl c && search_filter fl c)
            (courses s))).

(** [SELECT * FROM courses WHERE department = ? ORDER BY course_code] *)
Definition findByDepartment (department : string) : M (list course_row) :=
  s <- get ;;
  ret (Sql.order_by by_course_code
         (filter (fun c => String.eqb (course_department c) department)
            (courses s))).

(** [SELECT DISTINCT department FROM courses WHERE department IS NOT NULL
    ORDER BY department], then [rows.map(row => row.department)]. *)
Definition getDepartments : M (list string) :=
  s <- get ;;
  ret (Sql.order_by String.leb
         (nodup string_dec (map course_department (courses s)))).

Definition getStats : M stats :=
  s <- get ;;
  ret {| total_courses := List.length (courses s);
         total_departments :=
           List.length (nodup string_dec (map course_department (courses s)));
         courses_with_reviews :=
           List.length (nodup Z.eq_dec (map review_course_id (reviews s))) |}.

End Course.

(* ================================================================== *)
(** * [backend/models/User.js] *)

Module User.

(** The profile the identity provider hands over: [id],
    [emails[0].value], [displayName] and the optional [photos[0].value]. *)
Record profile : Type := {
  profile_id : string;
  profile_email : string;
  profile_displayName : string;
  profile_photo : option string
}.

(** The payload of [create]; [None] is a key left [undefined]. *)
Record user_data : Type := {
  d_microsoft_id : string;
  d_email : string;
  d_name : string;
  d_avatar_url : option string;
  d_user_type : option string;
  d_graduation_year : option Z;
  d_major : option string;
  d_enrollment_year : option Z
}.

(** The payload of [updateAlumniNetwork]. *)
Record alumni_data : Type := {
  a_graduation_year : option Z;
  a_current_employer : option string;
  a_job_title : option string;
  a_industry : option string;
  a_location : option string;
  a_linkedin_url : option string;
  a_mentorship_available : option bool
}.

(** A default parameter or destructuring default: used for [undefined]. *)
Definition default {A : Type} (d : A) (x : option A) : A :=
  match x with
  | Some v => v
  | None => d
  end.

(** [SELECT * FROM users WHERE microsoft_id = ?] *)
Definition findByMicrosoftId (microsoftId : string) : M (option user_row) :=
  s <- get ;;
  ret (find (fun u => String.eqb (user_microsoft_id u) microsoftId) (users s)).

(** [SELECT * FROM users WHERE id = ?] *)
Definition findById (id : Z) : M (option user_row) :=
  s <- get ;;
  ret (find (fun u => user_id u =? id) (users s)).

(** Modelled from the spec: the [users] table, whose [CREATE TABLE]
    statement is not part of the sources.  The spec gives it an
    auto-assigned integer key, a unique [microsoft_id] and a [created_at];
    [updated_at] is empty until an update writes it. *)
Definition insert_user (now : Z) (microsoft_id email name : string)
    (avatar_url : option string) (type : string)
    (graduation_year : option Z) (major : option string)
    (enrollment_year : option Z) : M (S := store) Z :=
  fun s =>
    if existsb (fun u => String.eqb (user_microsoft_id u) microsoft_id)
         (users s)
    then (s, Err (SqliteError
           "SQLITE_CONSTRAINT: UNIQUE constraint failed: users.microsoft_id"))
    else
      let id := Sql.next_rowid (map user_id (users s)) in
      let row := {| user_id := id; user_microsoft_id := microsoft_id;
                    user_email := email; user_name := name;
                    user_avatar_url := avatar_url; user_type := type;
                    user_graduation_year := graduation_year;
                    user_major := major;
                    user_enrollment_year := enrollment_year;
                    user_last_login := now; user_created_at := now;
                    user_updated_at := None |} in
      (set_users (users s ++ [row]) s, Ok id).

Definition create (now : Z) (userData : user_data) : M (option user_row) :=
  id <- insert_user now
          (d_microsoft_id userData) (d_email userData) (d_name userData)
          (d_avatar_url userData)
          (default "current" (d_user_type userData))
          (d_graduation_year userData) (d_major userData)
          (d_enrollment_year userData) ;;
  findById id.

Definition touch_last_login (now : Z) (u : user_row) : user_row :=
  {| user_id := user_id u; user_microsoft_id := user_microsoft_id u;
     user_email := user_email u; user_name := user_name u;
     user_avatar_url := user_avatar_url u; user_type := user_type u;
     user_graduation_year := user_graduation_year u;
     user_major := user_major u;
     user_enrollment_year := user_enrollment_year u;
     user_last_login := now; user_created_at := user_created_at u;
     user_updated_at := user_updated_at u |}.

Definition retype (now : Z) (type : string) (graduationYear : option Z)
    (u : user_row) : user_row :=
  {| user_id := user_id u; user_microsoft_id := user_microsoft_id u;
     user_email := user_email u; user_name := user_name u;
     user_avatar_url := user_avatar_url u; user_type := type;
     user_graduation_year := graduationYear;
     user_major := user_major u;
     user_enrollment_year := user_enrollment_year u;
     user_last_login := user_last_login u;
     user_created_at := user_created_at u;
     user_updated_at := Some now |}.

(** [UPDATE users SET ... WHERE id = ?] *)
Definition update_users_where_id (id : Z) (f : user_row -> user_row)
    : M (S := store) unit :=
  fun s =>
    (set_users (map (fun u => if user_id u =? id then f u else u) (users s)) s,
     Ok tt).

Definition updateLastLogin (now : Z) (id : Z) : M unit :=
  update_users_where_id id (touch_last_login now).

Definition findOrCreateFromMicrosoft (now : Z) (p : profile)
    (userType : option string) : M (option user_row) :=
  let userType := default "current" userType in
  user <- findByMicrosoftId (profile_id p) ;;
  match user with
  | None =>
      create now {| d_microsoft_id := profile_id p;
                    d_email := profile_email p;
                    d_name := profile_displayName p;
                    d_avatar_url := profile_photo p;
                    d_user_type := Some userType;
                    d_graduation_year := None;
                    d_major := None;
                    d_enrollment_year := None |}
  | Some u =>
      updateLastLogin now (user_id u) ;;;
      ret (Some u)
  end.

(** The third parameter has the default [null], so an [undefined] year and
    a [null] one are both written as [NULL]. *)
Definition updateUserType (now : Z) (userId : Z) (userType : string)
    (graduationYear : option Z) : M (option user_row) :=
  update_users_where_id userId (retype now userType graduationYear) ;;;
  findById userId.

(** [SELECT * FROM alumni_network WHERE user_id = ?] *)
Definition alumni_by_user (userId : Z) : M (option alumni_row) :=
  s <- get ;;
  ret (find (fun a => alumni_user_id a =? userId) (alumni_network s)).

Definition rewrite_alumni (now : Z) (d : alumni_data) (a : alumni_row)
    : alumni_row :=
  {| alumni_id := alumni_id a; alumni_user_id := alumni_user_id a;
     alumni_current_employer := a_current_employer d;
     alumni_job_title := a_job_title d;
     alumni_industry := a_industry d;
     alumni_location := a_location d;
     alumni_linkedin_url := a_linkedin_url d;
     alumni_mentorship_available := default false (a_mentorship_available d);
     alumni_updated_at := Some now |}.

(** [UPDATE alumni_network SET ... WHERE user_id = ?] *)
Definition update_alumni (now : Z) (userId : Z) (d : alumni_data)
    : M (S := store) unit :=
  fun s =>
    (set_alumni_network
       (map (fun a => if alumni_user_id a =? userId
                      then rewrite_alumni now d a else a)
          (alumni_network s)) s,
     Ok tt).

(** [INSERT INTO alumni_network (...)].  The table's declaration is not part
    of the sources and the spec does not say whether [user_id] is declared
    as a foreign key into [users]: [fk] says whether it is.  With the key
    declared, the insert is rejected for a user id that no user row has. *)
Definition insert_alumni (fk : bool) (userId : Z) (d : alumni_data)
    : M (S := store) unit :=
  fun s =>
    if fk && negb (existsb (fun u => user_id u =? userId) (users s))
    then (s, Err (SqliteError
           "SQLITE_CONSTRAINT: FOREIGN KEY constraint failed"))
    else
      let row := {| alumni_id := Sql.next_rowid
                                   (map alumni_id (alumni_network s));
                    alumni_user_id := userId;
                    alumni_current_employer := a_current_employer d;
                    alumni_job_title := a_job_title d;
                    alumni_industry := a_industry d;
                    alumni_location := a_location d;
                    alumni_linkedin_url := a_linkedin_url d;
                    alumni_mentorship_available :=
                      default false (a_mentorship_available d);
                    alumni_updated_at := None |} in
      (set_alumni_network (alumni_network s ++ [row]) s, Ok tt).

Definition updateAlumniNetwork (fk : bool) (now : Z) (userId : Z)
    (alumniData : alumni_data) : M (option alumni_row) :=
  updateUserType now userId "alumni" (a_graduation_year alumniData) ;;;
  existing <- alumni_by_user userId ;;
  match existing with
  | Some _ => update_alumni now userId alumniData
  | None => insert_alumni fk userId alumniData
  end ;;;
  alumni_by_user userId.

(** [users u LEFT JOIN alumni_network a ON u.id = a.user_id] *)
Definition user_alumni (u : user_row) (a : alumni_row) : bool :=
  user_id u =? alumni_user_id a.

(** The columns of [u.*], under the names the statements of [User.js]
    call them by. *)
Definition user_columns (u : user_row) : list (string * Js.value) :=
  [("id", Js.VInt (user_id u));
   ("microsoft_id", Js.VText (user_microsoft_id u));
   ("email", Js.VText (user_email u));
   ("name", Js.VText (user_name u));
   ("avatar_url", Js.opt_text (user_avatar_url u));
   ("user_type", Js.VText (user_type u));
   ("graduation_year", Js.opt_int (user_graduation_year u));
   ("major", Js.opt_text (user_major u));
   ("enrollment_year", Js.opt_int (user_enrollment_year u));
   ("last_login", Js.VTime (user_last_login u));
   ("created_at", Js.VTime (user_created_at u));
   ("updated_at", Js.opt_time (user_updated_at u))].

(** The columns of [a.*]: the key [id] of the table, [user_id], and the
    columns [updateAlumniNetwork] writes.  Two of the names, [id] and
    [updated_at], are names of columns of [users] too. *)
Definition alumni_names : list string :=
  ["id"; "user_id"; "current_employer"; "job_title"; "industry";
   "location"; "linkedin_url"; "mentorship_available"; "updated_at"].

Definition alumni_values (a : alumni_row) : list Js.value :=
  [Js.VInt (alumni_id a);
   Js.VInt (alumni_user_id a);
   Js.opt_text (alumni_current_employer a);
   Js.opt_text (alumni_job_title a);
   Js.opt_text (alumni_industry a);
   Js.opt_text (alumni_location a);
   Js.opt_text (alumni_linkedin_url a);
   Js.VInt (if alumni_mentorship_available a then 1 else 0);
   Js.opt_time (alumni_updated_at a)].

(** [a.*] of a row of the join: all [NULL] where the left join found no
    profile row. *)
Definition alumni_columns (a : option alumni_row)
    : list (string * Js.value) :=
  combine alumni_names
    (match a with
     | Some r => alumni_values r
     | None => map (fun _ => Js.VNull) alumni_names
     end).

(** The object the driver makes of a row of [SELECT u.*, a.*]: one
    property per column name, so [id] and [updated_at] are those of
    [alumni_network], written over those of [users]. *)
Definition joined_object (ua : user_row * option alumni_row) : Js.object :=
  Js.of_columns (user_columns (fst ua) ++ alumni_columns (snd ua))%list.

Definition getAlumniNetwork (userId : Z) : M (option Js.object) :=
  s <- get ;;
  ret (option_map joined_object
         (hd_error
            (filter (fun ua => (user_id (fst ua) =? userId)
                               && String.eqb (user_type (fst ua)) "alumni")
               (flat_map (Sql.left_join user_alumni (alumni_network s))
                  (users s))))).

(** [SELECT * FROM users WHERE email = ?] *)
Definition findByEmail (email : string) : M (option user_row) :=
  s <- get ;;
  ret (find (fun u => String.eqb (user_email u) email) (users s)).

Definition by_name (u v : user_row) : bool :=
  String.leb (user_name u) (user_name v).

(** [SELECT * FROM users WHERE user_type = "current" ORDER BY name] *)
Definition getCurrentStudents : M (list user_row) :=
  s <- get ;;
  ret (Sql.order_by by_name
         (filter (fun u => String.eqb (user_type u) "current") (users s))).

(** [SELECT * FROM users WHERE user_type = "faculty" ORDER BY name] *)
Definition getFaculty : M (list user_row) :=
  s <- get ;;
  ret (Sql.order_by by_name
         (filter (fun u => String.eqb (user_type u) "faculty") (users s))).

Record alumni_filters : Type := {
  af_graduation_year : option Z;
  af_major : option string
}.

Definition alumni_where (fl : alumni_filters) (u : user_row) : bool :=
  String.eqb (user_type u) "alumni"
  && (if Js.truthy_int (af_graduation_year fl)
      then Sql.eq_int (user_graduation_year u)
             (default 0 (af_graduation_year fl))
      else true)
  && (if Js.truthy_str (af_major fl)
      then Sql.eq_text (user_major u) (Js.text (af_major fl))
      else true).

(** [ORDER BY graduation_year DESC, name] *)
Definition by_year_desc_name (u v : user_row) : bool :=
  match Sql.desc_nulls_last (user_graduation_year u) (user_graduation_year v)
  with
  | Lt => true
  | Eq => String.leb (user_name u) (user_name v)
  | Gt => false
  end.

Definition getAlumni (fl : alumni_filters) : M (list user_row) :=
  s <- get ;;
  ret (Sql.order_by by_year_desc_name (filter (alumni_where fl) (users s))).

Definition mentor_object (ua : user_row * alumni_row) : Js.object :=
  joined_object (fst ua, Some (snd ua)).

(** [SELECT u.*, a.* FROM users u JOIN alumni_network a ON u.id = a.user_id
    WHERE u.user_type = 'alumni' AND a.mentorship_available = 1
    ORDER BY u.name] *)
Definition getMentors : M (list Js.object) :=
  s <- get ;;
  ret (map mentor_object
         (Sql.order_by (fun x y => by_name (fst x) (fst y))
            (filter (fun ua => String.eqb (user_type (fst ua)) "alumni"
                               && alumni_mentorship_available (snd ua))
               (flat_map (Sql.inner_join user_alumni (alumni_network s))
                  (users s))))).

Record user_stats : Type := {
  total : nat;
  current_count : nat;
  alumni_count : nat;
  faculty_count : nat;
  staff_count : nat
}.

Definition of_type (t : string) (u : user_row) : bool :=
  String.eqb (user_type u) t.

Definition getUserStats : M user_stats :=
  s <- get ;;
  ret {| total := List.length (users s);
         current_count :=
           Js.or_zero (Sql.sum_case (of_type "current") (users s));
         alumni_count :=
           Js.or_zero (Sql.sum_case (of_type "alumni") (users s));
         faculty_count :=
           Js.or_zero (Sql.sum_case (of_type "faculty") (users s));
         staff_count :=
           Js.or_zero (Sql.sum_case (of_type "staff") (users s)) |}.







(** The columns [getAllUsers] selects. *)
Record listing : Type := {
  ls_id : Z;
  ls_email : string;
  ls_name : string;
  ls_avatar_url : option string;
  ls_user_type : string;
  ls_graduation_year : option Z;
  ls_major : option string;
  ls_enrollment_year : option Z;
  ls_created_at : Z;
  ls_last_login : Z
}.

Definition list_user (u : user_row) : listing :=
  {| ls_id := user_id u; ls_email := user_email u; ls_name := user_name u;
     ls_avatar_url := user_avatar_url u; ls_user_type := user_type u;
     ls_graduation_year := user_graduation_year u;
     ls_major := user_major u;
     ls_enrollment_year := user_enrollment_year u;
     ls_created_at := user_created_at u;
     ls_last_login := user_last_login u |}.

Record user_filters : Type := {
  uf_user_type : option string;
  uf_major : option string;
  uf_graduation_year : option Z
}.

Definition all_users_where (fl : user_filters) (u : user_row) : bool :=
  (if Js.truthy_str (uf_user_type fl)
   then String.eqb (user_type u) (Js.text (uf_user_type fl))
   else true)
  && (if Js.truthy_str (uf_major fl)
      then Sql.eq_text (user_major u) (Js.text (uf_major fl))
      else true)
  && (if Js.truthy_int (uf_graduation_year fl)
      then Sql.eq_int (user_graduation_year u)
             (default 0 (uf_graduation_year fl))
      else true).

(** [ORDER BY created_at DESC] *)
Definition newest_user_first (u v : user_row) : bool :=
  user_created_at v <=? user_created_at u.

Definition getAllUsers (fl : user_filters) : M (list listing) :=
  s <- get ;;
  ret (map list_user
         (Sql.order_by newest_user_first
            (filter (all_users_where fl) (users s)))).

End User.

(* ================================================================== *)
(** * [backend/routes/professor.js] *)

Module ProfessorRoutes.

Record request : Type := {
  req_user : option user_row;
  body_name : option string;
  body_department : option string
}.

Record response : Type := {
  status : Z;
  message : string;
  id : option Z
}.

(** Modelled from the spec: the [professors] table, whose [CREATE TABLE]
    statement is not part of the sources.  The spec makes the pair
    [(name, department)] unique, which is the conflict [INSERT OR IGNORE]
    skips over; a skipped insert leaves [lastID] as it was. *)
Definition insert_or_ignore (name department : string) (s : store) : store :=
  if existsb (fun p => String.eqb (professor_name p) name
                       && String.eqb (professor_department p) department)
       (professors s)
  then s
  else insert_professor
         {| professor_id := Sql.next_rowid (map professor_id (professors s));
            professor_name := name;
            professor_department := department |} s.

(** [router.post('/', ...)] *)
Definition post (req : request) (s : store) : store * response :=
  match req_user req with
  | None => (s, {| status := 401; message := "Not authenticated"; id := None |})
  | Some _ =>
      if negb (Js.truthy_str (body_name req))
      then (s, {| status := 400; message := "Name is required"; id := None |})
      else
        let s' := insert_or_ignore (Js.text (body_name req))
                    (Js.or_str (body_department req) "Unknown") s in
        (s', {| status := 200; message := "Professor added!";
                id := Some (last_id s') |})
  end.

(** The query string of [GET /professors]. *)
Record query : Type := {
  q_search : option string;
  q_department : option string
}.

Definition list_where (q : query) (p : professor_row) : bool :=
  (if Js.truthy_str (q_search q)
   then Sql.like_match (Sql.contains_pattern (Js.text (q_search q)))
          (professor_name p)
   else true)
  && (if Js.truthy_str (q_department q)
      then String.eqb (professor_department p) (Js.text (q_department q))
      else true).

(** [router.get('/', ...)]: the rows of the answer [{ professors: rows }].
    The query has no [ORDER BY]; the rows come in table order. *)
Definition get_all (q : query) (s : store) : list professor_row :=
  filter (list_where q) (professors s).

(** A row of [GET /professors/:id/reviews]: [r.*], [u.name as user_name],
    [c.course_code], [c.course_name]. *)
Record review_line : Type := {
  rl_review : review_row;
  rl_user_name : string;
  rl_course_code : option string;
  rl_course_name : option string
}.

Definition review_author (r : review_row) (u : user_row) : bool :=
  review_user_id r =? user_id u.

Definition review_course (ru : review_row * user_row) (c : course_row)
    : bool :=
  review_course_id (fst ru) =? course_id c.

Definition review_line_of (x : review_row * user_row * option course_row)
    : review_line :=
  {| rl_review := fst (fst x);
     rl_user_name := user_name (snd (fst x));
     rl_course_code := option_map course_code (snd x);
     rl_course_name := option_map course_name (snd x) |}.

Definition newest_line_first
    (x y : review_row * user_row * option course_row) : bool :=
  review_created_at (fst (fst y)) <=? review_created_at (fst (fst x)).

(** [router.get('/:id/reviews', ...)]: [reviews r JOIN users u ON
    r.user_id = u.id LEFT JOIN courses c ON r.course_id = c.id
    WHERE r.professor_id = ? ORDER BY r.created_at DESC]. *)
Definition reviews_of_professor (id : Z) (s : store) : list review_line :=
  map review_line_of
    (Sql.order_by newest_line_first
       (filter (fun x => Sql.eq_int (review_professor_id (fst (fst x))) id)
          (flat_map (Sql.left_join review_course (courses s))
             (flat_map (Sql.inner_join review_author (users s))
                (reviews s))))).

End ProfessorRoutes.

(* ================================================================== *)
(** * Vocabulary of the specification *)

(** A required field that is "missing or empty". *)
Definition missing_or_empty (x : option string) : Prop :=
  x = None \/ x = Some "".






Definition code_le (c d : course_row) : Prop :=
  String.leb (course_code c) (course_code d) = true.

(** Key and uniqueness invariants of the tables. *)
Definition professors_keyed (s : store) : Prop :=
  NoDup (map professor_id (professors s)).

Definition professor_pair (p : professor_row) : string * string :=
  (professor_name p, professor_department p).

Definition professors_unique (s : store) : Prop :=
  NoDup (map professor_pair (professors s)).

Definition users_keyed (s : store) : Prop :=
  NoDup (map user_id (users s)).

Definition users_unique (s : store) : Prop :=
  NoDup (map user_microsoft_id (users s)).

Definition alumni_unique (s : store) : Prop :=
  NoDup (map alumni_user_id (alumni_network s)).

Definition user_exists (userId : Z) (s : store) : Prop :=
  exists u, In u (users s) /\ user_id u = userId.

Definition courses_keyed (s : store) : Prop :=
  NoDup (map course_id (courses s)).

Definition courses_unique (s : store) : Prop :=
  NoDup (map course_code (courses s)).

(** All of them together. *)
Definition store_ok (s : store) : Prop :=
  courses_keyed s /\ courses_unique s
  /\ professors_keyed s /\ professors_unique s
  /\ users_keyed s /\ users_unique s
  /\ alumni_unique s.

(** The rows of a table that a key selects. *)
Definition profiles_of (userId : Z) (s : store) : list alumni_row :=
  filter (fun a => alumni_user_id a =? userId) (alumni_network s).

Definition reviews_of_course (courseId : Z) (s : store) : list review_row :=
  filter (fun r => review_course_id r =? courseId) (reviews s).

Definition professors_with (name department : string) (s : store)
    : list professor_row :=
  filter (fun p => String.eqb (professor_name p) name
                   && String.eqb (professor_department p) department)
    (professors s).

Definition users_with_microsoft_id (mid : string) (s : store)
    : list user_row :=
  filter (fun u => String.eqb (user_microsoft_id u) mid) (users s).

(** The users table once [updateUserType(userId, 'alumni', year)] has run:
    the rows with the given id are retyped, the others are as they were. *)
Definition retyped_users (now userId : Z) (d : User.alumni_data) (s : store)
    : list user_row :=
  map (fun u => if user_id u =? userId
                then User.retype now "alumni" (User.a_graduation_year d) u
                else u)
    (users s).

(** The row [findOrCreateFromMicrosoft] inserts for an unknown profile. *)
Definition new_user (now : Z) (p : User.profile) (userType : option string)
    (s : store) : user_row :=
  {| user_id := Sql.next_rowid (map user_id (users s));
     user_microsoft_id := User.profile_id p;
     user_email := User.profile_email p;
     user_name := User.profile_displayName p;
     user_avatar_url := User.profile_photo p;
     user_type := User.default "current" userType;
     user_graduation_year := None; user_major := None;
     user_enrollment_year := None;
     user_last_login := now; user_created_at := now;
     user_updated_at := None |}.

(** The users table once [updateLastLogin(id)] has run. *)
Definition logged_in (now id : Z) (s : store) : list user_row :=
  map (fun u => if user_id u =? id then User.touch_last_login now u else u)
    (users s).

(** Equality of [(name, department)] pairs, column by column. *)
Definition pair_eqb (x y : string * string) : bool :=
  String.eqb (fst x) (fst y) && String.eqb (snd x) (snd y).

(** A sequence of [updateAlumniNetwork] calls, one after the other; a call
    that throws leaves its writes behind and the next one runs. *)
Fixpoint run_alumni_updates (fk : bool)
    (calls : list (Z * Z * User.alumni_data)) (s : store) : store :=
  match calls with
  | [] => s
  | (now, userId, d) :: rest =>
      run_alumni_updates fk rest
        (fst (User.updateAlumniNetwork fk now userId d s))
  end.

(** The calls that write to the store, and a session of them. *)
Inductive call : Type :=
| CourseCreate (now : Z) (courseData : Course.fields)
| CourseDelete (id : Z)
| UserFindOrCreate (now : Z) (p : User.profile) (userType : option string)
| UserUpdateAlumniNetwork (now : Z) (userId : Z) (d : User.alumni_data)
| ProfessorPost (req : ProfessorRoutes.request).

Definition run_call (fk : bool) (c : call) (s : store) : store :=
  match c with
  | CourseCreate now courseData => fst (Course.create now courseData s)
  | CourseDelete id => fst (Course.delete id s)
  | UserFindOrCreate now p userType =>
      fst (User.findOrCreateFromMicrosoft now p userType s)
  | UserUpdateAlumniNetwork now userId d =>
      fst (User.updateAlumniNetwork fk now userId d s)
  | ProfessorPost req => fst (ProfessorRoutes.post req s)
  end.

Definition run_calls (fk : bool) (cs : list call) (s : store) : store :=
  fold_left (fun s c => run_call fk c s) cs s.

(** A sequence of [POST /professors] requests. *)
Fixpoint run_posts (reqs : list ProfessorRoutes.request) (s : store) : store :=
  match reqs with
  | [] => s
  | r :: rest => run_posts rest (fst (ProfessorRoutes.post r s))
  end.

(** ** Vocabulary of the list queries *)

(** A text made of white space only: some white-space characters, one
    after the other. *)
Definition blank (t : string) : Prop :=
  exists ws,
    Forall (fun w => In w Js.white_space) ws
    /\ t = fold_right String.append "" ws.

(** What the [department] entry of [findAll]'s filters asks of a course:
    nothing when it is missing, empty or ["all"]. *)
Definition department_ok (fl : Course.filters) (c : course_row) : Prop :=
  match Course.fl_department fl with
  | None => True
  | Some d => d = "" \/ d = "all" \/ course_department c = d
  end.


Definition text_le (a b : string) : Prop := String.leb a b = true.

Definition name_le (u v : user_row) : Prop :=
  String.leb (user_name u) (user_name v) = true.

(** The professor name a review row is listed with: the name of the
    professor row its [professor_id] points to, nothing when the id is
    [NULL] or points to no row. *)
Definition professor_name_of (s : store) (rv : review_row)
    (name : option string) : Prop :=
  match name with
  | Some n =>
      exists p, In p (professors s)
                /\ review_professor_id rv = Some (professor_id p)
                /\ professor_name p = n
  | None =>
      forall p, In p (professors s) ->
                review_professor_id rv <> Some (professor_id p)
  end.

Definition newer_or_same (x y : review_row) : Prop :=
  review_created_at y <= review_created_at x.

(** What the filters of [getAlumni] ask of an alumni row; a year of 0 and
    an empty major are falsy and ask nothing. *)
Definition alumni_filter_ok (fl : User.alumni_filters) (u : user_row) : Prop :=
  match User.af_graduation_year fl with
  | None => True
  | Some y => y = 0 \/ user_graduation_year u = Some y
  end
  /\ match User.af_major fl with
     | None => True
     | Some m => m = "" \/ user_major u = Some m
     end.

(** [u] may come before [v] under [ORDER BY graduation_year DESC, name]. *)
Definition year_name_order (u v : user_row) : Prop :=
  match user_graduation_year u, user_graduation_year v with
  | Some a, Some b => b < a \/ (a = b /\ name_le u v)
  | Some _, None => True
  | None, Some _ => False
  | None, None => name_le u v
  end.

(** What the filters of [getAllUsers] ask of a user row. *)
Definition users_filter_ok (fl : User.user_filters) (u : user_row) : Prop :=
  match User.uf_user_type fl with
  | None => True
  | Some t => t = "" \/ user_type u = t
  end
  /\ match User.uf_major fl with
     | None => True
     | Some m => m = "" \/ user_major u = Some m
     end
  /\ match User.uf_graduation_year fl with
     | None => True
     | Some y => y = 0 \/ user_graduation_year u = Some y
     end.



Definition listed_newer_or_same (x y : User.listing) : Prop :=
  User.ls_created_at y <= User.ls_created_at x.

Definition known_type (u : user_row) : Prop :=
  user_type u = "current" \/ user_type u = "alumni"
  \/ user_type u = "faculty" \/ user_type u = "staff".

(** The rows [getMentors] selects, in the order of the result, before the
    driver makes objects of them. *)
Definition mentor_rows (s : store) : list (user_row * alumni_row) :=
  Sql.order_by (fun x y => User.by_name (fst x) (fst y))
    (filter (fun ua => String.eqb (user_type (fst ua)) "alumni"
                       && alumni_mentorship_available (snd ua))
       (flat_map (Sql.inner_join User.user_alumni (alumni_network s))
          (users s))).


(** The review rows of a professor whose author is a row of [users]. *)
Definition authored_reviews_of_professor (id : Z) (s : store)
    : list review_row :=
  filter (fun rv => Sql.eq_int (review_professor_id rv) id)
    (filter (fun rv => existsb (fun u => review_user_id rv =? user_id u)
                         (users s))
       (reviews s)).

(** What a line of [GET /professors/:id/reviews] shows beside the review:
    the name of the author's row, and code and name of the course row, or
    neither when no course row has the review's [course_id]. *)
Definition review_line_ok (s : store) (l : ProfessorRoutes.review_line)
    : Prop :=
  (exists u, In u (users s)
             /\ user_id u = review_user_id (ProfessorRoutes.rl_review l)
             /\ ProfessorRoutes.rl_user_name l = user_name u)
  /\ match ProfessorRoutes.rl_course_code l with
     | Some code =>
         exists c, In c (courses s)
                   /\ course_id c
                      = review_course_id (ProfessorRoutes.rl_review l)
                   /\ code = course_code c
                   /\ ProfessorRoutes.rl_course_name l = Some (course_name c)
     | None =>
         ProfessorRoutes.rl_course_name l = None
         /\ ~ In (review_course_id (ProfessorRoutes.rl_review l))
              (map course_id (courses s))
     end.

(** A review by a user that does not exist, for professor 1. *)
Definition orphan_review : review_row :=
  {| review_id := 9; review_user_id := 42; review_course_id := 1;
     review_professor_id := Some 1; review_rating := 4;
     review_difficulty := 2; review_comment := None;
     review_would_recommend := true; review_semester_taken := None;
     review_year_taken := None; review_created_at := 300 |}.

(* ================================================================== *)
(** * Sample data *)

(** A search text of a space, a no-break space (U+00A0) and a tab. *)
Definition no_break_spaces : string := Js.bytes [32; 194; 160; 9]%N.

(** The search text ["algo"] between a no-break space and a space before
    it and a thin space (U+2009) behind it. *)
Definition padded_algo : string :=
  Js.bytes [194; 160; 32]%N ++ "algo" ++ Js.bytes [226; 128; 137]%N.

Definition comp3030 : course_row :=
  {| course_id := 1; course_code := "COMP 3030";
     course_name := "Algorithms"; course_department := "COMP";
     course_description := Some "Design and analysis";
     course_created_at := 100 |}.

Definition comp3030_fields : Course.fields :=
  {| Course.f_course_code := Some "COMP 3030";
     Course.f_course_name := Some "Algorithms";
     Course.f_department := Some "COMP";
     Course.f_description := Some "Design and analysis" |}.

(** The [n]-th review of course 1, by user 1, without a professor. *)
Definition review_rated (n : Z) (rating : Z) : review_row :=
  {| review_id := n; review_user_id := 1; review_course_id := 1;
     review_professor_id := None; review_rating := rating;
     review_difficulty := 3; review_comment := None;
     review_would_recommend := true; review_semester_taken := None;
     review_year_taken := None; review_created_at := 100 + n |}.

Fixpoint reviews_rated (n : Z) (ratings : list Z) : list review_row :=
  match ratings with
  | [] => []
  | r :: rest => review_rated n r :: reviews_rated (n + 1) rest
  end.

(** One course and one review of it per rating given. *)
Definition store_rated (ratings : list Z) : store :=
  {| courses := [comp3030]; professors := [];
     reviews := reviews_rated 1 ratings; users := [];
     alumni_network := []; last_id := 0 |}.

Definition ada : user_row :=
  {| user_id := 1; user_microsoft_id := "ms-ada";
     user_email := "ada@example.edu"; user_name := "Ada";
     user_avatar_url := None; user_type := "current";
     user_graduation_year := Some 2019; user_major := Some "COMP";
     user_enrollment_year := Some 2015; user_last_login := 50;
     user_created_at := 10; user_updated_at := None |}.

Definition bob : user_row :=
  {| user_id := 2; user_microsoft_id := "ms-bob";
     user_email := "bob@example.edu"; user_name := "Bob";
     user_avatar_url := None; user_type := "alumni";
     user_graduation_year := Some 2012; user_major := None;
     user_enrollment_year := None; user_last_login := 60;
     user_created_at := 20; user_updated_at := None |}.

(** Two users, no alumni profile. *)
Definition campus : store :=
  {| courses := []; professors := []; reviews := []; users := [ada; bob];
     alumni_network := []; last_id := 0 |}.

(** [campus] after Ada was made an alumna at time 30: her row now has an
    [updated_at], and there is still no alumni profile. *)
Definition campus_graduated : store :=
  fst (User.updateUserType 30 1 "alumni" (Some 2019) campus).

Definition at_acme : User.alumni_data :=
  {| User.a_graduation_year := None;
     User.a_current_employer := Some "Acme";
     User.a_job_title := Some "Engineer";
     User.a_industry := None; User.a_location := None;
     User.a_linkedin_url := None;
     User.a_mentorship_available := None |}.

Definition at_globex : User.alumni_data :=
  {| User.a_graduation_year := Some 2019;
     User.a_current_employer := Some "Globex";
     User.a_job_title := None;
     User.a_industry := None; User.a_location := None;
     User.a_linkedin_url := None;
     User.a_mentorship_available := Some true |}.

Definition ada_profile : User.profile :=
  {| User.profile_id := "ms-ada"; User.profile_email := "ada@example.edu";
     User.profile_displayName := "Ada"; User.profile_photo := None |}.

Definition eve_profile : User.profile :=
  {| User.profile_id := "ms-eve"; User.profile_email := "eve@example.edu";
     User.profile_displayName := "Eve"; User.profile_photo := None |}.

Definition jane_lee : ProfessorRoutes.request :=
  {| ProfessorRoutes.req_user := Some ada;
     ProfessorRoutes.body_name := Some "Dr. Jane Lee";
     ProfessorRoutes.body_department := Some "COMP" |}.

Definition jane_lee_no_department : ProfessorRoutes.request :=
  {| ProfessorRoutes.req_user := Some ada;
     ProfessorRoutes.body_name := Some "Dr. Jane Lee";
     ProfessorRoutes.body_department := None |}.





(** A review of professor 1. *)
Definition review_of_professor_1 (n author course created : Z)
    : review_row :=
  {| review_id := n; review_user_id := author; review_course_id := course;
     review_professor_id := Some 1; review_rating := 5;
     review_difficulty := 3; review_comment := None;
     review_would_recommend := true; review_semester_taken := None;
     review_year_taken := None; review_created_at := created |}.

(** Four reviews: one of professor 1 by Ada, one by a user that is not in
    the table, one of professor 1 by Bob for a course that is not in the
    table, and one that names no professor. *)
Definition campus_reviewed : store :=
  {| courses := [comp3030]; professors := [];
     reviews := [review_of_professor_1 1 1 1 100; orphan_review;
                 review_of_professor_1 2 2 7 200; review_rated 3 5];
     users := [ada; bob]; alumni_network := []; last_id := 0 |}.

(* ================================================================== *)
(** * Lists, keys and lookups *)

Section ListFacts.
Context {A : Type}.

Lemma find_none_iff (f : A -> bool) (l : list A) :
  find f l = None <-> forall x, In x l -> f x = false.
Proof.
  induction l as [|y l IH]; simpl.
  - split; [intros _ x [] | reflexivity].
  - destruct (f y) eqn:E.
    + split; [discriminate|].
      intros H. rewrite (H y (or_introl eq_refl)) in E. discriminate.
    + rewrite IH. split.
      * intros H x [<-|Hx]; auto.
      * intros H x Hx. apply H. now right.
Qed.

Lemma find_app_fresh (f : A -> bool) (l : list A) (y : A) :
  (forall x, In x l -> f x = false) ->
  find f (l ++ [y]) = if f y then Some y else None.
Proof.
  induction l as [|z l IH]; simpl; intros H.
  - reflexivity.
  - rewrite (H z (or_introl eq_refl)). apply IH.
    intros x Hx. apply H. now right.
Qed.

Lemma existsb_false_iff (f : A -> bool) (l : list A) :
  existsb f l = false <-> forall x, In x l -> f x = false.
Proof.
  induction l as [|y l IH]; simpl.
  - split; [intros _ x [] | reflexivity].
  - rewrite orb_false_iff, IH. split.
    + intros [Hy H] x [<-|Hx]; auto.
    + intros H. split; [apply H; now left|].
      intros x Hx. apply H. now right.
Qed.

Lemma filter_nil_iff (f : A -> bool) (l : list A) :
  filter f l = [] <-> forall x, In x l -> f x = false.
Proof.
  induction l as [|y l IH]; simpl.
  - split; [intros _ x [] | reflexivity].
  - destruct (f y) eqn:E.
    + split; [discriminate|].
      intros H. rewrite (H y (or_introl eq_refl)) in E. discriminate.
    + rewrite IH. split.
      * intros H x [<-|Hx]; auto.
      * intros H x Hx. apply H. now right.
Qed.

Lemma filter_keeps_all (f : A -> bool) (l : list A) :
  (forall x, In x l -> f x = true) -> filter f l = l.
Proof.
  induction l as [|y l IH]; simpl; intros H.
  - reflexivity.
  - rewrite (H y (or_introl eq_refl)). f_equal.
    apply IH. intros x Hx. apply H. now right.
Qed.

Lemma filter_flat_map {B : Type} (p : B -> bool) (g : A -> list B)
    (l : list A) :
  filter p (flat_map g l) = flat_map (fun x => filter p (g x)) l.
Proof.
  induction l as [|x l IH]; simpl.
  - reflexivity.
  - now rewrite filter_app, IH.
Qed.

Lemma filter_map_comm {B : Type} (p : B -> bool) (g : A -> B) (l : list A) :
  filter p (map g l) = map g (filter (fun x => p (g x)) l).
Proof.
  induction l as [|x l IH]; simpl.
  - reflexivity.
  - destruct (p (g x)); simpl; now rewrite IH.
Qed.
End ListFacts.

(** A row-wise update that the selection cannot see. *)
Section Preserving.
Context {A : Type} (p : A -> bool) (h : A -> A).
Hypothesis p_h : forall x, p (h x) = p x.

Lemma find_map_preserving (l : list A) :
  find p (map h l) = option_map h (find p l).
Proof.
  induction l as [|x l IH]; simpl.
  - reflexivity.
  - rewrite p_h. destruct (p x); [reflexivity | exact IH].
Qed.

Lemma filter_map_preserving (l : list A) :
  filter p (map h l) = map h (filter p l).
Proof.
  induction l as [|x l IH]; simpl.
  - reflexivity.
  - rewrite p_h. destruct (p x); simpl; now rewrite IH.
Qed.

Lemma existsb_map_preserving (l : list A) :
  existsb p (map h l) = existsb p l.
Proof.
  induction l as [|x l IH]; simpl.
  - reflexivity.
  - now rewrite p_h, IH.
Qed.
End Preserving.

(** Selections by a column whose values are pairwise distinct. *)
Section Keys.
Context {A K : Type} (key : A -> K) (eqb : K -> K -> bool).
Hypothesis eqb_eq : forall x y, eqb x y = true <-> x = y.

Let sel (k : K) (x : A) : bool := eqb (key x) k.

Lemma eqb_refl_key (k : K) : eqb k k = true.
Proof. now apply eqb_eq. Qed.

Lemma select_absent (l : list A) (k : K) :
  ~ In k (map key l) -> filter (sel k) l = [].
Proof.
  intros H. apply filter_nil_iff. intros x Hx.
  destruct (sel k x) eqn:E; [|reflexivity].
  exfalso. apply H. apply eqb_eq in E. rewrite <- E. now apply in_map.
Qed.

Lemma find_absent (l : list A) (k : K) :
  find (sel k) l = None <-> ~ In k (map key l).
Proof.
  rewrite find_none_iff, in_map_iff. split.
  - intros H [x [E Hx]]. specialize (H x Hx). unfold sel in H.
    rewrite E, eqb_refl_key in H. discriminate.
  - intros H x Hx. destruct (sel k x) eqn:E; [|reflexivity].
    exfalso. apply H. exists x. split; [now apply eqb_eq | exact Hx].
Qed.

Lemma select_unique (l : list A) (k : K) :
  NoDup (map key l) -> (List.length (filter (sel k) l) <= 1)%nat.
Proof.
  induction l as [|x l IH]; simpl; intros H.
  - lia.
  - inversion H as [|? ? Hx Hl]; subst.
    destruct (sel k x) eqn:E; simpl.
    + apply eqb_eq in E. rewrite select_absent; [simpl; lia|].
      now rewrite <- E.
    + now apply IH.
Qed.

Lemma select_found (l : list A) (k : K) (a : A) :
  NoDup (map key l) -> find (sel k) l = Some a -> filter (sel k) l = [a].
Proof.
  induction l as [|x l IH]; simpl; intros H Hf.
  - discriminate.
  - inversion H as [|? ? Hx Hl]; subst.
    destruct (sel k x) eqn:E.
    + injection Hf as ->. apply eqb_eq in E.
      rewrite select_absent; [reflexivity|]. now rewrite <- E.
    + now apply IH.
Qed.

Lemma find_member (l : list A) (a : A) :
  NoDup (map key l) -> In a l -> find (sel (key a)) l = Some a.
Proof.
  induction l as [|x l IH]; simpl; intros H Hin.
  - destruct Hin.
  - inversion H as [|? ? Hx Hl]; subst.
    destruct Hin as [->|Hin].
    + unfold sel. now rewrite eqb_refl_key.
    + destruct (sel (key a) x) eqn:E; [|now apply IH].
      exfalso. apply Hx. apply eqb_eq in E. rewrite E. now apply in_map.
Qed.

Lemma find_selects (l : list A) (k : K) (a : A) :
  find (sel k) l = Some a -> In a l /\ key a = k.
Proof.
  intros H. apply find_some in H. destruct H as [Hin E].
  split; [exact Hin | now apply eqb_eq].
Qed.

(** [UPDATE ... SET ... WHERE key = k] with a [SET] list that leaves the
    key column alone. *)
Section Update.
Variables (k : K) (f : A -> A).
Hypothesis key_f : forall x, key (f x) = key x.

Let upd (x : A) : A := if sel k x then f x else x.

Lemma key_update (x : A) : key (upd x) = key x.
Proof. unfold upd. now destruct (sel k x). Qed.

Lemma map_key_update (l : list A) : map key (map upd l) = map key l.
Proof.
  rewrite map_map. apply map_ext. exact key_update.
Qed.

Lemma find_update (l : list A) :
  find (sel k) (map upd l) = option_map f (find (sel k) l).
Proof.
  induction l as [|x l IH]; simpl.
  - reflexivity.
  - unfold sel at 1. rewrite key_update. fold (sel k x).
    unfold upd at 1. destruct (sel k x); [reflexivity | exact IH].
Qed.

Lemma filter_update (l : list A) :
  filter (sel k) (map upd l) = map f (filter (sel k) l).
Proof.
  induction l as [|x l IH]; simpl.
  - reflexivity.
  - unfold sel at 1. rewrite key_update. fold (sel k x).
    unfold upd at 1. destruct (sel k x); simpl; now rewrite IH.
Qed.
End Update.
End Keys.

Lemma Z_eqb_eq (x y : Z) : (x =? y) = true <-> x = y.
Proof. apply Z.eqb_eq. Qed.

Lemma string_eqb_eq (x y : string) : String.eqb x y = true <-> x = y.
Proof. apply String.eqb_eq. Qed.

Lemma next_rowid_fresh (ids : list Z) (x : Z) :
  In x ids -> x < Sql.next_rowid ids.
Proof.
  unfold Sql.next_rowid.
  induction ids as [|y ids IH]; cbn [fold_right In].
  - intros [].
  - intros [->|Hx].
    + lia.
    + specialize (IH Hx). lia.
Qed.

Lemma next_rowid_not_in (ids : list Z) : ~ In (Sql.next_rowid ids) ids.
Proof.
  intros H. apply next_rowid_fresh in H. lia.
Qed.

(* ================================================================== *)
(** * Course repository: [create], [findByCode] and [delete] *)

Lemma truthy_str_missing (x : option string) :
  Js.truthy_str x = false <-> missing_or_empty x.
Proof.
  unfold missing_or_empty.
  destruct x as [[|c r]|]; simpl; split; intros H; auto;
    try discriminate; destruct H; discriminate.
Qed.

(** C5.  A payload whose [course_code], [course_name] or [department] is
    missing or empty makes [create] throw the "Missing required fields"
    error, and the store the call leaves is the store it was given: no
    course row is added. *)
Theorem create_rejects_missing_fields (now : Z) (f : Course.fields)
    (s : store) :
  missing_or_empty (Course.f_course_code f)
  \/ missing_or_empty (Course.f_course_name f)
  \/ missing_or_empty (Course.f_department f) ->
  Course.create now f s = (s, Err (JsError Course.missing_required_fields)).
Proof.
  intros H. unfold Course.create.
  assert (E : negb (Js.truthy_str (Course.f_course_code f))
              || negb (Js.truthy_str (Course.f_course_name f))
              || negb (Js.truthy_str (Course.f_department f)) = true).
  { destruct H as [H|[H|H]]; apply truthy_str_missing in H; rewrite H;
      simpl; rewrite ?orb_true_r; reflexivity. }
  rewrite E. reflexivity.
Qed.

Lemma create_rejects_missing_fields_witness :
  Course.create 7
    {| Course.f_course_code := Some "COMP 3030";
       Course.f_course_name := Some "";
       Course.f_department := None;
       Course.f_description := Some "Algorithms" |} empty_store
  = (empty_store, Err (JsError Course.missing_required_fields)).
Proof.
  apply create_rejects_missing_fields.
  right. left. right. reflexivity.
Defined.

Lemma review_check_positive (id : Z) (s : store) :
  (exists r, In r (reviews s) /\ review_course_id r = id) ->
  (0 <? Course.review_check id s)%nat = true.
Proof.
  intros [r [Hin Hid]]. unfold Course.review_check.
  apply Nat.ltb_lt.
  destruct (filter (fun r0 => review_course_id r0 =? id) (reviews s))
    as [|x l] eqn:E.
  - assert (Hf : (review_course_id r =? id) = false)
      by exact (proj1 (filter_nil_iff _ _) E r Hin).
    apply Z.eqb_neq in Hf. contradiction.
  - simpl. lia.
Qed.

(** C3.  When at least one review row references the course id, [delete]
    throws the error whose message is "Cannot delete course with existing
    reviews", and the store after the call equals the store before it: the
    course row and every other row are untouched. *)
Theorem delete_with_reviews_throws (id : Z) (s : store) :
  (exists r, In r (reviews s) /\ review_course_id r = id) ->
  Course.delete id s
  = (s, Err (JsError "Cannot delete course with existing reviews")).
Proof.
  intros H. unfold Course.delete, bind, get. simpl.
  rewrite (review_check_positive id s H). reflexivity.
Qed.

Lemma delete_with_reviews_throws_witness :
  Course.delete 1 (store_rated [4])
  = (store_rated [4],
     Err (JsError "Cannot delete course with existing reviews")).
Proof.
  apply delete_with_reviews_throws.
  exists (review_rated 1 4). split; [left|]; reflexivity.
Defined.

Lemma insert_course_ok (now : Z) (code name dept : string)
    (descr : option string) (s s' : store) (id : Z) :
  Course.insert_course now code name dept descr s = (s', Ok id) ->
  let row := {| course_id := id; course_code := code; course_name := name;
                course_department := dept; course_description := descr;
                course_created_at := now |} in
  (forall c, In c (courses s) -> String.eqb (course_code c) code = false)
  /\ id = Sql.next_rowid (map course_id (courses s))
  /\ s' = set_courses (courses s ++ [row]) s.
Proof.
  unfold Course.insert_course.
  destruct (existsb _ _) eqn:E; intros H; inversion H; subst.
  split; [|split]; try reflexivity.
  now apply existsb_false_iff.
Qed.

Lemma course_ids_below_next (s : store) (c : course_row) :
  In c (courses s) ->
  (course_id c =? Sql.next_rowid (map course_id (courses s))) = false.
Proof.
  intros Hc. apply Z.eqb_neq. intros E.
  apply (next_rowid_not_in (map course_id (courses s))).
  rewrite <- E. now apply in_map.
Qed.

(** [create] returns a row exactly when the payload has the three required
    fields and its code is not taken. *)
Lemma create_succeeds (now : Z) (f : Course.fields) (s : store) :
  Js.truthy_str (Course.f_course_code f) = true ->
  Js.truthy_str (Course.f_course_name f) = true ->
  Js.truthy_str (Course.f_department f) = true ->
  (forall c, In c (courses s) ->
     course_code c <> Js.text (Course.f_course_code f)) ->
  exists s' c, Course.create now f s = (s', Ok (Some c)).
Proof.
  intros H1 H2 H3 Hfresh. unfold Course.create.
  rewrite H1, H2, H3. simpl.
  unfold bind, Course.insert_course.
  assert (E : existsb (fun c => String.eqb (course_code c)
                                  (Js.text (Course.f_course_code f)))
                (courses s) = false).
  { apply existsb_false_iff. intros c Hc.
    apply String.eqb_neq. now apply Hfresh. }
  rewrite E. unfold Course.findById, bind, get, ret. simpl.
  rewrite find_app_fresh by (intros c Hc; now apply course_ids_below_next).
  simpl. rewrite Z.eqb_refl. eauto.
Qed.

(** C7.  When [create] returns a course [c], that course is the row that was
    just inserted under a generated id (its columns come from the payload,
    its id is new to the table and it is what [findById] reads back), and
    [findByCode] on its code, run on the store [create] left, returns a
    record equal to [c]. *)
Theorem create_then_findByCode (now : Z) (f : Course.fields)
    (s s' : store) (r : option course_row) :
  Course.create now f s = (s', Ok r) ->
  exists c,
    r = Some c
    /\ Course.findByCode (course_code c) s' = (s', Ok (Some c))
    /\ Course.findById (course_id c) s' = (s', Ok (Some c))
    /\ ~ In (course_id c) (map course_id (courses s))
    /\ Some (course_code c) = Course.f_course_code f
    /\ Some (course_name c) = Course.f_course_name f
    /\ Some (course_department c) = Course.f_department f
    /\ course_description c = Js.or_null (Course.f_description f)
    /\ course_created_at c = now
    /\ courses s' = (courses s ++ [c])%list.
Proof.
  unfold Course.create.
  destruct (Js.truthy_str (Course.f_course_code f)) eqn:H1;
    [|simpl; discriminate].
  destruct (Js.truthy_str (Course.f_course_name f)) eqn:H2;
    [|simpl; discriminate].
  destruct (Js.truthy_str (Course.f_department f)) eqn:H3;
    [|simpl; discriminate].
  simpl. unfold bind at 1.
  destruct (Course.insert_course _ _ _ _ _ s) as [s1 [id|e]] eqn:Hins;
    [|discriminate].
  apply insert_course_ok in Hins. destruct Hins as [Hcode [Hid Hs1]].
  set (row := {| course_id := id |}) in Hs1.
  unfold Course.findById, Course.findByCode, bind, get, ret. simpl.
  match goal with
  | |- (_, Ok ?x) = _ -> _ => assert (Hfind : x = Some row)
  end.
  { rewrite Hs1. simpl. rewrite find_app_fresh.
    - simpl. now rewrite Z.eqb_refl.
    - intros c Hc. rewrite Hid. now apply course_ids_below_next. }
  rewrite Hfind. intros H. inversion H; subst s' r. clear H.
  exists row. split; [reflexivity|].
  split.
  { rewrite Hs1. simpl. rewrite find_app_fresh by exact Hcode.
    simpl. now rewrite String.eqb_refl. }
  split; [change (course_id row) with id; now rewrite Hfind|].
  split; [simpl; rewrite Hid; apply next_rowid_not_in|].
  repeat split; simpl.
  - destruct (Course.f_course_code f) as [[|? ?]|]; simpl in *;
      try discriminate; reflexivity.
  - destruct (Course.f_course_name f) as [[|? ?]|]; simpl in *;
      try discriminate; reflexivity.
  - destruct (Course.f_department f) as [[|? ?]|]; simpl in *;
      try discriminate; reflexivity.
  - rewrite Hs1. reflexivity.
Qed.

Lemma create_then_findByCode_witness :
  exists c,
    Some c = Some comp3030
    /\ Course.findByCode (course_code c) (store_rated [])
       = (store_rated [], Ok (Some c)).
Proof.
  destruct (create_then_findByCode 100 comp3030_fields
              {| courses := []; professors := []; reviews := []; users := [];
                 alumni_network := []; last_id := 0 |}
              (store_rated []) (Some comp3030) eq_refl)
    as [c [Hc [Hfind _]]].
  exists c. split; [symmetry; exact Hc | exact Hfind].
Defined.

(* ================================================================== *)
(** * [ORDER BY]: the result is the input, rearranged and in order *)

Section OrderByFacts.
Context {A : Type} (le : A -> A -> bool).

Lemma insert_row_perm (x : A) (l : list A) :
  Permutation (Sql.insert_row le x l) (x :: l).
Proof.
  induction l as [|y l IH]; simpl.
  - apply Permutation_refl.
  - destruct (le x y).
    + apply Permutation_refl.
    + apply perm_trans with (y :: x :: l).
      * now apply perm_skip.
      * apply perm_swap.
Qed.

Lemma order_by_perm (l : list A) : Permutation (Sql.order_by le l) l.
Proof.
  induction l as [|x l IH]; simpl.
  - apply perm_nil.
  - apply perm_trans with (x :: Sql.order_by le l).
    + apply insert_row_perm.
    + now apply perm_skip.
Qed.

Lemma order_by_length (l : list A) :
  List.length (Sql.order_by le l) = List.length l.
Proof. apply Permutation_length, order_by_perm. Qed.

Lemma order_by_In (l : list A) (x : A) :
  In x (Sql.order_by le l) <-> In x l.
Proof.
  split; apply Permutation_in;
    [|apply Permutation_sym]; apply order_by_perm.
Qed.

Hypothesis le_total : forall x y, le x y = true \/ le y x = true.
Hypothesis le_trans :
  forall x y z, le x y = true -> le y z = true -> le x z = true.

Let R (x y : A) : Prop := le x y = true.

Lemma insert_row_sorted (x : A) (l : list A) :
  StronglySorted R l -> StronglySorted R (Sql.insert_row le x l).
Proof.
  induction l as [|y l IH]; simpl; intros H.
  - constructor; [constructor | constructor].
  - inversion H as [|? ? Hl Hy]; subst.
    destruct (le x y) eqn:E.
    + constructor; [exact H|].
      constructor; [exact E|].
      rewrite Forall_forall in *. intros z Hz.
      apply le_trans with y; [exact E | now apply Hy].
    + constructor; [now apply IH|].
      rewrite Forall_forall in *. intros z Hz.
      apply (Permutation_in _ (insert_row_perm x l)) in Hz.
      destruct Hz as [<-|Hz]; [|now apply Hy].
      destruct (le_total x y) as [C|C]; [congruence | exact C].
Qed.

Lemma order_by_sorted (l : list A) : StronglySorted R (Sql.order_by le l).
Proof.
  induction l as [|x l IH]; simpl.
  - constructor.
  - now apply insert_row_sorted.
Qed.
End OrderByFacts.

(** The byte order of texts is transitive. *)
Lemma ascii_compare_lt_trans (a b c : ascii) :
  Ascii.compare a b = Lt -> Ascii.compare b c = Lt -> Ascii.compare a c = Lt.
Proof.
  unfold Ascii.compare. rewrite !N.compare_lt_iff. lia.
Qed.

Lemma string_compare_trans (a : string) :
  forall b c : string,
    String.compare a b <> Gt -> String.compare b c <> Gt ->
    String.compare a c <> Gt.
Proof.
  induction a as [|x a IH]; intros [|y b] [|z c]; simpl;
    try congruence.
  destruct (Ascii.compare x y) eqn:Exy; try congruence;
    destruct (Ascii.compare y z) eqn:Eyz; try congruence.
  - apply Ascii.compare_eq_iff in Exy, Eyz. subst.
    assert (E : Ascii.compare z z = Eq)
      by (unfold Ascii.compare; apply N.compare_refl).
    rewrite E. apply IH.
  - apply Ascii.compare_eq_iff in Exy. subst. rewrite Eyz. congruence.
  - apply Ascii.compare_eq_iff in Eyz. subst. rewrite Exy. congruence.
  - rewrite (ascii_compare_lt_trans _ _ _ Exy Eyz). congruence.
Qed.

Lemma string_leb_trans (a b c : string) :
  String.leb a b = true -> String.leb b c = true -> String.leb a c = true.
Proof.
  unfold String.leb. intros H1 H2.
  assert (H : String.compare a c <> Gt).
  { apply string_compare_trans with b.
    - destruct (String.compare a b); congruence.
    - destruct (String.compare b c); congruence. }
  destruct (String.compare a c); congruence.
Qed.

(* ================================================================== *)
(** * [getCourseWithReviews] *)

(** [toFixed(1)] rounds to a nearest tenth: the number of tenths it prints
    for the magnitude [m * 2^e] is within one half of [10 * m * 2^e], and a
    magnitude half-way between two tenths goes to the larger. *)
Lemma round_tenths_nearest (m : positive) (e : Z) :
  let n := Js.round_tenths m e in
  if 0 <=? e then n = 10 * Z.pos m * 2 ^ e
  else let d := 2 ^ (- e) in
       2 * d * n - d <= 20 * Z.pos m < 2 * d * n + d.
Proof.
  unfold Js.round_tenths. destruct (0 <=? e) eqn:E; cbv zeta.
  - reflexivity.
  - apply Z.leb_gt in E.
    assert (Hd : 0 < 2 ^ (- e)) by (apply Z.pow_pos_nonneg; lia).
    set (d := 2 ^ (- e)) in *.
    pose proof (Z.div_mod (20 * Z.pos m + d) (2 * d)) as Hdiv.
    pose proof (Z.mod_pos_bound (20 * Z.pos m + d) (2 * d)) as Hmod.
    lia.
Qed.

(** With professor ids being keys, the left join pairs every review with
    exactly one row. *)
Lemma left_join_professor_single (ps : list professor_row) (r : review_row) :
  NoDup (map professor_id ps) ->
  exists p, Sql.left_join Course.review_professor ps r = [(r, p)].
Proof.
  intros Hk. unfold Sql.left_join, Course.review_professor.
  destruct (review_professor_id r) as [pid|].
  - pose proof (select_unique professor_id Z.eqb Z_eqb_eq ps pid Hk) as Hlen.
    assert (E : filter (fun p => pid =? professor_id p) ps
                = filter (fun p => professor_id p =? pid) ps).
    { apply filter_ext. intros p. apply Z.eqb_sym. }
    rewrite E.
    destruct (filter (fun p => professor_id p =? pid) ps) as [|p [|q l]];
      simpl in *; eauto; lia.
  - assert (E : filter (fun _ : professor_row => false) ps = []).
    { apply filter_nil_iff. reflexivity. }
    rewrite E. eauto.
Qed.

Lemma joined_reviews_fst (ps : list professor_row) (rs : list review_row) :
  NoDup (map professor_id ps) ->
  map fst (flat_map (Sql.left_join Course.review_professor ps) rs) = rs.
Proof.
  intros Hk. induction rs as [|r rs IH]; simpl.
  - reflexivity.
  - destruct (left_join_professor_single ps r Hk) as [p Hp].
    rewrite Hp. simpl. now rewrite IH.
Qed.

Lemma filter_fst_length {A B : Type} (f : A -> bool) (l : list (A * B)) :
  List.length (filter (fun x => f (fst x)) l)
  = List.length (filter f (map fst l)).
Proof.
  induction l as [|x l IH]; simpl.
  - reflexivity.
  - destruct (f (fst x)); simpl; now rewrite IH.
Qed.

(** The query returns one row per review row that references the course. *)
Lemma reviews_with_professor_length (courseId : Z) (s : store) :
  professors_keyed s ->
  List.length (Course.reviews_with_professor courseId s)
  = List.length (reviews_of_course courseId s).
Proof.
  intros Hk. unfold Course.reviews_with_professor, reviews_of_course.
  rewrite length_map, order_by_length.
  rewrite (filter_fst_length (fun r => review_course_id r =? courseId)).
  now rewrite joined_reviews_fst.
Qed.

(** [review_count] is the number of review rows that reference the course,
    and [average_rating] is absent exactly when there is no such row or the
    computed mean is falsy ([0] or [NaN]). *)
Lemma getCourseWithReviews_count (courseId : Z) (s : store) (c : course_row) :
  professors_keyed s ->
  find (fun c => course_id c =? courseId) (courses s) = Some c ->
  exists r,
    Course.getCourseWithReviews courseId s = (s, Ok (Some r))
    /\ Course.course r = c
    /\ Course.review_count r = List.length (reviews_of_course courseId s)
    /\ (Course.average_rating r = None <->
        reviews_of_course courseId s = []
        \/ exists x, Course.avg_rating (Course.reviews_of r) = Some x
                     /\ Js.truthy x = false).
Proof.
  intros Hk Hc.
  unfold Course.getCourseWithReviews, Course.findById, bind, get, ret.
  simpl. rewrite Hc. simpl.
  eexists. split; [reflexivity|]. simpl.
  split; [reflexivity|].
  split; [now apply reviews_with_professor_length|].
  pose proof (reviews_with_professor_length courseId s Hk) as Hlen.
  unfold Course.avg_rating.
  destruct (Course.reviews_with_professor courseId s) as [|x l] eqn:E.
  - simpl. split; [intros _; left | reflexivity].
    simpl in Hlen.
    destruct (reviews_of_course courseId s); [reflexivity | discriminate].
  - cbn [List.length Nat.ltb Nat.leb Course.rounded_rating].
    set (avg := Js.div _ _).
    destruct (Js.truthy avg) eqn:T.
    + split; [discriminate|].
      intros [H|[y [Hy Hf]]].
      * rewrite H in Hlen. discriminate.
      * inversion Hy; subst. congruence.
    + split; [|reflexivity]. intros _. right. now exists avg.
Qed.

(** The scenario of the specification: ratings 5, 4 and 3 give a count of 3
    and an average of 4.0; no review gives a count of 0 and no average. *)
Example getCourseWithReviews_5_4_3 :
  exists r,
    Course.getCourseWithReviews 1 (store_rated [5; 4; 3])
    = (store_rated [5; 4; 3], Ok (Some r))
    /\ Course.review_count r = 3%nat
    /\ Course.average_rating r = Some (Js.Tenths 40).
Proof. eexists. split; [vm_compute; reflexivity|]. repeat split. Qed.

Example getCourseWithReviews_no_review :
  exists r,
    Course.getCourseWithReviews 1 (store_rated [])
    = (store_rated [], Ok (Some r))
    /\ Course.review_count r = 0%nat
    /\ Course.average_rating r = None.
Proof. eexists. split; [vm_compute; reflexivity|]. repeat split. Qed.

(** Seventeen ratings of 1 and three of 2 have the mean 23/20.  The nearest
    binary64 number lies below 1.15, so [toFixed(1)] prints 1.1. *)
Example getCourseWithReviews_tie :
  exists r,
    Course.getCourseWithReviews 1
      (store_rated (repeat 1 17 ++ repeat 2 3))
    = (store_rated (repeat 1 17 ++ repeat 2 3), Ok (Some r))
    /\ Course.review_count r = 20%nat
    /\ Course.average_rating r = Some (Js.Tenths 11).
Proof. eexists. split; [vm_compute; reflexivity|]. split; reflexivity. Qed.

(** C1.  On a course whose only review has the rating 0, the reviews query
    returns that one row and [review_count] is 1, yet [average_rating] is
    absent: the mean 0 is falsy in [avgRating ? ... : null]. *)
Theorem getCourseWithReviews_rating_zero :
  exists r,
    Course.getCourseWithReviews 1 (store_rated [0])
    = (store_rated [0], Ok (Some r))
    /\ reviews_of_course 1 (store_rated [0]) = [review_rated 1 0]
    /\ Course.review_count r = 1%nat
    /\ Course.avg_rating (Course.reviews_of r) = Some (S754_zero false)
    /\ Course.average_rating r = None.
Proof. eexists. split; [vm_compute; reflexivity|]. repeat split. Qed.

(* ================================================================== *)
(** * [LIKE '%keyword%'] and substrings *)

Lemma append_nil_r (t : string) : (t ++ "")%string = t.
Proof. induction t as [|c t IH]; simpl; [|rewrite IH]; reflexivity. Qed.











(* ================================================================== *)
(** * [search] *)

Lemma by_course_code_total (c d : course_row) :
  Course.by_course_code c d = true \/ Course.by_course_code d c = true.
Proof. apply String.leb_total. Qed.

Lemma by_course_code_trans (c d e : course_row) :
  Course.by_course_code c d = true -> Course.by_course_code d e = true ->
  Course.by_course_code c e = true.
Proof. apply string_leb_trans. Qed.







(* ================================================================== *)
(** * [updateAlumniNetwork] *)

(** The call, statement by statement. *)
Lemma updateAlumniNetwork_steps (fk : bool) (now userId : Z)
    (d : User.alumni_data) (s : store) :
  let s1 := set_users (retyped_users now userId d s) s in
  User.updateAlumniNetwork fk now userId d s
  = match find (fun a => alumni_user_id a =? userId) (alumni_network s) with
    | Some _ =>
        let s2 := set_alumni_network
                    (map (fun a => if alumni_user_id a =? userId
                                   then User.rewrite_alumni now d a else a)
                       (alumni_network s)) s1 in
        (s2, Ok (find (fun a => alumni_user_id a =? userId)
                   (alumni_network s2)))
    | None =>
        match User.insert_alumni fk userId d s1 with
        | (s2, Ok _) =>
            (s2, Ok (find (fun a => alumni_user_id a =? userId)
                       (alumni_network s2)))
        | (s2, Err e) => (s2, Err e)
        end
    end.
Proof.
  unfold User.updateAlumniNetwork, User.updateUserType,
    User.update_users_where_id, User.findById, User.alumni_by_user,
    User.update_alumni, retyped_users, bind, get, ret.
  simpl.
  destruct (find _ (alumni_network s)); simpl; [reflexivity|].
  destruct (User.insert_alumni _ _ _ _) as [s2 [[]|e]]; reflexivity.
Qed.

Lemma retyped_users_ids (now userId : Z) (d : User.alumni_data) (s : store) :
  map user_id (retyped_users now userId d s) = map user_id (users s).
Proof.
  unfold retyped_users.
  apply (map_key_update user_id Z.eqb). reflexivity.
Qed.

(** The users table after the call, whether or not the call went on to
    throw: the rows with the given id are retyped, the others are as they
    were. *)
Lemma updateAlumniNetwork_users (fk : bool) (now userId : Z)
    (d : User.alumni_data) (s : store) :
  users (fst (User.updateAlumniNetwork fk now userId d s))
  = retyped_users now userId d s.
Proof.
  rewrite updateAlumniNetwork_steps. cbv zeta.
  destruct (find _ (alumni_network s)); [reflexivity|].
  unfold User.insert_alumni. cbn [users set_users].
  destruct (fk && _); reflexivity.
Qed.

(** C9.  Whatever the payload and whatever the store, the call leaves the
    user row with the given id with [user_type = "alumni"] and with the
    payload's [graduation_year] as its [graduation_year]; when the payload
    has none, the stored year becomes [NULL], also when an alumni profile
    existed already.  The other columns of the row, [updated_at] apart, and
    the other user rows are unchanged. *)
Theorem updateAlumniNetwork_retypes_user (fk : bool) (now userId : Z)
    (d : User.alumni_data) (s : store) (before : user_row) :
  User.findById userId s = (s, Ok (Some before)) ->
  let s' := fst (User.updateAlumniNetwork fk now userId d s) in
  exists after,
    User.findById userId s' = (s', Ok (Some after))
    /\ user_type after = "alumni"
    /\ user_graduation_year after = User.a_graduation_year d
    /\ (User.a_graduation_year d = None -> user_graduation_year after = None)
    /\ after = User.retype now "alumni" (User.a_graduation_year d) before
    /\ users s' = retyped_users now userId d s.
Proof.
  intros Hfind s'.
  unfold User.findById, bind, get, ret in Hfind. simpl in Hfind.
  injection Hfind as Hfind.
  exists (User.retype now "alumni" (User.a_graduation_year d) before).
  assert (Hu : users s' = retyped_users now userId d s)
    by apply updateAlumniNetwork_users.
  split.
  { unfold User.findById, bind, get, ret. simpl. rewrite Hu.
    unfold retyped_users.
    rewrite (find_update user_id Z.eqb) by reflexivity.
    now rewrite Hfind. }
  repeat split; auto.
Qed.

Lemma updateAlumniNetwork_retypes_user_witness :
  exists after,
    User.findById 1 (fst (User.updateAlumniNetwork true 70 1 at_acme campus))
    = (fst (User.updateAlumniNetwork true 70 1 at_acme campus),
       Ok (Some after))
    /\ user_type after = "alumni"
    /\ user_graduation_year after = None.
Proof.
  destruct (updateAlumniNetwork_retypes_user true 70 1 at_acme campus ada
              eq_refl) as [after [H1 [H2 [H3 _]]]].
  exists after. split; [exact H1|]. split; [exact H2 | exact H3].
Defined.

Lemma retyped_users_exists (now userId x : Z) (d : User.alumni_data)
    (s : store) :
  existsb (fun u => user_id u =? x) (retyped_users now userId d s)
  = existsb (fun u => user_id u =? x) (users s).
Proof.
  unfold retyped_users. apply existsb_map_preserving.
  intros u. now destruct (user_id u =? userId).
Qed.

Lemma user_exists_existsb (userId : Z) (s : store) :
  user_exists userId s ->
  existsb (fun u => user_id u =? userId) (users s) = true.
Proof.
  intros [u [Hin E]]. apply existsb_exists. exists u.
  split; [exact Hin | now apply Z.eqb_eq].
Qed.

Lemma NoDup_snoc {A : Type} (l : list A) (x : A) :
  NoDup l -> ~ In x l -> NoDup (l ++ [x]).
Proof.
  intros Hl Hx.
  apply (Permutation_NoDup (l := x :: l)).
  - apply Permutation_cons_append.
  - now constructor.
Qed.

(** The invariant of the profile table survives every call, also one that
    throws. *)
Lemma updateAlumniNetwork_unique (fk : bool) (now userId : Z)
    (d : User.alumni_data) (s : store) :
  alumni_unique s ->
  alumni_unique (fst (User.updateAlumniNetwork fk now userId d s)).
Proof.
  unfold alumni_unique. intros Hu.
  rewrite updateAlumniNetwork_steps. cbv zeta.
  destruct (find _ (alumni_network s)) as [a0|] eqn:Hfind.
  - cbn [fst alumni_network set_alumni_network].
    rewrite (map_key_update alumni_user_id Z.eqb) by reflexivity.
    exact Hu.
  - unfold User.insert_alumni.
    destruct (fk && _); cbn [fst alumni_network set_alumni_network set_users];
      [exact Hu|].
    rewrite map_app. simpl. apply NoDup_snoc; [exact Hu|].
    now apply (find_absent alumni_user_id Z.eqb Z_eqb_eq).
Qed.

(** One call: it returns the profile row of the user, which is the only
    row of that user and holds the payload's employer. *)
Lemma updateAlumniNetwork_profile (fk : bool) (now userId : Z)
    (d : User.alumni_data) (s : store) :
  alumni_unique s ->
  (fk = true -> user_exists userId s) ->
  exists s' a,
    User.updateAlumniNetwork fk now userId d s = (s', Ok (Some a))
    /\ profiles_of userId s' = [a]
    /\ alumni_current_employer a = User.a_current_employer d
    /\ users s' = retyped_users now userId d s
    /\ (forall a0, profiles_of userId s = [a0] ->
          a = User.rewrite_alumni now d a0).
Proof.
  unfold alumni_unique, profiles_of. intros Hu Hfk.
  rewrite updateAlumniNetwork_steps. cbv zeta.
  destruct (find _ (alumni_network s)) as [a0|] eqn:Hfind.
  - cbn [alumni_network set_alumni_network users set_users].
    rewrite (find_update alumni_user_id Z.eqb) by reflexivity.
    rewrite Hfind. cbn [option_map].
    do 2 eexists. split; [reflexivity|].
    cbn [alumni_network set_alumni_network users set_users].
    rewrite (filter_update alumni_user_id Z.eqb) by reflexivity.
    rewrite (select_found alumni_user_id Z.eqb Z_eqb_eq _ _ a0 Hu Hfind).
    repeat split; auto.
    intros a1 H. now injection H as <-.
  - unfold User.insert_alumni. cbn [users set_users].
    rewrite retyped_users_exists.
    assert (E : fk && negb (existsb (fun u => user_id u =? userId) (users s))
                = false).
    { destruct fk; [|reflexivity].
      now rewrite (user_exists_existsb userId s (Hfk eq_refl)). }
    rewrite E.
    cbn [alumni_network set_alumni_network users set_users].
    assert (Hnone : forall a, In a (alumni_network s) ->
                      (alumni_user_id a =? userId) = false)
      by now apply find_none_iff.
    rewrite find_app_fresh by exact Hnone.
    cbn [alumni_user_id]. rewrite Z.eqb_refl.
    do 2 eexists. split; [reflexivity|].
    cbn [alumni_network set_alumni_network users set_users].
    rewrite filter_app.
    rewrite (proj2 (filter_nil_iff _ _) Hnone).
    cbn [alumni_user_id filter app]. rewrite Z.eqb_refl.
    repeat split; auto.
    intros a1 H. discriminate H.
Qed.

Lemma retyped_users_keep (now userId x : Z) (d : User.alumni_data)
    (s s' : store) :
  users s' = retyped_users now userId d s ->
  user_exists x s -> user_exists x s'.
Proof.
  intros Hu [u [Hin E]]. unfold user_exists. rewrite Hu.
  unfold retyped_users.
  exists (if user_id u =? userId
          then User.retype now "alumni" (User.a_graduation_year d) u else u).
  split.
  - apply (in_map (fun u => if user_id u =? userId
                            then User.retype now "alumni"
                                   (User.a_graduation_year d) u
                            else u)). exact Hin.
  - now destruct (user_id u =? userId).
Qed.

Lemma run_alumni_updates_unique (fk : bool)
    (calls : list (Z * Z * User.alumni_data)) :
  forall s, alumni_unique s -> alumni_unique (run_alumni_updates fk calls s).
Proof.
  induction calls as [|[[now userId] d] calls IH]; simpl; intros s Hu.
  - exact Hu.
  - apply IH. now apply updateAlumniNetwork_unique.
Qed.

(** C2.  From a store in which no user has two profile rows, two calls for
    the same user, one after the other, both return the user's profile; the
    store they leave has exactly one profile row for that user, which is the
    row the first call left, rewritten in place, and its [current_employer]
    is the one of the second payload.  And whatever sequence of calls is
    run, no user ever has two profile rows.  (If the schema declares
    [user_id] as a foreign key, the user row has to exist for the first
    insert to be accepted.) *)
Theorem updateAlumniNetwork_twice (fk : bool) (t1 t2 userId : Z)
    (d1 d2 : User.alumni_data) (s : store) :
  alumni_unique s ->
  (fk = true -> user_exists userId s) ->
  (exists s1 a1 s2 a2,
     User.updateAlumniNetwork fk t1 userId d1 s = (s1, Ok (Some a1))
     /\ User.updateAlumniNetwork fk t2 userId d2 s1 = (s2, Ok (Some a2))
     /\ profiles_of userId s1 = [a1]
     /\ profiles_of userId s2 = [a2]
     /\ alumni_id a2 = alumni_id a1
     /\ alumni_current_employer a2 = User.a_current_employer d2)
  /\ (forall calls x,
        (List.length (profiles_of x (run_alumni_updates fk calls s)) <= 1)%nat).
Proof.
  intros Hu Hfk. split.
  - destruct (updateAlumniNetwork_profile fk t1 userId d1 s Hu Hfk)
      as [s1 [a1 [H1 [P1 [_ [U1 _]]]]]].
    assert (Hu1 : alumni_unique s1).
    { replace s1 with (fst (User.updateAlumniNetwork fk t1 userId d1 s))
        by now rewrite H1.
      now apply updateAlumniNetwork_unique. }
    assert (Hfk1 : fk = true -> user_exists userId s1).
    { intros E. apply (retyped_users_keep t1 userId userId d1 s s1 U1).
      now apply Hfk. }
    destruct (updateAlumniNetwork_profile fk t2 userId d2 s1 Hu1 Hfk1)
      as [s2 [a2 [H2 [P2 [E2 [_ I2]]]]]].
    exists s1, a1, s2, a2. repeat split; auto.
    rewrite (I2 a1 P1). reflexivity.
  - intros calls x.
    apply (select_unique alumni_user_id Z.eqb Z_eqb_eq).
    now apply run_alumni_updates_unique.
Qed.

Lemma updateAlumniNetwork_twice_witness :
  exists s2 a2,
    User.updateAlumniNetwork true 80 1 at_globex
      (fst (User.updateAlumniNetwork true 70 1 at_acme campus))
    = (s2, Ok (Some a2))
    /\ profiles_of 1 s2 = [a2]
    /\ alumni_current_employer a2 = Some "Globex".
Proof.
  destruct (updateAlumniNetwork_twice true 70 80 1 at_acme at_globex campus)
    as [[s1 [a1 [s2 [a2 [H1 [H2 [_ [P2 [_ E2]]]]]]]]] _].
  - constructor.
  - intros _. exists ada. split; [now left | reflexivity].
  - exists s2, a2. rewrite H1. simpl. split; [exact H2|].
    split; [exact P2 | exact E2].
Defined.

(* ================================================================== *)
(** * [getAlumniNetwork] *)

Lemma NoDup_map_injective {A K : Type} (key : A -> K) (l : list A) (x y : A) :
  NoDup (map key l) -> In x l -> In y l -> key x = key y -> x = y.
Proof.
  induction l as [|z l IH]; simpl; intros H Hx Hy E.
  - destruct Hx.
  - inversion H as [|? ? Hz Hl]; subst.
    destruct Hx as [->|Hx], Hy as [->|Hy]; auto.
    + exfalso. apply Hz. rewrite E. now apply in_map.
    + exfalso. apply Hz. rewrite <- E. now apply in_map.
Qed.

Section JoinFacts.
Context {A B : Type} (on : A -> B -> bool) (right : list B).

Lemma left_join_fst (a : A) (row : A * option B) :
  In row (Sql.left_join on right a) -> fst row = a.
Proof.
  unfold Sql.left_join.
  destruct (filter (on a) right) as [|b bs].
  - intros [<-|[]]. reflexivity.
  - intros H. apply in_map_iff in H. destruct H as [b' [<- _]].
    reflexivity.
Qed.

Lemma left_join_unmatched (a : A) :
  filter (on a) right = [] -> Sql.left_join on right a = [(a, None)].
Proof. unfold Sql.left_join. now intros ->. Qed.

(** A [WHERE] clause on the columns of the left table keeps all the rows
    a left row was joined into, or none of them. *)
Lemma where_left (q : A -> bool) (a : A) :
  filter (fun row => q (fst row)) (Sql.left_join on right a)
  = if q a then Sql.left_join on right a else [].
Proof.
  destruct (q a) eqn:E.
  - apply filter_keeps_all.
    intros row Hrow. now rewrite (left_join_fst a row Hrow).
  - apply filter_nil_iff.
    intros row Hrow. now rewrite (left_join_fst a row Hrow).
Qed.

Lemma where_left_none (q : A -> bool) (l : list A) :
  (forall x, In x l -> q x = false) ->
  filter (fun row => q (fst row)) (flat_map (Sql.left_join on right) l)
  = [].
Proof.
  intros H. rewrite filter_flat_map.
  induction l as [|x l IH]; simpl.
  - reflexivity.
  - rewrite where_left, (H x (or_introl eq_refl)). simpl.
    apply IH. intros y Hy. apply H. now right.
Qed.

Lemma where_left_one (q : A -> bool) (l : list A) (u : A) :
  NoDup l -> In u l -> q u = true ->
  (forall x, In x l -> x <> u -> q x = false) ->
  filter (fun row => q (fst row)) (flat_map (Sql.left_join on right) l)
  = Sql.left_join on right u.
Proof.
  induction l as [|x l IH]; simpl; intros Hl Hin Hu Hothers.
  - destruct Hin.
  - inversion Hl as [|? ? Hx Hl']; subst.
    rewrite filter_app, where_left.
    destruct Hin as [->|Hin].
    + rewrite Hu, where_left_none; [apply app_nil_r|].
      intros y Hy. apply Hothers; [now right|].
      intros ->. contradiction.
    + assert (Ex : q x = false).
      { apply Hothers; [now left|]. intros ->. contradiction. }
      rewrite Ex. simpl. apply IH; auto.
Qed.
End JoinFacts.

Lemma user_alumni_profiles (u : user_row) (s : store) :
  filter (User.user_alumni u) (alumni_network s) = profiles_of (user_id u) s.
Proof.
  unfold profiles_of, User.user_alumni. apply filter_ext.
  intros a. apply Z.eqb_sym.
Qed.

Lemma getAlumniNetwork_eval (userId : Z) (s : store) :
  User.getAlumniNetwork userId s
  = (s, Ok (option_map User.joined_object
              (hd_error
                 (filter (fun ua => (user_id (fst ua) =? userId)
                                    && String.eqb (user_type (fst ua))
                                         "alumni")
                    (flat_map
                       (Sql.left_join User.user_alumni (alumni_network s))
                       (users s)))))).
Proof. reflexivity. Qed.

(** With unique user ids the [WHERE] clause of [getAlumniNetwork] keeps
    the rows of one user, when that user is of type "alumni", and no row
    otherwise. *)
Lemma getAlumniNetwork_rows (s : store) (u : user_row) :
  users_keyed s ->
  In u (users s) ->
  filter (fun ua => (user_id (fst ua) =? user_id u)
                    && String.eqb (user_type (fst ua)) "alumni")
    (flat_map (Sql.left_join User.user_alumni (alumni_network s)) (users s))
  = if String.eqb (user_type u) "alumni"
    then Sql.left_join User.user_alumni (alumni_network s) u
    else [].
Proof.
  intros Hk Hin.
  set (q := fun x : user_row =>
              (user_id x =? user_id u) && String.eqb (user_type x) "alumni").
  change (fun ua : user_row * option alumni_row =>
            (user_id (fst ua) =? user_id u)
            && String.eqb (user_type (fst ua)) "alumni")
    with (fun ua : user_row * option alumni_row => q (fst ua)).
  assert (Hsame : forall x, In x (users s) -> user_id x = user_id u -> x = u).
  { intros x Hx E. now apply (NoDup_map_injective user_id (users s)). }
  destruct (String.eqb (user_type u) "alumni") eqn:Ht.
  - apply where_left_one; auto.
    + now apply NoDup_map_inv in Hk.
    + unfold q. now rewrite Z.eqb_refl, Ht.
    + intros x Hx Hne. unfold q.
      destruct (user_id x =? user_id u) eqn:E; [|reflexivity].
      apply Z.eqb_eq in E. exfalso. apply Hne. now apply Hsame.
  - apply where_left_none.
    intros x Hx. unfold q.
    destruct (user_id x =? user_id u) eqn:E; [|reflexivity].
    apply Z.eqb_eq in E. rewrite (Hsame x Hx E), Ht. reflexivity.
Qed.

(** ** The properties of a joined object *)

Lemma prop_assign (k k' : string) (v : Js.value) (o : Js.object) :
  Js.prop (Js.assign k v o) k'
  = if String.eqb k k' then Some v else Js.prop o k'.
Proof.
  induction o as [|[k0 v0] o IH]; cbn [Js.assign Js.prop].
  - reflexivity.
  - destruct (String.eqb k0 k) eqn:E0; cbn [Js.prop].
    + apply String.eqb_eq in E0. subst k0.
      destruct (String.eqb k k'); reflexivity.
    + destruct (String.eqb k0 k') eqn:E1; [|exact IH].
      apply String.eqb_eq in E1. subst k0. now rewrite String.eqb_sym, E0.
Qed.

(** Columns under other names leave a property as it was. *)
Lemma prop_other_columns (cols : list (string * Js.value)) (o : Js.object)
    (k : string) :
  ~ In k (map fst cols) ->
  Js.prop (fold_left (fun o kv => Js.assign (fst kv) (snd kv) o) cols o) k
  = Js.prop o k.
Proof.
  revert o. induction cols as [|[k0 v0] cols IH]; cbn [fold_left map In fst snd];
    intros o Hk.
  - reflexivity.
  - rewrite IH by tauto. rewrite prop_assign.
    destruct (String.eqb k0 k) eqn:E; [|reflexivity].
    apply String.eqb_eq in E. tauto.
Qed.

Lemma alumni_columns_names (a : option alumni_row) :
  map fst (User.alumni_columns a) = User.alumni_names.
Proof. destruct a; reflexivity. Qed.

(** A property that is no column of [alumni_network] is read from the
    user row. *)
Lemma joined_user_column (u : user_row) (a : option alumni_row)
    (k : string) :
  ~ In k User.alumni_names ->
  Js.prop (User.joined_object (u, a)) k
  = Js.prop (Js.of_columns (User.user_columns u)) k.
Proof.
  intros Hk. unfold User.joined_object, Js.of_columns. cbn [fst snd].
  rewrite fold_left_app. apply prop_other_columns.
  now rewrite alumni_columns_names.
Qed.

(** A column of [alumni_network] is read from the profile half of the
    row, also where [users] has a column of that name. *)
Lemma joined_profile_column (u : user_row) (a : option alumni_row)
    (k : string) :
  In k User.alumni_names ->
  Js.prop (User.joined_object (u, a)) k
  = Js.prop (Js.of_columns (User.alumni_columns a)) k.
Proof.
  unfold User.alumni_names. intros Hk.
  repeat (destruct Hk as [<-|Hk]; [destruct a; reflexivity|]).
  destruct Hk.
Qed.

Lemma padded_profile_column (k : string) :
  In k User.alumni_names ->
  Js.prop (Js.of_columns (User.alumni_columns None)) k = Some Js.VNull.
Proof.
  unfold User.alumni_names. intros Hk.
  repeat (destruct Hk as [<-|Hk]; [reflexivity|]).
  destruct Hk.
Qed.

(** C10, as stated, fails on the user fields [id] and [updated_at]: for
    Ada, an alumna without profile, the record [getAlumniNetwork] returns
    holds [NULL] under both names, not her id 1 and her [updated_at] 30. *)
Lemma getAlumniNetwork_id_counterexample :
  exists u obj,
    In u (users campus_graduated)
    /\ user_type u = "alumni"
    /\ profiles_of (user_id u) campus_graduated = []
    /\ User.getAlumniNetwork (user_id u) campus_graduated
       = (campus_graduated, Ok (Some obj))
    /\ user_id u = 1
    /\ Js.prop obj "id" = Some Js.VNull
    /\ user_updated_at u = Some 30
    /\ Js.prop obj "updated_at" = Some Js.VNull.
Proof.
  exists (User.retype 30 "alumni" (Some 2019) ada). eexists.
  split; [now left|]. split; [reflexivity|]. split; [reflexivity|].
  split; [reflexivity|]. repeat split.
Qed.

(** C10.  For a user row [u] of the store: if [u] is of type "alumni" and
    no profile row has its id, [getAlumniNetwork] returns a record, not an
    absent result; the record holds [NULL] under every column name of
    [alumni_network], [id] and [updated_at] among them, and under every
    other name what the row [u] holds.  If [u] is of another type,
    [getAlumniNetwork] returns nothing, whatever the profile table
    holds. *)
Theorem getAlumniNetwork_left_join (s : store) (u : user_row) :
  users_keyed s ->
  In u (users s) ->
  (user_type u = "alumni" ->
   profiles_of (user_id u) s = [] ->
   exists obj,
     User.getAlumniNetwork (user_id u) s = (s, Ok (Some obj))
     /\ (forall k, In k User.alumni_names -> Js.prop obj k = Some Js.VNull)
     /\ (forall k, ~ In k User.alumni_names ->
                   Js.prop obj k
                   = Js.prop (Js.of_columns (User.user_columns u)) k))
  /\ (user_type u <> "alumni" ->
      User.getAlumniNetwork (user_id u) s = (s, Ok None)).
Proof.
  intros Hk Hin.
  rewrite getAlumniNetwork_eval, (getAlumniNetwork_rows s u Hk Hin).
  split.
  - intros Ht Hnone. exists (User.joined_object (u, None)).
    rewrite Ht. cbn [String.eqb].
    rewrite left_join_unmatched
      by (now rewrite user_alumni_profiles).
    split; [reflexivity|]. split.
    + intros k Hin'. rewrite joined_profile_column by exact Hin'.
      now apply padded_profile_column.
    + intros k. apply joined_user_column.
  - intros Ht. apply String.eqb_neq in Ht. rewrite Ht. reflexivity.
Qed.

Lemma getAlumniNetwork_left_join_witness :
  (exists obj,
     User.getAlumniNetwork 2 campus = (campus, Ok (Some obj))
     /\ Js.prop obj "id" = Some Js.VNull
     /\ Js.prop obj "current_employer" = Some Js.VNull
     /\ Js.prop obj "name" = Some (Js.VText "Bob")
     /\ Js.prop obj "graduation_year" = Some (Js.VInt 2012))
  /\ User.getAlumniNetwork 1 campus = (campus, Ok None).
Proof.
  assert (Hk : users_keyed campus)
    by (repeat constructor; simpl; intuition discriminate).
  destruct (getAlumniNetwork_left_join campus bob Hk) as [H _];
    [right; now left|].
  destruct (getAlumniNetwork_left_join campus ada Hk) as [_ H'];
    [now left|].
  destruct (H eq_refl eq_refl) as [obj [E [Hnull Huser]]].
  split; [|apply H'; discriminate].
  exists obj. split; [exact E|].
  split; [apply Hnull; now left|].
  split; [apply Hnull; right; right; now left|].
  split.
  - rewrite Huser; [reflexivity|].
    cbn [User.alumni_names In]. intuition discriminate.
  - rewrite Huser; [reflexivity|].
    cbn [User.alumni_names In]. intuition discriminate.
Defined.

(* ================================================================== *)
(** * [findOrCreateFromMicrosoft] *)

Lemma findOrCreate_unknown (now : Z) (p : User.profile)
    (userType : option string) (s : store) :
  find (fun u => String.eqb (user_microsoft_id u) (User.profile_id p))
    (users s) = None ->
  User.findOrCreateFromMicrosoft now p userType s
  = (set_users (users s ++ [new_user now p userType s]) s,
     Ok (Some (new_user now p userType s))).
Proof.
  intros Hfind.
  unfold User.findOrCreateFromMicrosoft, User.findByMicrosoftId,
    bind, get, ret. simpl.
  rewrite Hfind.
  unfold User.create, bind, User.insert_user. simpl.
  assert (E : existsb (fun u => String.eqb (user_microsoft_id u)
                                  (User.profile_id p)) (users s) = false).
  { apply existsb_false_iff. now apply find_none_iff. }
  rewrite E.
  unfold User.findById, bind, get, ret. simpl.
  rewrite find_app_fresh.
  - simpl. rewrite Z.eqb_refl. reflexivity.
  - intros u Hu. apply Z.eqb_neq. intros Eid.
    apply (next_rowid_not_in (map user_id (users s))).
    rewrite <- Eid. now apply in_map.
Qed.

Lemma findOrCreate_known (now : Z) (p : User.profile)
    (userType : option string) (s : store) (u : user_row) :
  find (fun u => String.eqb (user_microsoft_id u) (User.profile_id p))
    (users s) = Some u ->
  User.findOrCreateFromMicrosoft now p userType s
  = (set_users (logged_in now (user_id u) s) s, Ok (Some u)).
Proof.
  intros Hfind.
  unfold User.findOrCreateFromMicrosoft, User.findByMicrosoftId,
    bind, get, ret. simpl.
  rewrite Hfind. reflexivity.
Qed.

Lemma findByMicrosoftId_logged_in (mid : string) (now id : Z) (s : store)
    (u : user_row) :
  find (fun x => String.eqb (user_microsoft_id x) mid) (users s) = Some u ->
  find (fun x => String.eqb (user_microsoft_id x) mid) (logged_in now id s)
  = Some (if user_id u =? id then User.touch_last_login now u else u).
Proof.
  intros H. unfold logged_in.
  rewrite find_map_preserving.
  - now rewrite H.
  - intros x. now destruct (user_id x =? id).
Qed.

Lemma users_with_microsoft_id_logged_in (mid : string) (now id : Z)
    (s s' : store) :
  users s' = logged_in now id s ->
  users_with_microsoft_id mid s'
  = map (fun u => if user_id u =? id then User.touch_last_login now u else u)
      (users_with_microsoft_id mid s).
Proof.
  intros H. unfold users_with_microsoft_id. rewrite H. unfold logged_in.
  apply filter_map_preserving.
  intros x. now destruct (user_id x =? id).
Qed.

Lemma findById_logged_in (now id : Z) (s s' : store) (u : user_row) :
  users s' = logged_in now id s ->
  find (fun x => user_id x =? id) (users s) = Some u ->
  User.findById id s' = (s', Ok (Some (User.touch_last_login now u))).
Proof.
  intros H Hfind. unfold User.findById, bind, get, ret. simpl.
  rewrite H. unfold logged_in.
  rewrite (find_update user_id Z.eqb) by reflexivity.
  now rewrite Hfind.
Qed.

(** C4.  Two calls with the same profile, the second no earlier than the
    first, both return a user, and the two users have the same id.  The
    second call adds no row: the users table it leaves is the one it found
    with [last_login] rewritten in the rows of that id, and exactly one row
    carries the external id.  The user the second call returns is the first
    call's apart from [last_login], which is the time of the first call; the
    row in the store after the second call has the time of the second call,
    and both are at or after the first call's time. *)
Theorem findOrCreate_twice (t1 t2 : Z) (p : User.profile)
    (userType1 userType2 : option string) (s : store) :
  t1 <= t2 ->
  users_keyed s ->
  users_unique s ->
  exists s1 u1 s2 u2,
    User.findOrCreateFromMicrosoft t1 p userType1 s = (s1, Ok (Some u1))
    /\ User.findOrCreateFromMicrosoft t2 p userType2 s1 = (s2, Ok (Some u2))
    /\ user_id u2 = user_id u1
    /\ u2 = User.touch_last_login t1 u1
    /\ users s2 = logged_in t2 (user_id u1) s1
    /\ List.length (users s2) = List.length (users s1)
    /\ users_with_microsoft_id (User.profile_id p) s2
       = [User.touch_last_login t2 u2]
    /\ User.findById (user_id u1) s2
       = (s2, Ok (Some (User.touch_last_login t2 u2)))
    /\ t1 <= user_last_login u2
    /\ t1 <= user_last_login (User.touch_last_login t2 u2).
Proof.
  intros Ht Hk Hu.
  destruct (find (fun u => String.eqb (user_microsoft_id u)
                             (User.profile_id p)) (users s))
    as [u|] eqn:Hfind.
  - (* a known user: both calls take the update branch *)
    set (s1 := set_users (logged_in t1 (user_id u) s) s).
    set (u2 := User.touch_last_login t1 u).
    assert (Hfind1 : find (fun x => String.eqb (user_microsoft_id x)
                                      (User.profile_id p)) (users s1)
                     = Some u2).
    { unfold s1. cbn [users set_users].
      rewrite (findByMicrosoftId_logged_in _ t1 (user_id u) s u Hfind).
      now rewrite Z.eqb_refl. }
    exists s1, u, (set_users (logged_in t2 (user_id u2) s1) s1), u2.
    split; [now apply findOrCreate_known|].
    split; [now apply findOrCreate_known|].
    split; [reflexivity|]. split; [reflexivity|]. split; [reflexivity|].
    split; [unfold logged_in; cbn [users set_users]; now rewrite !length_map|].
    assert (Hin : In u (users s) /\ user_microsoft_id u = User.profile_id p)
      by exact (find_selects user_microsoft_id String.eqb string_eqb_eq
                  _ _ _ Hfind).
    split.
    { rewrite (users_with_microsoft_id_logged_in _ t2 (user_id u2) s1)
        by reflexivity.
      rewrite (users_with_microsoft_id_logged_in _ t1 (user_id u) s s1)
        by reflexivity.
      unfold users_with_microsoft_id.
      rewrite (select_found user_microsoft_id String.eqb string_eqb_eq
                 _ _ u Hu Hfind).
      cbn [map]. rewrite Z.eqb_refl.
      change (user_id (User.touch_last_login t1 u)) with (user_id u).
      now rewrite Z.eqb_refl. }
    split.
    { apply (findById_logged_in t2 (user_id u) s1); [reflexivity|].
      unfold s1. cbn [users set_users]. unfold logged_in.
      rewrite (find_update user_id Z.eqb) by reflexivity.
      destruct Hin as [Hin _].
      now rewrite (find_member user_id Z.eqb Z_eqb_eq _ u Hk Hin). }
    simpl. lia.
  - (* an unknown user: the first call inserts, the second updates *)
    set (row := new_user t1 p userType1 s).
    set (s1 := set_users (users s ++ [row]) s).
    assert (Hnone : forall x, In x (users s) ->
              String.eqb (user_microsoft_id x) (User.profile_id p) = false)
      by now apply find_none_iff.
    assert (Hfresh : forall x, In x (users s) ->
              (user_id x =? user_id row) = false).
    { intros x Hx. apply Z.eqb_neq. intros E.
      apply (next_rowid_not_in (map user_id (users s))).
      change (Sql.next_rowid (map user_id (users s))) with (user_id row).
      rewrite <- E. now apply in_map. }
    assert (Hfind1 : find (fun x => String.eqb (user_microsoft_id x)
                                      (User.profile_id p)) (users s1)
                     = Some row).
    { unfold s1. cbn [users set_users].
      rewrite find_app_fresh by exact Hnone.
      cbn [row new_user user_microsoft_id]. now rewrite String.eqb_refl. }
    exists s1, row, (set_users (logged_in t2 (user_id row) s1) s1), row.
    split; [now apply findOrCreate_unknown|].
    split; [now apply findOrCreate_known|].
    split; [reflexivity|]. split; [reflexivity|]. split; [reflexivity|].
    split; [unfold logged_in; cbn [users set_users]; now rewrite !length_map|].
    split.
    { rewrite (users_with_microsoft_id_logged_in _ t2 (user_id row) s1)
        by reflexivity.
      unfold users_with_microsoft_id, s1. cbn [users set_users].
      rewrite filter_app, (proj2 (filter_nil_iff _ _) Hnone).
      cbn [filter app row new_user user_microsoft_id].
      rewrite String.eqb_refl. cbn [map]. now rewrite Z.eqb_refl. }
    split.
    { apply (findById_logged_in t2 (user_id row) s1); [reflexivity|].
      unfold s1. cbn [users set_users].
      rewrite find_app_fresh by exact Hfresh.
      now rewrite Z.eqb_refl. }
    simpl. lia.
Qed.

Lemma findOrCreate_twice_witness :
  exists s1 u1 s2 u2,
    User.findOrCreateFromMicrosoft 70 eve_profile None campus
    = (s1, Ok (Some u1))
    /\ User.findOrCreateFromMicrosoft 90 eve_profile None s1
       = (s2, Ok (Some u2))
    /\ user_id u2 = user_id u1
    /\ List.length (users s2) = List.length (users s1)
    /\ 70 <= user_last_login u2.
Proof.
  destruct (findOrCreate_twice 70 90 eve_profile None None campus)
    as [s1 [u1 [s2 [u2 [H1 [H2 [H3 [_ [_ [H6 [_ [_ [H9 _]]]]]]]]]]]]].
  - lia.
  - repeat constructor; simpl; intuition discriminate.
  - repeat constructor; simpl; intuition discriminate.
  - exists s1, u1, s2, u2. auto.
Defined.

(* ================================================================== *)
(** * [POST /professors] *)

Lemma pair_eqb_eq (x y : string * string) : pair_eqb x y = true <-> x = y.
Proof.
  destruct x as [a b], y as [c d]. unfold pair_eqb. simpl.
  rewrite andb_true_iff, !String.eqb_eq. split.
  - now intros [-> ->].
  - intros H. now injection H.
Qed.

Lemma insert_or_ignore_existing (name department : string) (s : store) :
  professors_with name department s <> [] ->
  ProfessorRoutes.insert_or_ignore name department s = s.
Proof.
  intros H. unfold ProfessorRoutes.insert_or_ignore.
  destruct (existsb _ (professors s)) eqn:E; [reflexivity|].
  exfalso. apply H. apply filter_nil_iff. now apply existsb_false_iff.
Qed.

Lemma insert_or_ignore_unique (name department : string) (s : store) :
  professors_unique s ->
  professors_unique (ProfessorRoutes.insert_or_ignore name department s).
Proof.
  unfold professors_unique, ProfessorRoutes.insert_or_ignore. intros Hu.
  destruct (existsb _ (professors s)) eqn:E; [exact Hu|].
  cbn [professors insert_professor]. rewrite map_app. simpl.
  apply NoDup_snoc; [exact Hu|].
  apply (find_absent professor_pair pair_eqb pair_eqb_eq).
  apply find_none_iff. now apply existsb_false_iff.
Qed.

(** After the insert there is one row with the pair, whether the statement
    added it or skipped over it. *)
Lemma insert_or_ignore_one (name department : string) (s : store) :
  professors_unique s ->
  exists row,
    professors_with name department
      (ProfessorRoutes.insert_or_ignore name department s) = [row]
    /\ professor_name row = name
    /\ professor_department row = department.
Proof.
  intros Hu. unfold ProfessorRoutes.insert_or_ignore, professors_with.
  destruct (existsb _ (professors s)) eqn:E.
  - pose proof (select_unique professor_pair pair_eqb pair_eqb_eq
                  (professors s) (name, department) Hu) as Hlen.
    apply existsb_exists in E. destruct E as [row [Hin Hrow]].
    assert (Hf : In row (filter (fun p => pair_eqb (professor_pair p)
                                            (name, department))
                           (professors s)))
      by (apply filter_In; split; assumption).
    change (fun p => pair_eqb (professor_pair p) (name, department))
      with (fun p => String.eqb (professor_name p) name
                     && String.eqb (professor_department p) department)
      in Hlen, Hf.
    destruct (filter _ (professors s)) as [|x [|y l]];
      simpl in Hlen, Hf; try contradiction; try (exfalso; lia).
    destruct Hf as [->|[]]. exists row. split; [reflexivity|].
    apply andb_true_iff in Hrow. now rewrite !String.eqb_eq in Hrow.
  - cbn [professors insert_professor].
    rewrite filter_app.
    rewrite (proj2 (filter_nil_iff _ _)) by now apply existsb_false_iff.
    cbn [filter app professor_name professor_department].
    rewrite !String.eqb_refl. cbn [andb].
    eexists. split; [reflexivity|]. split; reflexivity.
Qed.

Lemma post_accepted (req : ProfessorRoutes.request) (s : store) :
  ProfessorRoutes.req_user req <> None ->
  Js.truthy_str (ProfessorRoutes.body_name req) = true ->
  let s' := ProfessorRoutes.insert_or_ignore
              (Js.text (ProfessorRoutes.body_name req))
              (Js.or_str (ProfessorRoutes.body_department req) "Unknown") s in
  ProfessorRoutes.post req s
  = (s', {| ProfessorRoutes.status := 200;
            ProfessorRoutes.message := "Professor added!";
            ProfessorRoutes.id := Some (last_id s') |}).
Proof.
  intros Hu Hn. unfold ProfessorRoutes.post.
  destruct (ProfessorRoutes.req_user req); [|contradiction].
  rewrite Hn. reflexivity.
Qed.

Lemma post_unique (req : ProfessorRoutes.request) (s : store) :
  professors_unique s -> professors_unique (fst (ProfessorRoutes.post req s)).
Proof.
  intros Hu. unfold ProfessorRoutes.post.
  destruct (ProfessorRoutes.req_user req); [|exact Hu].
  destruct (negb _); [exact Hu|].
  now apply insert_or_ignore_unique.
Qed.

Lemma run_posts_unique (reqs : list ProfessorRoutes.request) :
  forall s, professors_unique s -> professors_unique (run_posts reqs s).
Proof.
  induction reqs as [|r reqs IH]; simpl; intros s Hu.
  - exact Hu.
  - apply IH. now apply post_unique.
Qed.

(** C8.  An authenticated request with a name is answered with status 200
    whether or not the pair [(name, department)] is already in the table,
    and after it exactly one row has that pair.  If the pair was there, the
    store is left as it was; in particular a second, identical request
    changes nothing and repeats the id of the first answer.  A request
    without a department stores "Unknown".  And over any sequence of
    requests no pair ever occurs in two rows. *)
Theorem post_professor_idempotent (req : ProfessorRoutes.request) (s : store) :
  professors_unique s ->
  ProfessorRoutes.req_user req <> None ->
  Js.truthy_str (ProfessorRoutes.body_name req) = true ->
  let name := Js.text (ProfessorRoutes.body_name req) in
  let department :=
    Js.or_str (ProfessorRoutes.body_department req) "Unknown" in
  (exists s1 r1 s2 r2 row,
     ProfessorRoutes.post req s = (s1, r1)
     /\ ProfessorRoutes.post req s1 = (s2, r2)
     /\ ProfessorRoutes.status r1 = 200
     /\ ProfessorRoutes.status r2 = 200
     /\ (professors_with name department s <> [] -> s1 = s)
     /\ s2 = s1
     /\ ProfessorRoutes.id r2 = ProfessorRoutes.id r1
     /\ professors_with name department s1 = [row]
     /\ professors_with name department s2 = [row]
     /\ professor_name row = name
     /\ professor_department row = department)
  /\ (ProfessorRoutes.body_department req = None -> department = "Unknown")
  /\ (forall reqs n d,
        (List.length (professors_with n d (run_posts reqs s)) <= 1)%nat).
Proof.
  intros Hu Hauth Hname name department.
  split; [|split].
  - destruct (insert_or_ignore_one name department s Hu)
      as [row [Hrow [Hn Hd]]].
    set (s1 := ProfessorRoutes.insert_or_ignore name department s) in *.
    assert (Hagain : ProfessorRoutes.insert_or_ignore name department s1
                     = s1).
    { apply insert_or_ignore_existing. rewrite Hrow. discriminate. }
    do 2 eexists. exists s1. eexists. exists row.
    split; [apply (post_accepted req s Hauth Hname)|].
    split.
    { rewrite (post_accepted req _ Hauth Hname). cbv zeta.
      fold name department. fold s1. rewrite Hagain. reflexivity. }
    repeat split; auto.
    intros Hex. now apply insert_or_ignore_existing.
  - unfold department. now intros ->.
  - intros reqs n d.
    apply (select_unique professor_pair pair_eqb pair_eqb_eq _ (n, d)).
    now apply run_posts_unique.
Qed.

Lemma post_professor_idempotent_witness :
  exists s1 r1 s2 r2 row,
    ProfessorRoutes.post jane_lee campus = (s1, r1)
    /\ ProfessorRoutes.post jane_lee s1 = (s2, r2)
    /\ s2 = s1
    /\ professors_with "Dr. Jane Lee" "COMP" s2 = [row].
Proof.
  destruct (post_professor_idempotent jane_lee campus)
    as [[s1 [r1 [s2 [r2 [row [H1 [H2 [_ [_ [_ [H6 [_ [_ [H9 _]]]]]]]]]]]]]] _].
  - constructor.
  - discriminate.
  - reflexivity.
  - exists s1, r1, s2, r2, row. auto.
Defined.

(** The second answer carries the id of the row the first request added. *)
Example post_jane_lee_twice :
  let (s1, r1) := ProfessorRoutes.post jane_lee campus in
  let (s2, r2) := ProfessorRoutes.post jane_lee s1 in
  ProfessorRoutes.id r1 = Some 1 /\ ProfessorRoutes.id r2 = Some 1
  /\ List.length (professors s2) = 1%nat.
Proof. repeat split. Qed.

Example post_without_department :
  professors (fst (ProfessorRoutes.post jane_lee_no_department campus))
  = [{| professor_id := 1; professor_name := "Dr. Jane Lee";
        professor_department := "Unknown" |}].
Proof. reflexivity. Qed.

(* ================================================================== *)
(** * The invariants hold in every store a session reaches *)

Lemma empty_store_ok : store_ok empty_store.
Proof. repeat split; constructor. Qed.

Lemma NoDup_map_filter {A K : Type} (key : A -> K) (p : A -> bool)
    (l : list A) :
  NoDup (map key l) -> NoDup (map key (filter p l)).
Proof.
  induction l as [|x l IH]; simpl; intros H.
  - constructor.
  - inversion H as [|? ? Hx Hl]; subst.
    destruct (p x); simpl; [|now apply IH].
    constructor; [|now apply IH].
    intros Hin. apply Hx. apply in_map_iff in Hin.
    destruct Hin as [y [E Hy]]. apply filter_In in Hy.
    rewrite <- E. apply in_map. tauto.
Qed.

Lemma create_keeps_ok (now : Z) (f : Course.fields) (s : store) :
  store_ok s -> store_ok (fst (Course.create now f s)).
Proof.
  intros Hok. unfold Course.create.
  destruct (negb _ || negb _ || negb _); [exact Hok|].
  unfold bind.
  destruct (Course.insert_course _ _ _ _ _ s) as [s1 [id|e]] eqn:Hins.
  - apply insert_course_ok in Hins. destruct Hins as [Hcode [Hid ->]].
    unfold Course.findById, bind, get, ret. cbn [fst].
    destruct Hok as [Hk [Hu Hrest]].
    split; [|split; [|exact Hrest]].
    + unfold courses_keyed. cbn [courses set_courses].
      rewrite map_app. apply NoDup_snoc; [exact Hk|].
      cbn [map course_id]. rewrite Hid. apply next_rowid_not_in.
    + unfold courses_unique. cbn [courses set_courses].
      rewrite map_app. apply NoDup_snoc; [exact Hu|].
      apply (find_absent course_code String.eqb string_eqb_eq).
      now apply find_none_iff.
  - unfold Course.insert_course in Hins.
    destruct (existsb _ _); inversion Hins; subst. exact Hok.
Qed.

Lemma delete_keeps_ok (id : Z) (s : store) :
  store_ok s -> store_ok (fst (Course.delete id s)).
Proof.
  intros Hok. unfold Course.delete, bind, get, ret. cbn [fst].
  destruct (0 <? Course.review_check id s)%nat; [exact Hok|].
  cbn [fst Course.delete_course].
  destruct Hok as [Hk [Hu Hrest]].
  split; [|split; [|exact Hrest]].
  - now apply NoDup_map_filter.
  - now apply NoDup_map_filter.
Qed.

Lemma logged_in_ids (now id : Z) (s : store) :
  map user_id (logged_in now id s) = map user_id (users s).
Proof.
  unfold logged_in. apply (map_key_update user_id Z.eqb). reflexivity.
Qed.

Lemma logged_in_microsoft_ids (now id : Z) (s : store) :
  map user_microsoft_id (logged_in now id s)
  = map user_microsoft_id (users s).
Proof.
  unfold logged_in. rewrite map_map. apply map_ext.
  intros u. now destruct (user_id u =? id).
Qed.

Lemma retyped_users_microsoft_ids (now userId : Z) (d : User.alumni_data)
    (s : store) :
  map user_microsoft_id (retyped_users now userId d s)
  = map user_microsoft_id (users s).
Proof.
  unfold retyped_users. rewrite map_map. apply map_ext.
  intros u. now destruct (user_id u =? userId).
Qed.

Lemma findOrCreate_keeps_ok (now : Z) (p : User.profile)
    (userType : option string) (s : store) :
  store_ok s ->
  store_ok (fst (User.findOrCreateFromMicrosoft now p userType s)).
Proof.
  intros [Hck [Hcu [Hpk [Hpu [Hk [Hu Ha]]]]]].
  destruct (find (fun u => String.eqb (user_microsoft_id u)
                             (User.profile_id p)) (users s))
    as [u|] eqn:Hfind.
  - rewrite (findOrCreate_known now p userType s u Hfind). cbn [fst].
    repeat split; auto.
    + unfold users_keyed. cbn [users set_users].
      now rewrite logged_in_ids.
    + unfold users_unique. cbn [users set_users].
      now rewrite logged_in_microsoft_ids.
  - rewrite (findOrCreate_unknown now p userType s Hfind). cbn [fst].
    repeat split; auto.
    + unfold users_keyed. cbn [users set_users].
      rewrite map_app. apply NoDup_snoc; [exact Hk|].
      apply next_rowid_not_in.
    + unfold users_unique. cbn [users set_users].
      rewrite map_app. apply NoDup_snoc; [exact Hu|].
      now apply (find_absent user_microsoft_id String.eqb string_eqb_eq).
Qed.

Lemma updateAlumniNetwork_others (fk : bool) (now userId : Z)
    (d : User.alumni_data) (s : store) :
  let s' := fst (User.updateAlumniNetwork fk now userId d s) in
  courses s' = courses s /\ professors s' = professors s
  /\ reviews s' = reviews s.
Proof.
  rewrite updateAlumniNetwork_steps. cbv zeta.
  destruct (find _ (alumni_network s)); [repeat split|].
  unfold User.insert_alumni. cbn [users set_users].
  destruct (fk && _); repeat split.
Qed.

Lemma updateAlumniNetwork_keeps_ok (fk : bool) (now userId : Z)
    (d : User.alumni_data) (s : store) :
  store_ok s ->
  store_ok (fst (User.updateAlumniNetwork fk now userId d s)).
Proof.
  intros [Hck [Hcu [Hpk [Hpu [Hk [Hu Ha]]]]]].
  destruct (updateAlumniNetwork_others fk now userId d s) as [Ec [Ep _]].
  pose proof (updateAlumniNetwork_users fk now userId d s) as Eu.
  unfold store_ok, courses_keyed, courses_unique, professors_keyed,
    professors_unique, users_keyed, users_unique.
  rewrite Ec, Ep, Eu, retyped_users_ids, retyped_users_microsoft_ids.
  repeat split; auto.
  now apply updateAlumniNetwork_unique.
Qed.

Lemma post_keeps_ok (req : ProfessorRoutes.request) (s : store) :
  store_ok s -> store_ok (fst (ProfessorRoutes.post req s)).
Proof.
  intros Hok.
  pose proof (post_unique req s) as Hunique.
  destruct Hok as [Hck [Hcu [Hpk [Hpu [Hk [Hu Ha]]]]]].
  specialize (Hunique Hpu). revert Hunique.
  unfold ProfessorRoutes.post.
  destruct (ProfessorRoutes.req_user req);
    [|intros _; repeat split; assumption].
  destruct (negb _); [intros _; repeat split; assumption|].
  cbn [fst]. unfold ProfessorRoutes.insert_or_ignore.
  destruct (existsb _ (professors s));
    [intros _; repeat split; assumption|].
  intros Hunique. repeat split; try assumption.
  unfold professors_keyed. cbn [professors insert_professor].
  rewrite map_app. apply NoDup_snoc; [exact Hpk|].
  apply next_rowid_not_in.
Qed.

Lemma run_call_keeps_ok (fk : bool) (c : call) (s : store) :
  store_ok s -> store_ok (run_call fk c s).
Proof.
  destruct c; simpl.
  - apply create_keeps_ok.
  - apply delete_keeps_ok.
  - apply findOrCreate_keeps_ok.
  - apply updateAlumniNetwork_keeps_ok.
  - apply post_keeps_ok.
Qed.

(** Whatever calls a session makes on a database that started empty, ids
    and the unique columns stay free of duplicates, and no user has two
    alumni profiles. *)
Lemma session_ok (fk : bool) (cs : list call) :
  store_ok (run_calls fk cs empty_store).
Proof.
  unfold run_calls.
  assert (H : forall s, store_ok s ->
                store_ok (fold_left (fun s c => run_call fk c s) cs s)).
  { induction cs as [|c cs IH]; simpl; intros s Hs.
    - exact Hs.
    - apply IH. now apply run_call_keeps_ok. }
  apply H, empty_store_ok.
Qed.

(* ================================================================== *)
(** * Queries: members and order *)

(** A query [SELECT ... WHERE p ORDER BY le] returns the rows that satisfy
    [p], each as often as the table holds it. *)
Lemma query_members {A : Type} (le : A -> A -> bool) (p : A -> bool)
    (l : list A) (x : A) :
  In x (Sql.order_by le (filter p l)) <-> In x l /\ p x = true.
Proof. now rewrite order_by_In, filter_In. Qed.

Lemma StronglySorted_map {A B : Type} (f : A -> B) (R : B -> B -> Prop)
    (l : list A) :
  StronglySorted (fun x y => R (f x) (f y)) l -> StronglySorted R (map f l).
Proof.
  induction 1 as [|x l Hl IH Hx]; simpl; constructor; auto.
  rewrite Forall_forall in *. intros y Hy.
  apply in_map_iff in Hy. destruct Hy as [z [<- Hz]]. now apply Hx.
Qed.

Lemma string_leb_total (a b : string) :
  String.leb a b = true \/ String.leb b a = true.
Proof. apply String.leb_total. Qed.

(** Two sort keys: a first key compared by [cmp], ties left to [le2]. *)
Section TwoKeys.
Context {A K : Type} (key : A -> K) (cmp : K -> K -> comparison)
  (le2 : A -> A -> bool).
Hypothesis cmp_antisym : forall x y, cmp y x = CompOpp (cmp x y).
Hypothesis cmp_eq : forall x y z, cmp x y = Eq -> cmp x z = cmp y z.
Hypothesis cmp_lt : forall x y z, cmp x y = Lt -> cmp y z = Lt -> cmp x z = Lt.
Hypothesis le2_total : forall x y, le2 x y = true \/ le2 y x = true.
Hypothesis le2_trans :
  forall x y z, le2 x y = true -> le2 y z = true -> le2 x z = true.

Let lex (x y : A) : bool :=
  match cmp (key x) (key y) with
  | Lt => true
  | Eq => le2 x y
  | Gt => false
  end.

Lemma two_keys_total (x y : A) : lex x y = true \/ lex y x = true.
Proof.
  unfold lex. rewrite (cmp_antisym (key x) (key y)).
  destruct (cmp (key x) (key y)); simpl; auto.
Qed.

Lemma two_keys_trans (x y z : A) :
  lex x y = true -> lex y z = true -> lex x z = true.
Proof.
  unfold lex.
  destruct (cmp (key x) (key y)) eqn:Exy; try discriminate.
  - rewrite (cmp_eq _ _ (key z) Exy).
    destruct (cmp (key y) (key z)); try discriminate; auto.
    apply le2_trans.
  - intros _.
    destruct (cmp (key y) (key z)) eqn:Eyz; try discriminate; intros _.
    + assert (Ezy : cmp (key z) (key y) = Eq)
        by (rewrite cmp_antisym, Eyz; reflexivity).
      assert (Ezx : cmp (key z) (key x) = Gt).
      { rewrite (cmp_eq _ _ (key x) Ezy), cmp_antisym, Exy. reflexivity. }
      rewrite cmp_antisym, Ezx. reflexivity.
    + now rewrite (cmp_lt _ _ _ Exy Eyz).
Qed.
End TwoKeys.

(* ================================================================== *)
(** * [trim] *)

(** One white-space character at the head of a text is dropped. *)
Lemma drop_leading_white_space (w rest : string) :
  In w Js.white_space ->
  Js.drop_leading Js.white_space 0 (w ++ rest)
  = Js.drop_leading Js.white_space 0 rest.
Proof.
  unfold Js.white_space. cbn [map].
  intros H. repeat (destruct H as [<-|H]; [reflexivity|]). destruct H.
Qed.

Lemma trim_start_blank (t : string) : blank t -> Js.trim_start t = "".
Proof.
  intros [ws [Hws ->]]. unfold Js.trim_start.
  induction Hws as [|w ws Hw _ IH]; [reflexivity|].
  cbn [fold_right]. now rewrite drop_leading_white_space.
Qed.

(** A text of white space only is trimmed to the empty text. *)
Lemma trim_blank (t : string) : blank t -> Js.trim t = "".
Proof.
  intros Hb. unfold Js.trim. now rewrite (trim_start_blank t Hb).
Qed.

(** ** What [trim] strips *)

Section DropLeading.
Variable ws : list string.

Lemma starts_with_split (w t : string) :
  Js.starts_with w t = true -> exists rest, t = w ++ rest.
Proof.
  revert t. induction w as [|a w IH]; intros t H.
  - now exists t.
  - destruct t as [|b t]; [discriminate|]. cbn [Js.starts_with] in H.
    apply andb_true_iff in H. destruct H as [E H].
    apply Ascii.eqb_eq in E. subst b.
    destruct (IH t H) as [rest ->]. now exists rest.
Qed.

Lemma drop_pending (w rest : string) :
  Js.drop_leading ws (String.length w) (w ++ rest)
  = Js.drop_leading ws 0 rest.
Proof. induction w as [|a w IH]; [reflexivity | exact IH]. Qed.

Lemma append_length (a b : string) :
  String.length (a ++ b) = (String.length a + String.length b)%nat.
Proof. induction a as [|c a IH]; simpl; [|rewrite IH]; reflexivity. Qed.

Lemma append_assoc (a b c : string) : (a ++ b) ++ c = a ++ (b ++ c).
Proof. induction a as [|x a IH]; simpl; [|rewrite IH]; reflexivity. Qed.

(** What [drop_leading] dropped is a run of members of [ws]. *)
Lemma drop_leading_split (n : nat) :
  forall t, (String.length t <= n)%nat ->
  exists l,
    Forall (fun w => In w ws) l
    /\ t = fold_right String.append "" l ++ Js.drop_leading ws 0 t.
Proof.
  induction n as [|n IH]; intros t Hn.
  - destruct t; [|simpl in Hn; lia]. now exists [].
  - destruct t as [|c t]; [now exists []|].
    cbn [Js.drop_leading]. unfold Js.starts_with_any.
    destruct (find (fun w => Js.starts_with w (String c t)) ws)
      as [w|] eqn:Hfind; [|now exists []].
    destruct w as [|a w]; [now exists []|].
    apply find_some in Hfind. destruct Hfind as [Hin Hw].
    destruct (starts_with_split _ _ Hw) as [rest E].
    injection E as -> ->.
    cbn [String.length]. rewrite drop_pending.
    destruct (IH rest) as [l [Hl El]].
    { simpl in Hn. rewrite append_length in Hn. lia. }
    exists (String a w :: l). split; [now constructor|].
    cbn [fold_right]. rewrite append_assoc, <- El. reflexivity.
Qed.
End DropLeading.

Lemma reverse_involutive (t : string) : Js.reverse (Js.reverse t) = t.
Proof.
  unfold Js.reverse.
  now rewrite list_ascii_of_string_of_list_ascii, rev_involutive,
    string_of_list_ascii_of_string.
Qed.

Lemma string_of_list_ascii_app (a b : list ascii) :
  string_of_list_ascii (a ++ b)
  = string_of_list_ascii a ++ string_of_list_ascii b.
Proof. induction a as [|c a IH]; simpl; [|rewrite IH]; reflexivity. Qed.

Lemma list_ascii_of_string_app (a b : string) :
  list_ascii_of_string (a ++ b)
  = (list_ascii_of_string a ++ list_ascii_of_string b)%list.
Proof. induction a as [|c a IH]; simpl; [|rewrite IH]; reflexivity. Qed.

Lemma reverse_app (a b : string) :
  Js.reverse (a ++ b) = Js.reverse b ++ Js.reverse a.
Proof.
  unfold Js.reverse.
  now rewrite list_ascii_of_string_app, rev_app_distr,
    string_of_list_ascii_app.
Qed.

Lemma blank_app (a b : string) : blank a -> blank b -> blank (a ++ b).
Proof.
  intros [la [Ha ->]] [lb [Hb ->]]. exists (la ++ lb)%list.
  split; [now apply Forall_app|].
  clear Ha Hb. induction la as [|w la IH]; [reflexivity|].
  cbn [fold_right app]. now rewrite append_assoc, IH.
Qed.

Lemma blank_reverse (l : list string) :
  Forall (fun w => In w (map Js.reverse Js.white_space)) l ->
  blank (Js.reverse (fold_right String.append "" l)).
Proof.
  induction 1 as [|w l Hw _ IH].
  - now exists [].
  - cbn [fold_right]. rewrite reverse_app. apply blank_app; [exact IH|].
    apply in_map_iff in Hw. destruct Hw as [v [<- Hv]].
    rewrite reverse_involutive. exists [v]. split; [now constructor|].
    cbn [fold_right]. now rewrite append_nil_r.
Qed.

(** The trimmed text is empty exactly for a text of white space only. *)
Lemma trim_empty_iff (t : string) : Js.trim t = "" <-> blank t.
Proof.
  split; [|apply trim_blank].
  unfold Js.trim, Js.trim_end, Js.trim_start. intros E.
  destruct (drop_leading_split Js.white_space _ t (le_n _)) as [l [Hl Et]].
  set (r := Js.drop_leading Js.white_space 0 t) in *.
  destruct (drop_leading_split (map Js.reverse Js.white_space) _
              (Js.reverse r) (le_n _)) as [l' [Hl' Er]].
  apply (f_equal Js.reverse) in E. rewrite reverse_involutive in E.
  rewrite E, append_nil_r in Er.
  rewrite Et. apply blank_app; [now exists l|].
  rewrite <- (reverse_involutive r), Er. now apply blank_reverse.
Qed.

(* ================================================================== *)
(** * [findAll], [findByDepartment], [getDepartments], [getStats] *)

Lemma findAll_eval (fl : Course.filters) (s : store) :
  Course.findAll fl s
  = (s, Ok (Sql.order_by Course.by_course_code
              (filter (fun c => Course.department_filter fl c
                                && Course.search_filter fl c)
                 (courses s)))).
Proof. reflexivity. Qed.

Lemma department_filter_iff (fl : Course.filters) (c : course_row) :
  Course.department_filter fl c = true <-> department_ok fl c.
Proof.
  unfold Course.department_filter, department_ok.
  destruct (Course.fl_department fl) as [[|a d]|];
    cbn [Js.truthy_str Js.text andb]; try tauto.
  destruct (String.eqb (String a d) "all") eqn:E; cbn [negb].
  - apply String.eqb_eq in E. tauto.
  - apply String.eqb_neq in E. rewrite String.eqb_eq.
    split; [auto|]. intros [H|[H|H]]; [discriminate | contradiction | exact H].
Qed.


(** X1.  With no department (or ["all"]) and no search text (or a blank one),
    [findAll] returns every course row once, in ascending order of
    [course_code]. *)
Theorem findAll_unfiltered (fl : Course.filters) (s : store) :
  missing_or_empty (Course.fl_department fl)
  \/ Course.fl_department fl = Some "all" ->
  Course.fl_search fl = None
  \/ (exists t, Course.fl_search fl = Some t /\ blank t) ->
  exists r,
    Course.findAll fl s = (s, Ok r)
    /\ Permutation r (courses s)
    /\ StronglySorted code_le r.
Proof.
  intros Hd Hs. rewrite findAll_eval. eexists. split; [reflexivity|].
  split.
  - apply perm_trans with (1 := order_by_perm _ _).
    rewrite filter_keeps_all; [apply Permutation_refl|].
    intros c _. apply andb_true_iff. split.
    + apply department_filter_iff. unfold department_ok.
      destruct Hd as [[->| ->]| ->]; auto.
    + unfold Course.search_filter.
      destruct Hs as [->|[t [-> Hb]]]; [reflexivity|].
      apply trim_blank in Hb.
      destruct t as [|a t]; [reflexivity|].
      cbn [Js.truthy_str Js.text andb]. rewrite Hb. reflexivity.
  - apply (order_by_sorted Course.by_course_code).
    + exact by_course_code_total.
    + exact by_course_code_trans.
Qed.

Lemma findAll_unfiltered_witness :
  exists r,
    Course.findAll {| Course.fl_department := Some "all";
                      Course.fl_search := Some no_break_spaces |}
      (store_rated [])
    = (store_rated [], Ok r)
    /\ Permutation r (courses (store_rated []))
    /\ StronglySorted code_le r.
Proof.
  apply findAll_unfiltered.
  - right. reflexivity.
  - right. exists no_break_spaces. split; [reflexivity|].
    exists [Js.bytes [32%N]; Js.bytes [194%N; 160%N]; Js.bytes [9%N]].
    split; [|reflexivity].
    repeat (apply Forall_cons;
            [unfold Js.white_space; cbn [map In];
             repeat (first [left; reflexivity | right])|]).
    apply Forall_nil.
Defined.



(** X4.  [getDepartments] lists exactly the departments that some course has,
    each once, in ascending order. *)
Theorem getDepartments_spec (s : store) :
  exists r,
    Course.getDepartments s = (s, Ok r)
    /\ (forall d, In d r <->
          exists c, In c (courses s) /\ course_department c = d)
    /\ NoDup r
    /\ StronglySorted text_le r.
Proof.
  eexists. split; [reflexivity|]. split; [|split].
  - intros d. rewrite order_by_In, nodup_In, in_map_iff.
    split; intros [c [H1 H2]]; exists c; auto.
  - apply (Permutation_NoDup (l := nodup string_dec
                                     (map course_department (courses s)))).
    + apply Permutation_sym, order_by_perm.
    + apply NoDup_nodup.
  - apply (order_by_sorted String.leb).
    + exact string_leb_total.
    + exact string_leb_trans.
Qed.

Lemma nodup_length_le {A : Type} (dec : forall x y : A, {x = y} + {x <> y})
    (l : list A) :
  (List.length (nodup dec l) <= List.length l)%nat.
Proof.
  induction l as [|x l IH]; simpl.
  - lia.
  - destruct (in_dec dec x l); simpl; lia.
Qed.

(** X5.  The statistics agree with the other queries: [total_courses] is the
    number of course rows, [total_departments] is the number of entries
    [getDepartments] returns and is at most [total_courses], and
    [courses_with_reviews] is at most the number of review rows and is 0
    only when there is no review. *)
Theorem getStats_consistent (s : store) :
  exists st ds,
    Course.getStats s = (s, Ok st)
    /\ Course.getDepartments s = (s, Ok ds)
    /\ Course.total_courses st = List.length (courses s)
    /\ Course.total_departments st = List.length ds
    /\ (Course.total_departments st <= Course.total_courses st)%nat
    /\ (Course.courses_with_reviews st <= List.length (reviews s))%nat
    /\ (Course.courses_with_reviews st = 0%nat <-> reviews s = []).
Proof.
  do 2 eexists. split; [reflexivity|]. split; [reflexivity|].
  cbn [Course.total_courses Course.total_departments
       Course.courses_with_reviews].
  split; [reflexivity|].
  split; [now rewrite order_by_length|].
  split.
  { rewrite <- (length_map course_department (courses s)).
    apply nodup_length_le. }
  split.
  { rewrite <- (length_map review_course_id (reviews s)).
    apply nodup_length_le. }
  destruct (reviews s) as [|r rs]; [simpl; tauto|].
  split; [|discriminate]. intros H. exfalso.
  assert (Hin : In (review_course_id r)
                  (nodup Z.eq_dec (map review_course_id (r :: rs))))
    by (apply nodup_In; now left).
  destruct (nodup Z.eq_dec (map review_course_id (r :: rs)));
    [destruct Hin | discriminate].
Qed.

(* ================================================================== *)
(** * [delete], when no review is in the way *)

Lemma store_eta (s : store) : set_courses (courses s) s = s.
Proof. now destruct s. Qed.

Lemma filter_idempotent {A : Type} (p : A -> bool) (l : list A) :
  filter p (filter p l) = filter p l.
Proof.
  apply filter_keeps_all. intros x Hx. now apply filter_In in Hx.
Qed.

Lemma filter_drops_iff {A : Type} (p : A -> bool) (l : list A) :
  (0 <? List.length l - List.length (filter p l))%nat = true
  <-> exists x, In x l /\ p x = false.
Proof.
  rewrite Nat.ltb_lt.
  induction l as [|x l IH]; cbn [filter List.length].
  - split; [lia | intros [x [[] _]]].
  - pose proof (filter_length_le p l) as Hle.
    destruct (p x) eqn:E; cbn [List.length].
    + split.
      * intros H. destruct (proj1 IH) as [y [Hy Hp]]; [lia|].
        exists y. split; [now right | exact Hp].
      * intros [y [[<-|Hy] Hp]]; [congruence|].
        assert (0 < List.length l - List.length (filter p l))%nat
          by (apply IH; now exists y).
        lia.
    + split.
      * intros _. exists x. split; [now left | exact E].
      * intros _. lia.
Qed.

Lemma create_inserted (now : Z) (f : Course.fields) (s s' : store)
    (r : option course_row) :
  Course.create now f s = (s', Ok r) ->
  exists c,
    r = Some c
    /\ s' = set_courses (courses s ++ [c]) s
    /\ (forall c0, In c0 (courses s) -> (course_id c0 =? course_id c) = false).
Proof.
  unfold Course.create.
  destruct (negb _ || negb _ || negb _); [discriminate|].
  unfold bind at 1.
  destruct (Course.insert_course _ _ _ _ _ s) as [s1 [id|e]] eqn:Hins;
    [|discriminate].
  apply insert_course_ok in Hins. destruct Hins as [_ [Hid Hs1]].
  set (row := {| course_id := id |}) in Hs1.
  assert (Hfresh : forall c0, In c0 (courses s) ->
                     (course_id c0 =? course_id row) = false).
  { intros c0 Hc0. cbn [row course_id]. rewrite Hid.
    now apply course_ids_below_next. }
  unfold Course.findById, bind, get, ret. cbn [fst snd].
  rewrite Hs1. cbn [courses set_courses].
  rewrite find_app_fresh by exact Hfresh.
  cbn [row course_id]. rewrite Z.eqb_refl.
  intros H. injection H as <- <-. exists row. auto.
Qed.

(** X6.  When no review references the id, [delete] removes the course rows
    with that id and nothing else, answers whether there was one,
    [findById] no longer finds the id, and a second [delete] answers
    [false] and changes nothing. *)
Theorem delete_without_reviews (id : Z) (s : store) :
  reviews_of_course id s = [] ->
  exists s' b,
    Course.delete id s = (s', Ok b)
    /\ (b = true <-> exists c, In c (courses s) /\ course_id c = id)
    /\ Course.findById id s' = (s', Ok None)
    /\ (forall c, In c (courses s') <->
          In c (courses s) /\ course_id c <> id)
    /\ s' = set_courses (courses s') s
    /\ Course.delete id s' = (s', Ok false).
Proof.
  intros Hnone.
  assert (Hcheck : forall l, (0 <? Course.review_check id
                                     (set_courses l s))%nat = false).
  { intros l. unfold Course.review_check. cbn [reviews set_courses].
    unfold reviews_of_course in Hnone. now rewrite Hnone. }
  assert (Hcheck0 : (0 <? Course.review_check id s)%nat = false).
  { rewrite <- (store_eta s). apply Hcheck. }
  set (keep := fun c : course_row => negb (course_id c =? id)).
  exists (set_courses (filter keep (courses s)) s).
  exists (0 <? List.length (courses s)
               - List.length (filter keep (courses s)))%nat.
  split.
  { unfold Course.delete, bind, get, ret. cbn [fst snd].
    rewrite Hcheck0. reflexivity. }
  split.
  { rewrite filter_drops_iff. unfold keep.
    split; intros [c [Hc E]]; exists c; split; auto.
    - apply negb_false_iff in E. now apply Z.eqb_eq.
    - apply negb_false_iff. now apply Z.eqb_eq. }
  split.
  { unfold Course.findById, bind, get, ret. cbn [fst snd courses set_courses].
    f_equal. f_equal. apply find_none_iff. intros c Hc.
    apply filter_In in Hc. destruct Hc as [_ Hc]. unfold keep in Hc.
    now apply negb_true_iff in Hc. }
  split.
  { intros c. cbn [courses set_courses]. rewrite filter_In. unfold keep.
    rewrite negb_true_iff, Z.eqb_neq. reflexivity. }
  split; [reflexivity|].
  unfold Course.delete, bind, get, ret. cbn [fst snd].
  rewrite Hcheck. unfold Course.delete_course.
  cbn [courses set_courses]. fold keep.
  rewrite filter_idempotent, Nat.sub_diag. reflexivity.
Qed.

Lemma delete_without_reviews_witness :
  exists s' b,
    Course.delete 1 (store_rated []) = (s', Ok b)
    /\ (b = true <->
        exists c, In c (courses (store_rated [])) /\ course_id c = 1)
    /\ Course.findById 1 s' = (s', Ok None).
Proof.
  destruct (delete_without_reviews 1 (store_rated []) eq_refl)
    as [s' [b [H1 [H2 [H3 _]]]]].
  exists s', b. auto.
Defined.

(** X7.  Deleting the course [create] has just returned, when no review row
    carries its id, answers [true] and gives back the store as it was
    before [create]. *)
Theorem create_then_delete (now : Z) (f : Course.fields) (s s' : store)
    (c : course_row) :
  Course.create now f s = (s', Ok (Some c)) ->
  reviews_of_course (course_id c) s = [] ->
  Course.delete (course_id c) s' = (s, Ok true).
Proof.
  intros Hcreate Hnone.
  apply create_inserted in Hcreate.
  destruct Hcreate as [c' [Hc' [-> Hfresh]]]. injection Hc' as <-.
  unfold Course.delete, bind, get, ret. cbn [fst snd].
  unfold Course.review_check. cbn [reviews set_courses].
  unfold reviews_of_course in Hnone. rewrite Hnone.
  cbn [List.length Nat.ltb Nat.leb].
  unfold Course.delete_course. cbn [courses set_courses].
  rewrite filter_app. cbn [filter]. rewrite Z.eqb_refl. cbn [negb].
  rewrite filter_keeps_all
    by (intros c0 Hc0; now rewrite (Hfresh c0 Hc0)).
  rewrite app_nil_r, length_app. cbn [List.length].
  replace (List.length (courses s) + 1 - List.length (courses s))%nat
    with 1%nat by lia.
  cbn [Nat.ltb Nat.leb].
  change (set_courses (courses s) (set_courses (courses s ++ [c]) s))
    with (set_courses (courses s) s).
  now rewrite store_eta.
Qed.

Lemma create_then_delete_witness :
  Course.delete 1 (store_rated []) = (empty_store, Ok true).
Proof.
  apply (create_then_delete 100 comp3030_fields empty_store (store_rated [])
           comp3030); reflexivity.
Defined.

(* ================================================================== *)
(** * [getCourseWithReviews]: the listing *)

Lemma left_join_in {A B : Type} (on : A -> B -> bool) (right : list B)
    (a a' : A) (ob : option B) :
  In (a', ob) (Sql.left_join on right a) ->
  a' = a
  /\ match ob with
     | Some b => In b right /\ on a b = true
     | None => forall b, In b right -> on a b = false
     end.
Proof.
  unfold Sql.left_join.
  destruct (filter (on a) right) as [|b0 bs] eqn:E.
  - intros [H|[]]. injection H as <- <-. split; [reflexivity|].
    now apply filter_nil_iff.
  - intros H. apply in_map_iff in H. destruct H as [b [Hb Hin]].
    injection Hb as <- <-. split; [reflexivity|].
    rewrite <- E in Hin. now apply filter_In in Hin.
Qed.

Lemma filter_fst_map {A B : Type} (f : A -> bool) (l : list (A * B)) :
  map fst (filter (fun x => f (fst x)) l) = filter f (map fst l).
Proof.
  induction l as [|x l IH]; simpl.
  - reflexivity.
  - destruct (f (fst x)); simpl; now rewrite IH.
Qed.

Lemma review_professor_iff (rv : review_row) (p : professor_row) :
  Course.review_professor rv p = true
  <-> review_professor_id rv = Some (professor_id p).
Proof.
  unfold Course.review_professor.
  destruct (review_professor_id rv) as [pid|].
  - rewrite Z.eqb_eq. split; [now intros -> | intros H; now injection H].
  - split; discriminate.
Qed.

Lemma newest_first_total (x y : review_row * option professor_row) :
  Course.newest_first x y = true \/ Course.newest_first y x = true.
Proof. unfold Course.newest_first. rewrite !Z.leb_le. lia. Qed.

Lemma newest_first_trans (x y z : review_row * option professor_row) :
  Course.newest_first x y = true -> Course.newest_first y z = true ->
  Course.newest_first x z = true.
Proof. unfold Course.newest_first. rewrite !Z.leb_le. lia. Qed.

(** X8.  [getCourseWithReviews] never writes, and it answers [null] exactly when
    no course row has the id. *)
Theorem getCourseWithReviews_null (courseId : Z) (s : store) :
  fst (Course.getCourseWithReviews courseId s) = s
  /\ (snd (Course.getCourseWithReviews courseId s) = Ok None
      <-> ~ In courseId (map course_id (courses s))).
Proof.
  unfold Course.getCourseWithReviews, Course.findById, bind, get, ret.
  cbn [fst snd].
  rewrite <- (find_absent course_id Z.eqb Z_eqb_eq).
  destruct (find _ (courses s)); cbn [fst snd].
  - split; [reflexivity|]. split; discriminate.
  - split; [reflexivity|]. split; reflexivity.
Qed.

(** X9.  The reviews [getCourseWithReviews] lists for a course that exists,
    professor ids being keys: they are the review rows that reference the
    course, each once, newest first, and each comes with the name of the
    professor row its [professor_id] points to, or with no name when it
    points to none. *)
Theorem getCourseWithReviews_listing (courseId : Z) (s : store)
    (r : Course.with_reviews) :
  professors_keyed s ->
  Course.getCourseWithReviews courseId s = (s, Ok (Some r)) ->
  Permutation (map fst (Course.reviews_of r)) (reviews_of_course courseId s)
  /\ StronglySorted newer_or_same (map fst (Course.reviews_of r))
  /\ (forall rv name, In (rv, name) (Course.reviews_of r) ->
        professor_name_of s rv name)
  /\ Course.review_count r = List.length (Course.reviews_of r).
Proof.
  intros Hk.
  unfold Course.getCourseWithReviews, Course.findById, bind, get, ret.
  cbn [fst snd].
  destruct (find _ (courses s)) as [c|]; [|discriminate].
  intros H. injection H as <-. cbn [Course.reviews_of Course.review_count].
  unfold Course.reviews_with_professor.
  set (joined := flat_map (Sql.left_join Course.review_professor
                             (professors s)) (reviews s)).
  set (kept := filter (fun rp => review_course_id (fst rp) =? courseId)
                 joined).
  rewrite map_map. cbn [fst].
  change (map (fun x : review_row * option professor_row => fst x))
    with (map (@fst review_row (option professor_row))).
  split; [|split; [|split; [|reflexivity]]].
  - apply perm_trans with (map fst kept).
    + apply Permutation_map, order_by_perm.
    + unfold kept, reviews_of_course.
      rewrite (filter_fst_map (fun rv => review_course_id rv =? courseId)).
      unfold joined. rewrite (joined_reviews_fst _ _ Hk).
      apply Permutation_refl.
  - apply StronglySorted_map.
    pose proof (order_by_sorted Course.newest_first newest_first_total
                  newest_first_trans kept) as Hs.
    eapply StronglySorted_ind with (3 := Hs).
    + constructor.
    + intros x l Hl IH Hx. constructor; [exact IH|].
      rewrite Forall_forall in *. intros y Hy.
      specialize (Hx y Hy). unfold Course.newest_first in Hx.
      now apply Z.leb_le.
  - intros rv name Hin. apply in_map_iff in Hin.
    destruct Hin as [[rv' op] [E Hin]]. cbn [fst snd] in E.
    injection E as -> <-.
    apply order_by_In in Hin. apply filter_In in Hin.
    destruct Hin as [Hin _]. unfold joined in Hin.
    apply in_flat_map in Hin. destruct Hin as [rv0 [_ Hin]].
    apply left_join_in in Hin. destruct Hin as [-> Hop].
    destruct op as [p|]; cbn [option_map professor_name_of].
    + exists p. destruct Hop as [Hp Hon].
      apply review_professor_iff in Hon. auto.
    + intros p Hp E. apply review_professor_iff in E.
      rewrite (Hop p Hp) in E. discriminate.
Qed.

Lemma getCourseWithReviews_listing_witness :
  exists r,
    Course.getCourseWithReviews 1 (store_rated [5; 4; 3])
    = (store_rated [5; 4; 3], Ok (Some r))
    /\ Permutation (map fst (Course.reviews_of r))
         (reviews_of_course 1 (store_rated [5; 4; 3]))
    /\ StronglySorted newer_or_same (map fst (Course.reviews_of r)).
Proof.
  eexists. split; [vm_compute; reflexivity|].
  match goal with
  | |- Permutation (map fst (Course.reviews_of ?r)) _ /\ _ =>
      destruct (getCourseWithReviews_listing 1 (store_rated [5; 4; 3]) r)
        as [H1 [H2 _]]
  end.
  - constructor.
  - vm_compute. reflexivity.
  - split; [exact H1 | exact H2].
Defined.

(* ================================================================== *)
(** * [User.create], [findByMicrosoftId], [findByEmail], [updateLastLogin] *)

Lemma users_eta (s : store) : set_users (users s) s = s.
Proof. now destruct s. Qed.

(** X10.  The user [create] returns is the row it has just inserted: it is the
    last row of the table, [findById] and [findByMicrosoftId] read it back,
    [findByEmail] finds a row with its email, its type is ["current"]
    unless the payload gives one, and [last_login] and [created_at] are the
    time of the call. *)
Theorem create_user_roundtrip (now : Z) (d : User.user_data) (s s' : store)
    (r : option user_row) :
  User.create now d s = (s', Ok r) ->
  exists u,
    r = Some u
    /\ users s' = (users s ++ [u])%list
    /\ User.findById (user_id u) s' = (s', Ok (Some u))
    /\ User.findByMicrosoftId (User.d_microsoft_id d) s' = (s', Ok (Some u))
    /\ (exists v, User.findByEmail (User.d_email d) s' = (s', Ok (Some v))
                  /\ user_email v = User.d_email d)
    /\ user_microsoft_id u = User.d_microsoft_id d
    /\ user_type u = User.default "current" (User.d_user_type d)
    /\ user_last_login u = now
    /\ user_created_at u = now.
Proof.
  unfold User.create, bind at 1. unfold User.insert_user.
  destruct (existsb _ (users s)) eqn:E; [discriminate|].
  set (row := {| user_id := Sql.next_rowid (map user_id (users s)) |}).
  assert (Hfresh : forall x, In x (users s) ->
                     (user_id x =? user_id row) = false).
  { intros x Hx. apply Z.eqb_neq. intros Eid.
    apply (next_rowid_not_in (map user_id (users s))).
    change (Sql.next_rowid (map user_id (users s))) with (user_id row).
    rewrite <- Eid. now apply in_map. }
  unfold User.findById, User.findByMicrosoftId, User.findByEmail,
    bind, get, ret. cbn [fst snd users set_users].
  rewrite find_app_fresh by exact Hfresh.
  change (user_id row =? Sql.next_rowid (map user_id (users s)))
    with (user_id row =? user_id row).
  rewrite Z.eqb_refl. intros H. injection H as <- <-.
  exists row. cbn [users set_users].
  split; [reflexivity|]. split; [reflexivity|].
  split; [now rewrite find_app_fresh, Z.eqb_refl by exact Hfresh|].
  split.
  { rewrite find_app_fresh by now apply existsb_false_iff.
    cbn [row user_microsoft_id]. now rewrite String.eqb_refl. }
  split; [|repeat split].
  destruct (find (fun u => String.eqb (user_email u) (User.d_email d))
              (users s ++ [row])) as [v|] eqn:Hv.
  - exists v. split; [reflexivity|].
    apply find_some in Hv. now apply String.eqb_eq.
  - exfalso.
    assert (Hrow : String.eqb (user_email row) (User.d_email d) = false).
    { apply (proj1 (find_none_iff _ _) Hv). apply in_or_app. right. now left. }
    cbn [row user_email] in Hrow. now rewrite String.eqb_refl in Hrow.
Qed.

Lemma create_user_roundtrip_witness :
  exists u,
    User.findByMicrosoftId "ms-eve"
      (fst (User.findOrCreateFromMicrosoft 70 eve_profile None campus))
    = (fst (User.findOrCreateFromMicrosoft 70 eve_profile None campus),
       Ok (Some u))
    /\ user_type u = "current".
Proof.
  destruct (create_user_roundtrip 70
              {| User.d_microsoft_id := "ms-eve";
                 User.d_email := "eve@example.edu";
                 User.d_name := "Eve"; User.d_avatar_url := None;
                 User.d_user_type := None; User.d_graduation_year := None;
                 User.d_major := None; User.d_enrollment_year := None |}
              campus
              (fst (User.findOrCreateFromMicrosoft 70 eve_profile None campus))
              (Some (new_user 70 eve_profile None campus)) eq_refl)
    as [u [_ [_ [_ [H [_ [_ [Ht _]]]]]]]].
  exists u. split; [exact H | exact Ht].
Defined.

Lemma logged_in_twice (t1 t2 id : Z) (s : store) :
  map (fun u => if user_id u =? id then User.touch_last_login t2 u else u)
    (logged_in t1 id s)
  = logged_in t2 id s.
Proof.
  unfold logged_in. rewrite map_map. apply map_ext. intros u.
  destruct (user_id u =? id) eqn:E.
  - cbn [User.touch_last_login user_id]. rewrite E. reflexivity.
  - now rewrite E.
Qed.

(** X11.  [updateLastLogin] rewrites [last_login] in the rows of the given id
    and
    nothing else, so of two calls in a row only the later one shows; for an
    id that no user row has, it leaves the store as it is. *)
Theorem updateLastLogin_last_wins (t1 t2 id : Z) (s : store) :
  User.updateLastLogin t2 id (fst (User.updateLastLogin t1 id s))
  = User.updateLastLogin t2 id s
  /\ users (fst (User.updateLastLogin t1 id s)) = logged_in t1 id s
  /\ (~ In id (map user_id (users s)) ->
      User.updateLastLogin t1 id s = (s, Ok tt)).
Proof.
  unfold User.updateLastLogin, User.update_users_where_id.
  cbn [fst users set_users]. fold (logged_in t1 id s).
  split; [|split].
  - rewrite logged_in_twice. reflexivity.
  - reflexivity.
  - intros Hid.
    assert (E : logged_in t1 id s = users s).
    { unfold logged_in. rewrite <- (map_id (users s)) at 2.
      apply map_ext_in. intros u Hu.
      destruct (user_id u =? id) eqn:E; [|reflexivity].
      exfalso. apply Hid. apply Z.eqb_eq in E. rewrite <- E.
      now apply in_map. }
    rewrite E, users_eta. reflexivity.
Qed.

Lemma updateLastLogin_last_wins_witness :
  User.updateLastLogin 90 7 campus = (campus, Ok tt).
Proof.
  apply (updateLastLogin_last_wins 90 95 7 campus).
  simpl. intuition discriminate.
Defined.

(* ================================================================== *)
(** * [getCurrentStudents], [getFaculty], [getAlumni] *)

Lemma StronglySorted_weaken {A : Type} (R R' : A -> A -> Prop) (l : list A) :
  (forall x y, R x y -> R' x y) -> StronglySorted R l -> StronglySorted R' l.
Proof.
  intros HR. induction 1 as [|x l Hl IH Hx]; constructor; auto.
  rewrite Forall_forall in *. auto.
Qed.

Lemma by_name_total (u v : user_row) :
  User.by_name u v = true \/ User.by_name v u = true.
Proof. apply String.leb_total. Qed.

Lemma by_name_trans (u v w : user_row) :
  User.by_name u v = true -> User.by_name v w = true ->
  User.by_name u w = true.
Proof. apply string_leb_trans. Qed.

(** X13.  [getCurrentStudents] and [getFaculty] return the user rows of type
    ["current"] and of type ["faculty"], in ascending order of name. *)
Theorem students_and_faculty (s : store) :
  exists cs fs,
    User.getCurrentStudents s = (s, Ok cs)
    /\ User.getFaculty s = (s, Ok fs)
    /\ (forall u, In u cs <-> In u (users s) /\ user_type u = "current")
    /\ (forall u, In u fs <-> In u (users s) /\ user_type u = "faculty")
    /\ StronglySorted name_le cs
    /\ StronglySorted name_le fs.
Proof.
  do 2 eexists. split; [reflexivity|]. split; [reflexivity|].
  split; [|split; [|split]].
  - intros u. now rewrite query_members, String.eqb_eq.
  - intros u. now rewrite query_members, String.eqb_eq.
  - apply (order_by_sorted User.by_name by_name_total by_name_trans).
  - apply (order_by_sorted User.by_name by_name_total by_name_trans).
Qed.

Lemma desc_antisym (x y : option Z) :
  Sql.desc_nulls_last y x = CompOpp (Sql.desc_nulls_last x y).
Proof.
  destruct x as [a|], y as [b|]; simpl; try reflexivity.
  apply Z.compare_antisym.
Qed.

Lemma desc_eq (x y z : option Z) :
  Sql.desc_nulls_last x y = Eq ->
  Sql.desc_nulls_last x z = Sql.desc_nulls_last y z.
Proof.
  destruct x as [a|], y as [b|]; simpl; try discriminate; [|reflexivity].
  intros E. apply Z.compare_eq in E. now subst.
Qed.

Lemma desc_lt (x y z : option Z) :
  Sql.desc_nulls_last x y = Lt -> Sql.desc_nulls_last y z = Lt ->
  Sql.desc_nulls_last x z = Lt.
Proof.
  destruct x as [a|], y as [b|], z as [c|]; simpl; try discriminate; auto.
  rewrite !Z.compare_lt_iff. lia.
Qed.

Lemma by_year_desc_name_total (u v : user_row) :
  User.by_year_desc_name u v = true \/ User.by_year_desc_name v u = true.
Proof.
  apply (two_keys_total user_graduation_year Sql.desc_nulls_last User.by_name).
  - exact desc_antisym.
  - exact by_name_total.
Qed.

Lemma by_year_desc_name_trans (u v w : user_row) :
  User.by_year_desc_name u v = true -> User.by_year_desc_name v w = true ->
  User.by_year_desc_name u w = true.
Proof.
  apply (two_keys_trans user_graduation_year Sql.desc_nulls_last User.by_name).
  - exact desc_antisym.
  - exact desc_eq.
  - exact desc_lt.
  - exact by_name_trans.
Qed.

Lemma by_year_desc_name_order (u v : user_row) :
  User.by_year_desc_name u v = true -> year_name_order u v.
Proof.
  unfold User.by_year_desc_name, year_name_order, name_le.
  destruct (user_graduation_year u) as [a|], (user_graduation_year v) as [b|];
    simpl; auto; try discriminate.
  destruct (b ?= a) eqn:E; try discriminate.
  - apply Z.compare_eq in E. auto.
  - apply Z.compare_lt_iff in E. auto.
Qed.

Lemma truthy_int_filter (y : option Z) (col : option Z) :
  (if Js.truthy_int y then Sql.eq_int col (User.default 0 y) else true) = true
  <-> match y with
      | None => True
      | Some v => v = 0 \/ col = Some v
      end.
Proof.
  destruct y as [v|]; simpl; [|tauto].
  destruct (v =? 0) eqn:E; simpl.
  - apply Z.eqb_eq in E. tauto.
  - apply Z.eqb_neq in E. destruct col as [c|]; simpl.
    + rewrite Z.eqb_eq. split; [intros ->; auto|].
      intros [H|H]; [contradiction | now injection H].
    + split; [discriminate|]. intros [H|H]; [contradiction | discriminate].
Qed.

Lemma truthy_str_filter (m : option string) (col : option string) :
  (if Js.truthy_str m then Sql.eq_text col (Js.text m) else true) = true
  <-> match m with
      | None => True
      | Some v => v = "" \/ col = Some v
      end.
Proof.
  destruct m as [[|a v]|]; cbn [Js.truthy_str Js.text]; try tauto.
  destruct col as [c|]; simpl.
  - rewrite String.eqb_eq. split; [intros ->; auto|].
    intros [H|H]; [discriminate | now injection H].
  - split; [discriminate|]. intros [H|H]; discriminate.
Qed.

Lemma alumni_where_iff (fl : User.alumni_filters) (u : user_row) :
  User.alumni_where fl u = true
  <-> user_type u = "alumni" /\ alumni_filter_ok fl u.
Proof.
  unfold User.alumni_where, alumni_filter_ok.
  rewrite !andb_true_iff, String.eqb_eq, truthy_int_filter, truthy_str_filter.
  tauto.
Qed.

(** X14.  [getAlumni] returns the alumni rows that pass the filters, latest
    graduation year first, rows without a year last, by name within a
    year.  A filter year of 0 and an empty filter major filter nothing. *)
Theorem getAlumni_spec (fl : User.alumni_filters) (s : store) :
  exists r,
    User.getAlumni fl s = (s, Ok r)
    /\ (forall u, In u r <->
          In u (users s) /\ user_type u = "alumni" /\ alumni_filter_ok fl u)
    /\ StronglySorted year_name_order r.
Proof.
  eexists. split; [reflexivity|]. split.
  - intros u. now rewrite query_members, alumni_where_iff.
  - apply StronglySorted_weaken with (1 := by_year_desc_name_order).
    apply (order_by_sorted User.by_year_desc_name
             by_year_desc_name_total by_year_desc_name_trans).
Qed.

(* ================================================================== *)
(** * [updateAlumniNetwork], then the lists and [getAlumniNetwork] *)

Lemma retyped_member (now userId : Z) (d : User.alumni_data) (s : store)
    (v : user_row) :
  In v (retyped_users now userId d s) -> user_id v = userId ->
  user_type v = "alumni".
Proof.
  unfold retyped_users. intros Hin Hid.
  apply in_map_iff in Hin. destruct Hin as [x [<- _]].
  destruct (user_id x =? userId) eqn:E; [reflexivity|].
  apply Z.eqb_neq in E. contradiction.
Qed.

Lemma retyped_found (now userId : Z) (d : User.alumni_data) (s : store)
    (u : user_row) :
  find (fun x => user_id x =? userId) (users s) = Some u ->
  In (User.retype now "alumni" (User.a_graduation_year d) u)
    (retyped_users now userId d s).
Proof.
  intros Hfind.
  destruct (find_selects user_id Z.eqb Z_eqb_eq _ _ _ Hfind) as [Hin Hid].
  unfold retyped_users. apply in_map_iff. exists u.
  split; [|exact Hin]. apply Z.eqb_eq in Hid. now rewrite Hid.
Qed.

(** X15.  After [updateAlumniNetwork] for a user that exists, whether or not the
    call went through, the user row is among the alumni [getAlumni]
    returns, and no row with that id is among the current students or the
    faculty. *)
Theorem updateAlumniNetwork_moves_user (fk : bool) (now userId : Z)
    (d : User.alumni_data) (s : store) (u : user_row) :
  User.findById userId s = (s, Ok (Some u)) ->
  let s' := fst (User.updateAlumniNetwork fk now userId d s) in
  exists al cs fs,
    User.getAlumni {| User.af_graduation_year := None;
                      User.af_major := None |} s' = (s', Ok al)
    /\ User.getCurrentStudents s' = (s', Ok cs)
    /\ User.getFaculty s' = (s', Ok fs)
    /\ In (User.retype now "alumni" (User.a_graduation_year d) u) al
    /\ (forall v, In v cs -> user_id v <> userId)
    /\ (forall v, In v fs -> user_id v <> userId).
Proof.
  intros Hfind s'.
  unfold User.findById, bind, get, ret in Hfind. cbn [fst snd] in Hfind.
  injection Hfind as Hfind.
  pose proof (updateAlumniNetwork_users fk now userId d s) as Hu.
  fold s' in Hu.
  do 3 eexists. split; [reflexivity|]. split; [reflexivity|].
  split; [reflexivity|]. rewrite Hu. split; [|split].
  - apply query_members. split; [now apply retyped_found|]. reflexivity.
  - intros v Hv Hid. apply query_members in Hv. destruct Hv as [Hin Ht].
    rewrite (retyped_member now userId d s v Hin Hid) in Ht. discriminate.
  - intros v Hv Hid. apply query_members in Hv. destruct Hv as [Hin Ht].
    rewrite (retyped_member now userId d s v Hin Hid) in Ht. discriminate.
Qed.

Lemma updateAlumniNetwork_moves_user_witness :
  exists al cs,
    User.getAlumni {| User.af_graduation_year := None;
                      User.af_major := None |}
      (fst (User.updateAlumniNetwork false 70 1 at_acme campus))
    = (fst (User.updateAlumniNetwork false 70 1 at_acme campus), Ok al)
    /\ User.getCurrentStudents
         (fst (User.updateAlumniNetwork false 70 1 at_acme campus))
       = (fst (User.updateAlumniNetwork false 70 1 at_acme campus), Ok cs)
    /\ In (User.retype 70 "alumni" None ada) al
    /\ (forall v, In v cs -> user_id v <> 1).
Proof.
  destruct (updateAlumniNetwork_moves_user false 70 1 at_acme campus ada
              eq_refl) as [al [cs [fs [H1 [H2 [_ [H4 [H5 _]]]]]]]].
  exists al, cs. auto.
Defined.

Lemma updateAlumniNetwork_mentorship (fk : bool) (now userId : Z)
    (d : User.alumni_data) (s s' : store) (a : alumni_row) :
  User.updateAlumniNetwork fk now userId d s = (s', Ok (Some a)) ->
  alumni_mentorship_available a
  = User.default false (User.a_mentorship_available d).
Proof.
  rewrite updateAlumniNetwork_steps. cbv zeta.
  destruct (find _ (alumni_network s)) as [a0|] eqn:Hfind.
  - cbn [alumni_network set_alumni_network].
    rewrite (find_update alumni_user_id Z.eqb) by reflexivity.
    rewrite Hfind. cbn [option_map].
    intros H. injection H as _ <-. reflexivity.
  - unfold User.insert_alumni.
    destruct (fk && _); [discriminate|].
    cbn [alumni_network set_alumni_network set_users].
    rewrite find_app_fresh by now apply find_none_iff.
    cbn [alumni_user_id]. rewrite Z.eqb_refl.
    intros H. injection H as _ <-. reflexivity.
Qed.

Lemma findById_found (userId : Z) (s : store) (u : user_row) :
  User.findById userId s = (s, Ok (Some u)) ->
  find (fun x => user_id x =? userId) (users s) = Some u.
Proof.
  unfold User.findById, bind, get, ret. cbn [fst snd].
  intros H. now injection H.
Qed.

(** X16.  After [updateAlumniNetwork] for a user that exists, [getAlumniNetwork]
    returns the object made of that user's row, now of type ["alumni"],
    and of the very profile row the update returned.  It reads every
    column of [alumni_network] from the profile row, so its [id] is the
    key of the profile and its [updated_at] the one of the profile, and
    every other column from the user row. *)
Theorem updateAlumniNetwork_then_get (fk : bool) (now userId : Z)
    (d : User.alumni_data) (s : store) (u : user_row) :
  users_keyed s ->
  alumni_unique s ->
  User.findById userId s = (s, Ok (Some u)) ->
  exists s' a obj,
    User.updateAlumniNetwork fk now userId d s = (s', Ok (Some a))
    /\ User.getAlumniNetwork userId s' = (s', Ok (Some obj))
    /\ obj = User.joined_object
               (User.retype now "alumni" (User.a_graduation_year d) u,
                Some a)
    /\ (forall k, In k User.alumni_names ->
                  Js.prop obj k
                  = Js.prop (Js.of_columns (User.alumni_columns (Some a))) k)
    /\ (forall k, ~ In k User.alumni_names ->
                  Js.prop obj k
                  = Js.prop (Js.of_columns
                               (User.user_columns
                                  (User.retype now "alumni"
                                     (User.a_graduation_year d) u))) k)
    /\ Js.prop obj "id" = Some (Js.VInt (alumni_id a))
    /\ Js.prop obj "user_id" = Some (Js.VInt userId)
    /\ Js.prop obj "user_type" = Some (Js.VText "alumni")
    /\ Js.prop obj "graduation_year"
       = Some (Js.opt_int (User.a_graduation_year d))
    /\ Js.prop obj "updated_at" = Some (Js.opt_time (alumni_updated_at a)).
Proof.
  intros Hk Hu Hfind. apply findById_found in Hfind.
  destruct (find_selects user_id Z.eqb Z_eqb_eq _ _ _ Hfind) as [Hin Hid].
  assert (Hex : fk = true -> user_exists userId s)
    by (intros _; now exists u).
  destruct (updateAlumniNetwork_profile fk now userId d s Hu Hex)
    as [s' [a [Hcall [Hprof [_ [Husers _]]]]]].
  set (u' := User.retype now "alumni" (User.a_graduation_year d) u).
  assert (Hid' : user_id u' = userId) by exact Hid.
  assert (Hin' : In u' (users s')).
  { rewrite Husers. now apply retyped_found. }
  assert (Hk' : users_keyed s').
  { unfold users_keyed. rewrite Husers, retyped_users_ids. exact Hk. }
  assert (Ha : alumni_user_id a = userId).
  { assert (H : In a (profiles_of userId s')) by (rewrite Hprof; now left).
    apply filter_In in H. now rewrite Z.eqb_eq in H. }
  exists s', a, (User.joined_object (u', Some a)).
  split; [exact Hcall|]. split.
  - rewrite <- Hid' at 1.
    rewrite getAlumniNetwork_eval, (getAlumniNetwork_rows s' u' Hk' Hin').
    cbn [User.retype user_type u' String.eqb Ascii.eqb Bool.eqb].
    unfold Sql.left_join. rewrite user_alumni_profiles, Hid', Hprof.
    reflexivity.
  - split; [reflexivity|].
    split; [intros k; apply joined_profile_column|].
    split; [intros k; apply joined_user_column|].
    split; [reflexivity|]. split; [now rewrite <- Ha|].
    repeat split.
Qed.

Lemma updateAlumniNetwork_then_get_witness :
  exists s' a obj,
    User.updateAlumniNetwork true 70 1 at_acme campus = (s', Ok (Some a))
    /\ User.getAlumniNetwork 1 s' = (s', Ok (Some obj))
    /\ Js.prop obj "id" = Some (Js.VInt (alumni_id a))
    /\ Js.prop obj "user_id" = Some (Js.VInt 1)
    /\ Js.prop obj "user_type" = Some (Js.VText "alumni")
    /\ Js.prop obj "graduation_year" = Some Js.VNull.
Proof.
  destruct (updateAlumniNetwork_then_get true 70 1 at_acme campus ada)
    as [s' [a [obj [H1 [H2 [_ [_ [_ [H3 [H4 [H5 [H6 _]]]]]]]]]]]].
  - repeat constructor; simpl; intuition discriminate.
  - constructor.
  - reflexivity.
  - exists s', a, obj. auto 10.
Defined.

(* ================================================================== *)
(** * [getMentors] *)

Lemma inner_join_in {A B : Type} (on : A -> B -> bool) (right : list B)
    (l : list A) (a : A) (b : B) :
  In (a, b) (flat_map (Sql.inner_join on right) l)
  <-> In a l /\ In b right /\ on a b = true.
Proof.
  rewrite in_flat_map. unfold Sql.inner_join. split.
  - intros [x [Hx H]]. apply in_map_iff in H.
    destruct H as [y [E Hy]]. injection E as -> ->.
    apply filter_In in Hy. tauto.
  - intros [Ha [Hb Hon]]. exists a. split; [exact Ha|].
    apply in_map_iff. exists b. split; [reflexivity|].
    now apply filter_In.
Qed.



Lemma getMentors_eval (s : store) :
  User.getMentors s = (s, Ok (map User.mentor_object (mentor_rows s))).
Proof. reflexivity. Qed.

Lemma mentor_rows_member (s : store) (u : user_row) (a : alumni_row) :
  In (u, a) (mentor_rows s) <->
  In u (users s) /\ In a (alumni_network s)
  /\ alumni_user_id a = user_id u
  /\ user_type u = "alumni"
  /\ alumni_mentorship_available a = true.
Proof.
  unfold mentor_rows. rewrite query_members, inner_join_in. cbn [fst snd].
  rewrite andb_true_iff, String.eqb_eq. unfold User.user_alumni.
  rewrite Z.eqb_eq. intuition congruence.
Qed.

Lemma mentor_object_user_id (ua : user_row * alumni_row) :
  Js.prop (User.mentor_object ua) "user_id"
  = Some (Js.VInt (alumni_user_id (snd ua))).
Proof. destruct ua. reflexivity. Qed.


(** X18.  After [updateAlumniNetwork] for a user that exists, the user is listed
    by [getMentors] exactly when the payload set [mentorship_available] to
    true; left out of the payload, it counts as false.  The user is listed
    when a selected row is of a user row with that id, which is when a
    returned object has that [user_id]. *)
Theorem updateAlumniNetwork_mentor (fk : bool) (now userId : Z)
    (d : User.alumni_data) (s : store) (u : user_row) :
  alumni_unique s ->
  User.findById userId s = (s, Ok (Some u)) ->
  exists s' a r,
    User.updateAlumniNetwork fk now userId d s = (s', Ok (Some a))
    /\ User.getMentors s' = (s', Ok (map User.mentor_object r))
    /\ ((exists v b, In (v, b) r /\ user_id v = userId)
        <-> User.a_mentorship_available d = Some true)
    /\ (User.a_mentorship_available d = Some true ->
        In (User.retype now "alumni" (User.a_graduation_year d) u, a) r)
    /\ ((exists obj, In obj (map User.mentor_object r)
                     /\ Js.prop obj "user_id" = Some (Js.VInt userId))
        <-> User.a_mentorship_available d = Some true).
Proof.
  intros Hu Hfind. apply findById_found in Hfind.
  destruct (find_selects user_id Z.eqb Z_eqb_eq _ _ _ Hfind) as [Hin Hid].
  assert (Hex : fk = true -> user_exists userId s)
    by (intros _; now exists u).
  destruct (updateAlumniNetwork_profile fk now userId d s Hu Hex)
    as [s' [a [Hcall [Hprof [_ [Husers _]]]]]].
  pose proof (updateAlumniNetwork_mentorship _ _ _ _ _ _ _ Hcall) as Hm.
  pose proof (getMentors_eval s') as Hr.
  pose proof (mentor_rows_member s') as Hmem.
  set (r := mentor_rows s') in *.
  assert (Ha : In a (alumni_network s') /\ alumni_user_id a = userId).
  { assert (H : In a (profiles_of userId s')) by (rewrite Hprof; now left).
    apply filter_In in H. now rewrite Z.eqb_eq in H. }
  assert (Hmentor : User.a_mentorship_available d = Some true ->
            In (User.retype now "alumni" (User.a_graduation_year d) u, a) r).
  { intros E. apply Hmem. rewrite Husers.
    split; [now apply retyped_found|].
    split; [tauto|]. split; [cbn [User.retype user_id]; intuition congruence|].
    split; [reflexivity|]. now rewrite Hm, E. }
  assert (Hrows : (exists v b, In (v, b) r /\ user_id v = userId)
                  <-> User.a_mentorship_available d = Some true).
  { split.
    - intros [v [b [Hvb Hv]]]. apply Hmem in Hvb.
      destruct Hvb as [_ [Hb [Hbu [_ Hbm]]]].
      assert (Hb' : In b (profiles_of userId s')).
      { apply filter_In. split; [exact Hb|]. apply Z.eqb_eq. congruence. }
      rewrite Hprof in Hb'. destruct Hb' as [<-|[]].
      rewrite Hm in Hbm.
      destruct (User.a_mentorship_available d) as [[|]|];
        simpl in Hbm; congruence.
    - intros E. eexists. exists a. split; [now apply Hmentor|]. exact Hid. }
  exists s', a, r. split; [exact Hcall|]. split; [exact Hr|].
  split; [exact Hrows|]. split; [exact Hmentor|].
  rewrite <- Hrows. split.
  - intros [obj [Hobj Hcol]]. apply in_map_iff in Hobj.
    destruct Hobj as [[v b] [<- Hvb]].
    rewrite mentor_object_user_id in Hcol. cbn [snd] in Hcol.
    exists v, b. split; [exact Hvb|].
    apply Hmem in Hvb. destruct Hvb as [_ [_ [Hbu _]]]. congruence.
  - intros [v [b [Hvb Hv]]]. exists (User.mentor_object (v, b)).
    split; [now apply in_map|].
    rewrite mentor_object_user_id. cbn [snd].
    apply Hmem in Hvb. destruct Hvb as [_ [_ [Hbu _]]]. congruence.
Qed.

Lemma updateAlumniNetwork_mentor_witness :
  exists s' a r,
    User.updateAlumniNetwork true 80 1 at_globex campus = (s', Ok (Some a))
    /\ User.getMentors s' = (s', Ok (map User.mentor_object r))
    /\ In (User.retype 80 "alumni" (Some 2019) ada, a) r
    /\ (exists obj, In obj (map User.mentor_object r)
                    /\ Js.prop obj "user_id" = Some (Js.VInt 1)).
Proof.
  destruct (updateAlumniNetwork_mentor true 80 1 at_globex campus ada)
    as [s' [a [r [H1 [H2 [_ [H4 H5]]]]]]].
  - constructor.
  - reflexivity.
  - exists s', a, r. split; [exact H1|]. split; [exact H2|].
    split; [apply H4; reflexivity|]. apply H5. reflexivity.
Defined.

(* ================================================================== *)
(** * [getUserStats] *)

Lemma or_zero_sum_case {A : Type} (p : A -> bool) (l : list A) :
  Js.or_zero (Sql.sum_case p l) = List.length (filter p l).
Proof. destruct l; reflexivity. Qed.

Lemma filter_length_cons {A : Type} (p : A -> bool) (x : A) (l : list A) :
  List.length (filter p (x :: l))
  = ((if p x then 1 else 0) + List.length (filter p l))%nat.
Proof. simpl. now destruct (p x). Qed.

Lemma type_tests (u : user_row) :
  let n := ((if User.of_type "current" u then 1 else 0)
            + (if User.of_type "alumni" u then 1 else 0)
            + (if User.of_type "faculty" u then 1 else 0)
            + (if User.of_type "staff" u then 1 else 0))%nat in
  (n <= 1)%nat /\ (n = 1%nat <-> known_type u).
Proof.
  unfold User.of_type, known_type.
  destruct (String.eqb_spec (user_type u) "current") as [E|E1];
    [rewrite E; simpl; split; [lia | tauto]|].
  destruct (String.eqb_spec (user_type u) "alumni") as [E|E2];
    [rewrite E; simpl; split; [lia | tauto]|].
  destruct (String.eqb_spec (user_type u) "faculty") as [E|E3];
    [rewrite E; simpl; split; [lia | tauto]|].
  destruct (String.eqb_spec (user_type u) "staff") as [E|E4];
    [rewrite E; simpl; split; [lia | tauto]|].
  simpl. split; [lia|]. split; [discriminate | tauto].
Qed.

Lemma type_counts (l : list user_row) :
  let n := (List.length (filter (User.of_type "current") l)
            + List.length (filter (User.of_type "alumni") l)
            + List.length (filter (User.of_type "faculty") l)
            + List.length (filter (User.of_type "staff") l))%nat in
  (n <= List.length l)%nat
  /\ (n = List.length l <-> forall u, In u l -> known_type u).
Proof.
  induction l as [|u l IH]; cbv zeta.
  - simpl. split; [lia|]. split; [intros _ u [] | reflexivity].
  - rewrite !filter_length_cons. cbn [List.length].
    destruct (type_tests u) as [Hle Hiff]. cbv zeta in Hle, Hiff, IH.
    destruct IH as [IHle IHiff].
    split; [lia|]. split.
    + intros H v [<-|Hv].
      * apply Hiff. lia.
      * apply IHiff; [lia | exact Hv].
    + intros H.
      assert (H1 : known_type u) by (apply H; now left).
      assert (H2 : forall v, In v l -> known_type v)
        by (intros v Hv; apply H; now right).
      apply Hiff in H1. apply IHiff in H2. lia.
Qed.

(** X19.  The counts of [getUserStats] are the sizes of the lists the other
    queries return: [total] counts all user rows, the counts by type are
    the lengths of [getCurrentStudents], [getAlumni] without filters and
    [getFaculty] (all 0 on an empty table); the four counts add up to at
    most [total], and to [total] exactly when every user has one of the
    four types. *)
Theorem getUserStats_counts (s : store) :
  exists st cs al fs,
    User.getUserStats s = (s, Ok st)
    /\ User.getCurrentStudents s = (s, Ok cs)
    /\ User.getAlumni {| User.af_graduation_year := None;
                         User.af_major := None |} s = (s, Ok al)
    /\ User.getFaculty s = (s, Ok fs)
    /\ User.total st = List.length (users s)
    /\ User.current_count st = List.length cs
    /\ User.alumni_count st = List.length al
    /\ User.faculty_count st = List.length fs
    /\ (User.current_count st + User.alumni_count st
        + User.faculty_count st + User.staff_count st <= User.total st)%nat
    /\ ((User.current_count st + User.alumni_count st
         + User.faculty_count st + User.staff_count st)%nat = User.total st
        <-> forall u, In u (users s) -> known_type u).
Proof.
  do 4 eexists.
  split; [reflexivity|]. split; [reflexivity|].
  split; [reflexivity|]. split; [reflexivity|].
  cbn [User.total User.current_count User.alumni_count User.faculty_count
       User.staff_count].
  rewrite !or_zero_sum_case, !order_by_length.
  assert (E : filter (User.alumni_where
                        {| User.af_graduation_year := None;
                           User.af_major := None |}) (users s)
              = filter (User.of_type "alumni") (users s)).
  { apply filter_ext. intros u. unfold User.alumni_where, User.of_type.
    simpl. now rewrite !andb_true_r. }
  rewrite E.
  split; [reflexivity|]. split; [reflexivity|].
  split; [reflexivity|]. split; [reflexivity|].
  apply (type_counts (users s)).
Qed.

(* ================================================================== *)
(** * [searchUsers] and [getAllUsers] *)









Lemma all_users_where_iff (fl : User.user_filters) (u : user_row) :
  User.all_users_where fl u = true <-> users_filter_ok fl u.
Proof.
  unfold User.all_users_where, users_filter_ok.
  rewrite !andb_true_iff, truthy_int_filter, truthy_str_filter.
  assert (H : (if Js.truthy_str (User.uf_user_type fl)
               then String.eqb (user_type u) (Js.text (User.uf_user_type fl))
               else true) = true
              <-> match User.uf_user_type fl with
                  | None => True
                  | Some t => t = "" \/ user_type u = t
                  end).
  { destruct (User.uf_user_type fl) as [[|a t]|];
      cbn [Js.truthy_str Js.text]; try tauto.
    rewrite String.eqb_eq. split; [auto|].
    intros [H|H]; [discriminate | exact H]. }
  rewrite H. tauto.
Qed.

Lemma newest_user_first_total (u v : user_row) :
  User.newest_user_first u v = true \/ User.newest_user_first v u = true.
Proof. unfold User.newest_user_first. rewrite !Z.leb_le. lia. Qed.

Lemma newest_user_first_trans (u v w : user_row) :
  User.newest_user_first u v = true -> User.newest_user_first v w = true ->
  User.newest_user_first u w = true.
Proof. unfold User.newest_user_first. rewrite !Z.leb_le. lia. Qed.

(** X21.  [getAllUsers] returns the ten selected columns of exactly the users
    that pass the filters, newest first, as many rows as the table has
    such users; an empty type or major and a year of 0 filter nothing, so
    without filters every user is listed. *)
Theorem getAllUsers_spec (fl : User.user_filters) (s : store) :
  exists r test,
    User.getAllUsers fl s = (s, Ok r)
    /\ (forall u, test u = true <-> users_filter_ok fl u)
    /\ List.length r = List.length (filter test (users s))
    /\ (forall row, In row r <->
          exists u, In u (users s) /\ users_filter_ok fl u
                    /\ row = User.list_user u)
    /\ StronglySorted listed_newer_or_same r.
Proof.
  eexists. exists (User.all_users_where fl).
  split; [reflexivity|].
  split; [intros u; apply all_users_where_iff|].
  split; [now rewrite length_map, order_by_length|].
  split.
  - intros row. rewrite in_map_iff. split.
    + intros [u [E Hu]]. apply query_members in Hu.
      rewrite all_users_where_iff in Hu. exists u. intuition.
    + intros [u [Hu [Hm E]]]. exists u. split; [now symmetry|].
      apply query_members. now rewrite all_users_where_iff.
  - apply StronglySorted_map.
    apply StronglySorted_weaken
      with (R := fun u v => User.newest_user_first u v = true).
    + intros u v H. unfold listed_newer_or_same. cbn [User.list_user
        User.ls_created_at]. now apply Z.leb_le.
    + apply (order_by_sorted User.newest_user_first newest_user_first_total
               newest_user_first_trans).
Qed.

(* ================================================================== *)
(** * [GET /professors] and [POST /professors] *)




Lemma or_str_truthy (x : option string) (a : ascii) (d : string) :
  Js.truthy_str (Some (Js.or_str x (String a d))) = true.
Proof. now destruct x as [[|? ?]|]. Qed.

(** X23.  After an authenticated [POST /professors] with a name, listing the
    stored department ("Unknown" when none was sent) with [GET
    /professors] shows a professor with that name. *)
Theorem post_then_get_all (req : ProfessorRoutes.request) (s : store) :
  ProfessorRoutes.req_user req <> None ->
  Js.truthy_str (ProfessorRoutes.body_name req) = true ->
  let department :=
    Js.or_str (ProfessorRoutes.body_department req) "Unknown" in
  exists p,
    In p (ProfessorRoutes.get_all
            {| ProfessorRoutes.q_search := None;
               ProfessorRoutes.q_department := Some department |}
            (fst (ProfessorRoutes.post req s)))
    /\ professor_name p = Js.text (ProfessorRoutes.body_name req)
    /\ professor_department p = department.
Proof.
  intros Hauth Hname department.
  rewrite (post_accepted req s Hauth Hname). cbv zeta. cbn [fst].
  fold department.
  set (name := Js.text (ProfessorRoutes.body_name req)).
  assert (Hrow : exists p,
            In p (professors
                    (ProfessorRoutes.insert_or_ignore name department s))
            /\ professor_name p = name
            /\ professor_department p = department).
  { unfold ProfessorRoutes.insert_or_ignore.
    destruct (existsb _ (professors s)) eqn:E.
    - apply existsb_exists in E. destruct E as [p [Hp E]].
      apply andb_true_iff in E. rewrite !String.eqb_eq in E.
      exists p. tauto.
    - eexists. cbn [professors insert_professor].
      split; [apply in_or_app; right; now left|]. split; reflexivity. }
  destruct Hrow as [p [Hp [Hn Hd]]]. exists p.
  split; [|split; assumption].
  unfold ProfessorRoutes.get_all. apply filter_In. split; [exact Hp|].
  unfold ProfessorRoutes.list_where.
  cbn [ProfessorRoutes.q_search ProfessorRoutes.q_department].
  unfold department. rewrite or_str_truthy.
  cbn [Js.truthy_str Js.text andb].
  apply String.eqb_eq. exact Hd.
Qed.

Lemma post_then_get_all_witness :
  exists p,
    In p (ProfessorRoutes.get_all
            {| ProfessorRoutes.q_search := None;
               ProfessorRoutes.q_department := Some "Unknown" |}
            (fst (ProfessorRoutes.post jane_lee_no_department campus)))
    /\ professor_name p = "Dr. Jane Lee"
    /\ professor_department p = "Unknown".
Proof.
  apply (post_then_get_all jane_lee_no_department campus).
  - discriminate.
  - reflexivity.
Defined.

(** X24.  [POST /professors] never removes or rewrites a row: the professor
    table
    it leaves is the one it found with at most one row appended, and no
    other table changes.  Without a signed-in user it answers 401, without
    a name 400, and in both cases it leaves the store as it is and sends no
    id. *)
Theorem post_only_appends (req : ProfessorRoutes.request) (s : store) :
  exists s' resp extra,
    ProfessorRoutes.post req s = (s', resp)
    /\ professors s' = (professors s ++ extra)%list
    /\ (List.length extra <= 1)%nat
    /\ courses s' = courses s /\ reviews s' = reviews s
    /\ users s' = users s /\ alumni_network s' = alumni_network s
    /\ ((ProfessorRoutes.req_user req = None
         /\ ProfessorRoutes.status resp = 401
         /\ ProfessorRoutes.id resp = None /\ s' = s)
        \/ (ProfessorRoutes.req_user req <> None
            /\ missing_or_empty (ProfessorRoutes.body_name req)
            /\ ProfessorRoutes.status resp = 400
            /\ ProfessorRoutes.id resp = None /\ s' = s)
        \/ (ProfessorRoutes.req_user req <> None
            /\ Js.truthy_str (ProfessorRoutes.body_name req) = true
            /\ ProfessorRoutes.status resp = 200
            /\ ProfessorRoutes.id resp = Some (last_id s'))).
Proof.
  unfold ProfessorRoutes.post.
  destruct (ProfessorRoutes.req_user req) as [u|] eqn:Eu.
  - destruct (Js.truthy_str (ProfessorRoutes.body_name req)) eqn:En;
      cbn [negb].
    + unfold ProfessorRoutes.insert_or_ignore.
      destruct (existsb _ (professors s)).
      * exists s. eexists. exists []. split; [reflexivity|].
        rewrite app_nil_r. repeat split; auto.
        right. right. repeat split; auto. discriminate.
      * do 2 eexists. eexists [_]. split; [reflexivity|].
        repeat split; auto.
        right. right. repeat split; auto. discriminate.
    + exists s. eexists. exists []. split; [reflexivity|].
      rewrite app_nil_r. repeat split; auto.
      right. left. repeat split; auto; [discriminate|].
      now apply truthy_str_missing.
  - exists s. eexists. exists []. split; [reflexivity|].
    rewrite app_nil_r. repeat split; auto.
Qed.

(* ================================================================== *)
(** * [GET /professors/:id/reviews] *)

Lemma left_join_single {A B : Type} (on : A -> B -> bool) (right : list B)
    (a : A) :
  (List.length (filter (on a) right) <= 1)%nat ->
  exists ob, Sql.left_join on right a = [(a, ob)].
Proof.
  unfold Sql.left_join.
  destruct (filter (on a) right) as [|b [|b' l]]; simpl; intros H;
    eauto; lia.
Qed.

Lemma map_filter_swap {A B : Type} (g : A -> B) (p : B -> bool)
    (l : list A) :
  map g (filter (fun x => p (g x)) l) = filter p (map g l).
Proof.
  induction l as [|x l IH]; simpl.
  - reflexivity.
  - destruct (p (g x)); simpl; now rewrite IH.
Qed.

Lemma review_course_unique (s : store) (ru : review_row * user_row) :
  courses_keyed s ->
  (List.length (filter (ProfessorRoutes.review_course ru) (courses s))
   <= 1)%nat.
Proof.
  intros Hk.
  rewrite (filter_ext (ProfessorRoutes.review_course ru)
             (fun c => course_id c =? review_course_id (fst ru))).
  - now apply (select_unique course_id Z.eqb Z_eqb_eq).
  - intros c. apply Z.eqb_sym.
Qed.

Lemma review_author_unique (s : store) (rv : review_row) :
  users_keyed s ->
  (List.length (filter (ProfessorRoutes.review_author rv) (users s)) <= 1)%nat.
Proof.
  intros Hk.
  rewrite (filter_ext (ProfessorRoutes.review_author rv)
             (fun u => user_id u =? review_user_id rv)).
  - now apply (select_unique user_id Z.eqb Z_eqb_eq).
  - intros u. apply Z.eqb_sym.
Qed.

(** With ids being keys, the two joins keep a review once when its author
    exists and drop it otherwise. *)
Lemma joined_lines_reviews (s : store) (rs : list review_row) :
  users_keyed s -> courses_keyed s ->
  map (fun x : review_row * user_row * option course_row => fst (fst x))
    (flat_map (Sql.left_join ProfessorRoutes.review_course (courses s))
       (flat_map (Sql.inner_join ProfessorRoutes.review_author (users s)) rs))
  = filter (fun rv => existsb (fun u => review_user_id rv =? user_id u)
                        (users s)) rs.
Proof.
  intros Hu Hc. induction rs as [|rv rs IH]; [reflexivity|].
  cbn [flat_map filter]. rewrite flat_map_app, map_app, IH.
  pose proof (review_author_unique s rv Hu) as Hlen.
  unfold Sql.inner_join.
  change (fun u : user_row => review_user_id rv =? user_id u)
    with (ProfessorRoutes.review_author rv).
  destruct (filter (ProfessorRoutes.review_author rv) (users s))
    as [|u [|u' l]] eqn:E; simpl in Hlen; try lia.
  - assert (Hex : existsb (ProfessorRoutes.review_author rv) (users s)
                  = false).
    { apply existsb_false_iff. now apply filter_nil_iff. }
    rewrite Hex. reflexivity.
  - assert (Hex : existsb (ProfessorRoutes.review_author rv) (users s)
                  = true).
    { apply existsb_exists. exists u. apply filter_In.
      rewrite E. now left. }
    rewrite Hex. cbn [map flat_map].
    destruct (left_join_single ProfessorRoutes.review_course (courses s)
                (rv, u) (review_course_unique s (rv, u) Hc)) as [oc Hoc].
    rewrite Hoc. reflexivity.
Qed.

Lemma newest_line_first_total
    (x y : review_row * user_row * option course_row) :
  ProfessorRoutes.newest_line_first x y = true
  \/ ProfessorRoutes.newest_line_first y x = true.
Proof. unfold ProfessorRoutes.newest_line_first. rewrite !Z.leb_le. lia. Qed.

Lemma newest_line_first_trans
    (x y z : review_row * user_row * option course_row) :
  ProfessorRoutes.newest_line_first x y = true ->
  ProfessorRoutes.newest_line_first y z = true ->
  ProfessorRoutes.newest_line_first x z = true.
Proof. unfold ProfessorRoutes.newest_line_first. rewrite !Z.leb_le. lia. Qed.

(** X25.  With user and course ids being keys, [GET /professors/:id/reviews]
    lists the reviews of the professor whose author is a user row, each
    once, newest first: a review whose [user_id] matches no user is left
    out.  Each line carries the author's name, and code and name of the
    review's course, or neither when no course row has that id. *)
Theorem reviews_of_professor_spec (id : Z) (s : store) :
  users_keyed s ->
  courses_keyed s ->
  let r := ProfessorRoutes.reviews_of_professor id s in
  Permutation (map ProfessorRoutes.rl_review r)
    (authored_reviews_of_professor id s)
  /\ StronglySorted newer_or_same (map ProfessorRoutes.rl_review r)
  /\ (forall l, In l r -> review_line_ok s l).
Proof.
  intros Hu Hc r. unfold r, ProfessorRoutes.reviews_of_professor.
  set (joined := flat_map _ (flat_map _ (reviews s))).
  set (kept := filter _ joined).
  rewrite map_map.
  change (fun x => ProfessorRoutes.rl_review (ProfessorRoutes.review_line_of x))
    with (fun x : review_row * user_row * option course_row => fst (fst x)).
  split; [|split].
  - apply perm_trans with (map (fun x => fst (fst x)) kept).
    + apply Permutation_map, order_by_perm.
    + unfold kept, authored_reviews_of_professor.
      rewrite (map_filter_swap
                 (fun x : review_row * user_row * option course_row =>
                    fst (fst x))
                 (fun rv => Sql.eq_int (review_professor_id rv) id)).
      unfold joined. rewrite (joined_lines_reviews s _ Hu Hc).
      apply Permutation_refl.
  - apply StronglySorted_map.
    apply StronglySorted_weaken
      with (R := fun x y => ProfessorRoutes.newest_line_first x y = true).
    + intros x y H. unfold newer_or_same.
      unfold ProfessorRoutes.newest_line_first in H. now apply Z.leb_le.
    + apply (order_by_sorted ProfessorRoutes.newest_line_first
               newest_line_first_total newest_line_first_trans).
  - intros l Hl. apply in_map_iff in Hl.
    destruct Hl as [[[rv u] oc] [<- Hin]].
    apply order_by_In in Hin. apply filter_In in Hin.
    destruct Hin as [Hin _]. unfold joined in Hin.
    apply in_flat_map in Hin. destruct Hin as [[rv0 u0] [Hru Hin]].
    apply left_join_in in Hin. destruct Hin as [E Hoc].
    injection E as -> ->.
    apply inner_join_in in Hru. destruct Hru as [_ [Hu0 Hon]].
    unfold ProfessorRoutes.review_author in Hon. apply Z.eqb_eq in Hon.
    unfold review_line_ok, ProfessorRoutes.review_line_of.
    cbn [fst snd ProfessorRoutes.rl_review ProfessorRoutes.rl_user_name
         ProfessorRoutes.rl_course_code ProfessorRoutes.rl_course_name].
    split; [exists u0; auto|].
    destruct oc as [c|]; cbn [option_map].
    + destruct Hoc as [Hcin Hcon].
      unfold ProfessorRoutes.review_course in Hcon. cbn [fst] in Hcon.
      apply Z.eqb_eq in Hcon. exists c. auto.
    + split; [reflexivity|]. intros Hid. apply in_map_iff in Hid.
      destruct Hid as [c [Ec Hcin]]. specialize (Hoc c Hcin).
      unfold ProfessorRoutes.review_course in Hoc. cbn [fst] in Hoc.
      apply Z.eqb_neq in Hoc. congruence.
Qed.

Lemma reviews_of_professor_spec_witness :
  map (fun l => (review_id (ProfessorRoutes.rl_review l),
                 ProfessorRoutes.rl_user_name l,
                 ProfessorRoutes.rl_course_code l))
    (ProfessorRoutes.reviews_of_professor 1 campus_reviewed)
  = [(2, "Bob", None); (1, "Ada", Some "COMP 3030")]
  /\ Permutation
       (map ProfessorRoutes.rl_review
          (ProfessorRoutes.reviews_of_professor 1 campus_reviewed))
       (authored_reviews_of_professor 1 campus_reviewed)
  /\ StronglySorted newer_or_same
       (map ProfessorRoutes.rl_review
          (ProfessorRoutes.reviews_of_professor 1 campus_reviewed))
  /\ (forall l,
        In l (ProfessorRoutes.reviews_of_professor 1 campus_reviewed) ->
        review_line_ok campus_reviewed l).
Proof.
  split; [reflexivity|].
  apply (reviews_of_professor_spec 1 campus_reviewed).
  - repeat constructor; simpl; intuition discriminate.
  - repeat constructor; simpl; intuition.
Defined.

(* ================================================================== *)
(** * [findAll] against [findByDepartment] and [search] *)

(** X3.  [findAll] with only a department (not ["all"]) returns what
    [findByDepartment] returns, and [findAll] with only a search text that
    is not blank returns what [search] returns for the trimmed text:
    [findAll] trims, [search] takes the keyword as it comes. *)
Theorem findAll_agrees (s : store) (a : ascii) (d t : string) :
  String a d <> "all" ->
  Js.trim t <> "" ->
  Course.findAll {| Course.fl_department := Some (String a d);
                    Course.fl_search := None |} s
  = Course.findByDepartment (String a d) s
  /\ Course.findAll {| Course.fl_department := None;
                       Course.fl_search := Some t |} s
     = Course.search (Js.trim t) s.
Proof.
  intros Hd Ht. rewrite !findAll_eval.
  unfold Course.findByDepartment, Course.search, bind, get, ret.
  cbn [fst snd]. split.
  - do 3 f_equal. apply filter_ext. intros c.
    unfold Course.department_filter, Course.search_filter.
    cbn [Course.fl_department Course.fl_search Js.truthy_str Js.text andb].
    apply String.eqb_neq in Hd. rewrite Hd. cbn [negb].
    apply andb_true_r.
  - do 3 f_equal. apply filter_ext. intros c.
    unfold Course.department_filter, Course.search_filter.
    cbn [Course.fl_department Course.fl_search Js.truthy_str andb].
    destruct t as [|b t]; [contradiction Ht; reflexivity|].
    cbn [Js.truthy_str Js.text].
    apply String.eqb_neq in Ht. rewrite Ht. reflexivity.
Qed.

Lemma findAll_agrees_witness :
  Course.findAll {| Course.fl_department := Some "COMP";
                    Course.fl_search := None |} (store_rated [])
  = Course.findByDepartment "COMP" (store_rated [])
  /\ Course.findAll {| Course.fl_department := None;
                       Course.fl_search := Some padded_algo |}
       (store_rated [])
     = Course.search "algo" (store_rated []).
Proof.
  apply (findAll_agrees (store_rated []) "C"%char "OMP" padded_algo).
  - discriminate.
  - vm_compute. discriminate.
Defined.

(* ================================================================== *)
(** * [updateUserType] *)


